(** * OpenMRS on AWS Fargate: the CDK stack, its bootstrap jobs and their scripts

    A shallow embedding of [src/openmrs_ecs/openmrs_ecs_stack.py].

    The stack is a Python class whose constructor calls seventeen builder
    methods in a fixed order.  Every builder creates constructs in the scope
    [self], stores some of them in attributes of [self] and mutates
    constructs created earlier (environment variables, mount points,
    dependencies, security-group rules).  The embedding keeps that shape: a
    state record holds the constructs, the [node.add_dependency] edges, the
    attributes of [self] and the references that calls add to a construct
    after it was made; the builders are written in a small state-and-error
    monad, in the order and with the identifiers of the source.

    Every construct the source creates in the scope [self] is a construct
    of the embedding; those the properties below do not speak about are
    kept opaque, with the constructs they were given.  The library that
    makes the constructs examines what it is given and may raise: every
    call that is handed a value of the deployment context goes through
    [calling], and the builders are parameterised by what the library
    accepts.  Not modelled: IAM policy statements and grants (a grant adds
    statements to the role of the grantee, inside the grantee's own
    construct), the security-group rules on address ranges (they name no
    construct), the rules the library adds on its own between a load
    balancer and its targets, and the auto-scaling of the service.

    The job containers run shell scripts held in the stack as Python
    strings.  The strings are kept character for character; a reader of
    and-lists splits them into commands, and each command of the job
    scripts is given its effect on the files of the mounted volumes. *)

From Stdlib Require Import String Ascii List Bool Arith ZArith Lia.
From Stdlib Require Import Decimal DecimalString.
Import ListNotations.
Local Open Scope string_scope.

(** ** Python values *)

(** [str(n)] for an integer. *)
Definition str_int (n : Z) : string := NilZero.string_of_int (Z.to_int n).

(** The integer a word of decimal digits stands for, as the command-line
    tools below read their numeric arguments. *)
Definition int_of_str (s : string) : option Z :=
  option_map Z.of_int (NilZero.int_of_string s).

(** Truth value of what [self.node.try_get_context(key)] returns: [None] and
    the empty string are false. *)
Definition truthy (v : option string) : bool :=
  match v with
  | None => false
  | Some s => negb (String.eqb s "")
  end.

(** [self.node.try_get_context(key) == s]. *)
Definition ctx_is (v : option string) (s : string) : bool :=
  match v with
  | None => false
  | Some s' => String.eqb s' s
  end.

(** A context value interpolated in an f-string. *)
Definition py_str (v : option string) : string :=
  match v with
  | None => "None"
  | Some s => s
  end.

(** A context value that is not one of the switches: [cdk.json] gives a
    string or a number, [-c key=value] a string. *)
Inductive datum := Text (s : string) | Number (n : Z).

(** A string of the context as an argument of a call. *)
Definition text (v : option string) : option datum := option_map Text v.

(** The deployment context, [cdk.json] or [-c key=value]: every key the
    stack reads but [enable_data_api], each as [try_get_context] returns
    it, [None] where the key is not set.  The switches and the names are
    strings; the sizes and durations are handed to the library as they
    are. *)
Record Context := {
  certificate_arn : option string;
  route53_domain : option string;
  configure_ses : option string;
  email_forwarding_address : option string;
  enable_global_accelerator : option string;
  enable_bedrock_integration : option string;
  enable_ecs_exec : option string;
  create_serverless_analytics_environment : option string;
  openmrs_reference_application_version : option string;
  security_group_ip_range_ipv4 : option string;
  security_group_ip_range_ipv6 : option string;
  open_smtp_port : option string;
  net_read_timeout : option datum;
  net_write_timeout : option datum;
  wait_timeout : option datum;
  connect_timeout : option datum;
  max_execution_time : option datum;
  aurora_ml_inference_timeout : option datum;
  openmrs_service_fargate_cpu_per_task : option datum;
  openmrs_service_fargate_ram_per_task : option datum;
  openmrs_service_fargate_minimum_capacity : option datum;
  openmrs_service_fargate_maximum_capacity : option datum;
  sticky_session_cookie_length_in_minutes : option datum;
  openmrs_service_fargate_cpu_autoscaling_percentage : option datum;
  openmrs_service_fargate_memory_autoscaling_percentage : option datum
}.

(** ** CDK values

    A property of a construct is a Python string in which attributes of other
    constructs may be spliced (an f-string, a concatenation, a bare token).
    The attributes are resolved at deployment time, so the embedding keeps
    them symbolic: [Tok c a] is attribute [a] of construct [c], [Joined]
    is [sep.join] over a list-valued attribute, [Pseudo] is [self.region] or
    [self.account]. *)
Inductive fragment :=
| Lit (s : string)
| Tok (construct attribute : string)
| Joined (sep construct attribute : string)
| Pseudo (name : string).

Definition value := list fragment.

Definition fragment_refs (f : fragment) : list string :=
  match f with
  | Lit _ => []
  | Tok c _ => [c]
  | Joined _ c _ => [c]
  | Pseudo _ => []
  end.

Definition value_refs (v : value) : list string := flat_map fragment_refs v.

(** [Duration.minutes(n)], [Duration.days(n)]. *)
Inductive Duration := minutes (n : Z) | days (n : Z).

Definition to_seconds (d : Duration) : Z :=
  match d with
  | minutes n => 60 * n
  | days n => 86400 * n
  end.

(** [events.Schedule.rate(duration)]. *)
Inductive Schedule := rate (d : Duration).

(** ** Constructs *)

(** [secretsmanager.SecretStringGenerator]. *)
Record SecretStringGenerator := {
  exclude_punctuation : bool;
  include_space : bool;
  secret_string_template : string;
  generate_string_key : string
}.

(** The three ways the stack fills a [secretsmanager.Secret]. *)
Inductive SecretContent :=
| generate_secret_string (g : SecretStringGenerator)
| secret_object_value (fields : list (string * value))
| no_secret_properties.

(** [_lambda.Function] and [triggers.TriggerFunction] share their
    properties; [fn_timeout] is [None] where the source passes none. *)
Record LambdaFunction := {
  runtime : string;
  code_asset : string;
  architecture : string;
  handler : string;
  fn_timeout : option Duration;
  environment : list (string * value)
}.

Record Rule := {
  schedule : Schedule;
  targets : list string
}.

Record MountPoint := {
  container_path : string;
  read_only : bool;
  source_volume : string
}.

Inductive EcsSecret :=
| from_secrets_manager (secret field : string)
| from_ssm_parameter (parameter : string).

Record ContainerDefinition := {
  container_id : string;
  container_name : string;
  log_stream_prefix : string;
  log_group : string;
  image : value;
  entry_point : list string;
  command : list value;
  user : string;
  essential : bool;
  container_port : Z;
  health_check : list string;
  container_environment : list (string * value);
  container_secrets : list (string * EcsSecret);
  mount_points : list MountPoint;
  container_dependencies : list (string * string)
}.

(** [ecs.EfsVolumeConfiguration]: a plain object, not a construct. *)
Record EfsVolumeConfiguration := {
  file_system_id : value;
  transit_encryption : string
}.

Record TaskDefinition := {
  volumes : list (string * EfsVolumeConfiguration);
  containers : list ContainerDefinition
}.

(** [ecs_patterns.ApplicationLoadBalancedFargateService]. *)
Record FargateService := {
  service_certificate : option string;
  min_healthy_percent : nat;
  service_cluster : string;
  load_balancer : string;
  open_listener : bool;
  target_protocol : string;
  service_task_definition : string
}.

(** A construct of the stack.  [Opaque kind refs] stands for a construct
    whose properties play no part below; [refs] lists the constructs its
    constructor was given.  [SecurityGroupR] is an [ec2.SecurityGroup] the
    source makes itself: [allow_all_outbound] is [True] where the source
    does not pass it. *)
Inductive resource :=
| SecretR (s : SecretContent)
| FunctionR (f : LambdaFunction)
| TriggerFunctionR (f : LambdaFunction)
| RuleR (r : Rule)
| TaskDefinitionR (t : TaskDefinition)
| ServiceR (s : FargateService)
| StringParameterR (parameter_name : string) (string_value : value)
| SecurityGroupR (vpc : string) (allow_all_outbound : bool)
| Opaque (kind : string) (refs : list string).

(** ** The stack under construction *)

(** [security_groups] holds, for a construct that was given its security
    group, the group; a construct not listed connects through the group the
    library makes inside it.  [references] holds the pairs [(a, b)] for
    which a call made a child of [a] that refers to [b] after [a] was
    constructed: a security-group rule in the scope of [a]'s group that
    names [b]'s group, or the attachment of a secret to its database. *)
Record Stack := {
  constructs : list (string * resource);
  node_dependencies : list (string * string);
  self_attributes : list (string * string);
  security_groups : list (string * string);
  references : list (string * string)
}.

Definition empty_stack : Stack :=
  {| constructs := []; node_dependencies := []; self_attributes := [];
     security_groups := []; references := [] |}.

(** The library, as far as the builders depend on it: whether it accepts
    a call, given by the name of what is called and the arguments that come
    from the deployment context.  (Whether it raises on the arguments the
    source fixes does not vary from one deployment to the next.) *)
Definition Library : Type := string -> list (string * option datum) -> bool.

Inductive error :=
| AttributeError (name : string)
| DuplicateConstruct (id : string)
| NoSuchConstruct (id : string)
| Rejected (callee : string) (arguments : list (string * option datum)).

(** Builders read and update the stack and may raise. *)
Definition M (A : Type) : Type := Stack -> error + (A * Stack).

Definition ret {A : Type} (a : A) : M A := fun st => inr (a, st).

Definition bind {A B : Type} (c : M A) (k : A -> M B) : M B :=
  fun st =>
    match c st with
    | inl e => inl e
    | inr (a, st') => k a st'
    end.

Definition raise {A : Type} (e : error) : M A := fun _ => inl e.

Declare Scope stack_scope.
Delimit Scope stack_scope with stack.
Notation "x <- c ;; k" := (bind c (fun x => k))
  (at level 61, c at next level, right associativity) : stack_scope.
Notation "c ;; k" := (bind c (fun _ => k))
  (at level 61, right associativity) : stack_scope.
Local Open Scope stack_scope.

Definition when (b : bool) (c : M unit) : M unit := if b then c else ret tt.

Fixpoint lookup {A : Type} (k : string) (l : list (string * A)) : option A :=
  match l with
  | [] => None
  | (k', a) :: l' => if String.eqb k k' then Some a else lookup k l'
  end.

(** A Python dict assignment [d[k] = a]: the entry is replaced where the key
    exists and appended otherwise. *)
Fixpoint assign {A : Type} (k : string) (a : A) (l : list (string * A)) : list (string * A) :=
  match l with
  | [] => [(k, a)]
  | (k', a') :: l' =>
      if String.eqb k k' then (k, a) :: l' else (k', a') :: assign k a l'
  end.

(** [Kind(self, id, ...)]: a construct id is used once in a scope. *)
Definition construct (id : string) (r : resource) : M unit :=
  fun st =>
    match lookup id (constructs st) with
    | Some _ => inl (DuplicateConstruct id)
    | None =>
        inr (tt, {| constructs := constructs st ++ [(id, r)];
                    node_dependencies := node_dependencies st;
                    self_attributes := self_attributes st;
                    security_groups := security_groups st;
                    references := references st |})
    end.

(** [self.name = construct]. *)
Definition set_attr (name id : string) : M unit :=
  fun st =>
    inr (tt, {| constructs := constructs st;
                node_dependencies := node_dependencies st;
                self_attributes := assign name id (self_attributes st);
                security_groups := security_groups st;
                references := references st |}).

(** [self.name], which raises where the attribute was never assigned. *)
Definition get_attr (name : string) : M string :=
  fun st =>
    match lookup name (self_attributes st) with
    | Some id => inr (id, st)
    | None => inl (AttributeError name)
    end.

(** [dependent.node.add_dependency(dependency)]. *)
Definition add_dependency (dependent dependency : string) : M unit :=
  fun st =>
    inr (tt, {| constructs := constructs st;
                node_dependencies := node_dependencies st ++ [(dependent, dependency)];
                self_attributes := self_attributes st;
                security_groups := security_groups st;
                references := references st |}).

(** In-place mutation of a construct created earlier. *)
Definition mutate (id : string) (f : resource -> resource) : M unit :=
  fun st =>
    match lookup id (constructs st) with
    | None => inl (NoSuchConstruct id)
    | Some r =>
        inr (tt, {| constructs := assign id (f r) (constructs st);
                    node_dependencies := node_dependencies st;
                    self_attributes := self_attributes st;
                    security_groups := security_groups st;
                    references := references st |})
    end.

Definition set_environment (key : string) (v : value) (f : LambdaFunction) : LambdaFunction :=
  {| runtime := runtime f; code_asset := code_asset f; architecture := architecture f;
     handler := handler f; fn_timeout := fn_timeout f;
     environment := assign key v (environment f) |}.

(** [fn.add_environment(key, value)]. *)
Definition add_environment (fn key : string) (v : value) : M unit :=
  mutate fn (fun r =>
    match r with
    | FunctionR f => FunctionR (set_environment key v f)
    | TriggerFunctionR f => TriggerFunctionR (set_environment key v f)
    | _ => r
    end).

Definition map_task (f : TaskDefinition -> TaskDefinition) (r : resource) : resource :=
  match r with
  | TaskDefinitionR t => TaskDefinitionR (f t)
  | _ => r
  end.

(** [task.add_volume(name=..., efs_volume_configuration=...)]. *)
Definition add_volume (task name : string) (cfg : EfsVolumeConfiguration) : M unit :=
  mutate task (map_task (fun t =>
    {| volumes := volumes t ++ [(name, cfg)]; containers := containers t |})).

(** [task.add_container(id, ...)]. *)
Definition add_container (task : string) (c : ContainerDefinition) : M unit :=
  mutate task (map_task (fun t =>
    {| volumes := volumes t; containers := containers t ++ [c] |})).

Definition map_container (id : string) (f : ContainerDefinition -> ContainerDefinition)
  (t : TaskDefinition) : TaskDefinition :=
  {| volumes := volumes t;
     containers := map (fun c => if String.eqb (container_id c) id then f c else c)
                       (containers t) |}.

(** [container.add_mount_points(mp, ...)]. *)
Definition add_mount_points (task container : string) (mps : list MountPoint) : M unit :=
  mutate task (map_task (map_container container (fun c =>
    {| container_id := container_id c; container_name := container_name c;
       log_stream_prefix := log_stream_prefix c; log_group := log_group c;
       image := image c; entry_point := entry_point c; command := command c;
       user := user c; essential := essential c; container_port := container_port c;
       health_check := health_check c;
       container_environment := container_environment c;
       container_secrets := container_secrets c;
       mount_points := mount_points c ++ mps;
       container_dependencies := container_dependencies c |}))).

(** [container.add_container_dependencies(ecs.ContainerDependency(container=on, condition=cond))]. *)
Definition add_container_dependencies (task container on cond : string) : M unit :=
  mutate task (map_task (map_container container (fun c =>
    {| container_id := container_id c; container_name := container_name c;
       log_stream_prefix := log_stream_prefix c; log_group := log_group c;
       image := image c; entry_point := entry_point c; command := command c;
       user := user c; essential := essential c; container_port := container_port c;
       health_check := health_check c;
       container_environment := container_environment c;
       container_secrets := container_secrets c;
       mount_points := mount_points c;
       container_dependencies := container_dependencies c ++ [(on, cond)] |}))).

(** [construct.method(other)] on a construct kept opaque: records that
    [other] is now referred to by [id]. *)
Definition add_ref (id other : string) : M unit :=
  mutate id (fun r =>
    match r with
    | Opaque k refs => Opaque k (refs ++ [other])
    | _ => r
    end).

(** A call that is handed values of the context: the library examines
    them and raises where it does not accept them. *)
Definition calling (lib : Library) (callee : string)
  (arguments : list (string * option datum)) : M unit :=
  fun st => if lib callee arguments then inr (tt, st) else inl (Rejected callee arguments).

(** *** Security groups and connections *)

(** [Kind(self, id, ..., security_group=group)]: [id] connects through
    [group]. *)
Definition given_security_group (id group : string) : M unit :=
  fun st =>
    inr (tt, {| constructs := constructs st;
                node_dependencies := node_dependencies st;
                self_attributes := self_attributes st;
                security_groups := assign id group (security_groups st);
                references := references st |}).

(** The construct that holds the security group of [id.connections]. *)
Definition group_of (st : Stack) (id : string) : string :=
  match lookup id (security_groups st) with
  | Some group => group
  | None => id
  end.

(** Whether egress rules are kept for a group: the library ignores them
    for a group that allows all outbound traffic, which every group does
    but those made with [allow_all_outbound=False]. *)
Definition restricts_outbound (st : Stack) (group : string) : bool :=
  match lookup group (constructs st) with
  | Some (SecurityGroupR _ all_outbound) => negb all_outbound
  | _ => false
  end.

Definition has_pair (a b : string) (l : list (string * string)) : bool :=
  existsb (fun e => String.eqb (fst e) a && String.eqb (snd e) b) l.

(** A child of [a] that refers to [b]; a rule a group already has is not
    made again. *)
Definition refer (a b : string) : M unit :=
  fun st =>
    inr (tt, {| constructs := constructs st;
                node_dependencies := node_dependencies st;
                self_attributes := self_attributes st;
                security_groups := security_groups st;
                references := if has_pair a b (references st) then references st
                              else references st ++ [(a, b)] |}).

(** An ingress rule of [group] for the peer group [peer], and an egress
    rule likewise, which is kept only where [group] restricts outbound
    traffic. *)
Definition ingress_rule (group peer : string) : M unit := refer group peer.

Definition egress_rule (group peer : string) : M unit :=
  fun st => if restricts_outbound st group then refer group peer st else inr (tt, st).

(** [this.connections.allow_from(other, port)] and
    [allow_default_port_from(other)]: [this] accepts connections from
    [other], and [other] is let out towards [this]. *)
Definition allow_from (this other : string) : M unit :=
  fun st =>
    let a := group_of st this in
    let b := group_of st other in
    bind (ingress_rule a b) (fun _ => egress_rule b a) st.

(** [this.connections.allow_to(other, port)] and
    [allow_default_port_to(other)]. *)
Definition allow_to (this other : string) : M unit :=
  fun st =>
    let a := group_of st this in
    let b := group_of st other in
    bind (egress_rule a b) (fun _ => ingress_rule b a) st.

(** A rule for an address range: [group.add_ingress_rule(peer, port)],
    [group.add_egress_rule(peer, port)] and
    [this.connections.allow_to_any_ipv4(port)].  It names no construct and
    is not kept. *)
Definition address_rule (group : string) (port : Z) : M unit := ret tt.

(** [rds.Credentials.from_secret(secret)] handed to a database: the
    library attaches the secret, in whose scope the attachment is made. *)
Definition attach_secret (secret database : string) : M unit := refer secret database.

(** ** The constants assigned in [__init__] *)

Definition mysql_port : Z := 3306.
Definition gateway_container_port : Z := 8082.
Definition frontend_container_port : Z := 80.
Definition backend_container_port : Z := 8080.
Definition number_of_days_to_regenerate_ssl_materials : Z := 2.
Definition lambda_python_runtime : string := "PYTHON_3_13".

(** The properties every Lambda of the stack is given. *)
Definition python_lambda (h : string) (t : option Duration) (env : list (string * value))
  : LambdaFunction :=
  {| runtime := lambda_python_runtime; code_asset := "lambda"; architecture := "ARM_64";
     handler := h; fn_timeout := t; environment := env |}.

(** ** The builders, in the order [__init__] calls them *)

Definition _create_vpc : M unit :=
  construct "Flow-Log-Role" (Opaque "iam.Role" []) ;;
  construct "VPC-Log-Group" (Opaque "logs.LogGroup" []) ;;
  construct "OpenMRS-VPC" (Opaque "ec2.Vpc" []) ;;
  set_attr "vpc" "OpenMRS-VPC" ;;
  vpc <- get_attr "vpc" ;;
  construct "FlowLogs" (Opaque "ec2.CfnFlowLog" [vpc; "Flow-Log-Role"; "VPC-Log-Group"]).

(** [group.add_ingress_rule(ec2.Peer.ipv4(cidr), ec2.Port.tcp(port))]
    followed by [group.add_egress_rule] with the same arguments;
    [peer] is [ec2.Peer.ipv4] or [ec2.Peer.ipv6], which examines the
    range. *)
Definition open_to_range (lib : Library) (group peer : string) (cidr : option string)
  (port : Z) : M unit :=
  calling lib peer [("cidr_ip", text cidr)] ;;
  address_rule group port ;;
  calling lib peer [("cidr_ip", text cidr)] ;;
  address_rule group port.

Definition _create_security_groups (lib : Library) (ctx : Context) : M unit :=
  vpc <- get_attr "vpc" ;;
  construct "db-sec-group" (SecurityGroupR vpc false) ;;
  set_attr "db_sec_group" "db-sec-group" ;;
  vpc <- get_attr "vpc" ;;
  construct "lb-sec-group" (SecurityGroupR vpc false) ;;
  set_attr "lb_sec_group" "lb-sec-group" ;;
  (if truthy (certificate_arn ctx) || truthy (route53_domain ctx)
   then
     let cidr_ipv4 := security_group_ip_range_ipv4 ctx in
     when (truthy cidr_ipv4)
       (sg <- get_attr "lb_sec_group" ;; open_to_range lib sg "ec2.Peer.ipv4" cidr_ipv4 443)
   else
     let cidr_ipv4 := security_group_ip_range_ipv4 ctx in
     when (truthy cidr_ipv4)
       (sg <- get_attr "lb_sec_group" ;; open_to_range lib sg "ec2.Peer.ipv4" cidr_ipv4 80)) ;;
  (if truthy (certificate_arn ctx) || truthy (route53_domain ctx)
   then
     let cidr_ipv6 := security_group_ip_range_ipv6 ctx in
     when (truthy cidr_ipv6)
       (sg <- get_attr "lb_sec_group" ;; open_to_range lib sg "ec2.Peer.ipv6" cidr_ipv6 443)
   else
     let cidr_ipv6 := security_group_ip_range_ipv6 ctx in
     when (truthy cidr_ipv6)
       (sg <- get_attr "lb_sec_group" ;; open_to_range lib sg "ec2.Peer.ipv6" cidr_ipv6 80)).

Definition _create_elb_log_bucket : M unit :=
  construct "elb-logs-bucket" (Opaque "s3.Bucket" []) ;;
  set_attr "elb_log_bucket" "elb-logs-bucket".

Definition _create_alb (ctx : Context) : M unit :=
  sg <- get_attr "lb_sec_group" ;;
  vpc <- get_attr "vpc" ;;
  construct "Load-Balancer" (Opaque "elb.ApplicationLoadBalancer" [sg; vpc]) ;;
  given_security_group "Load-Balancer" sg ;;
  set_attr "alb" "Load-Balancer" ;;
  alb <- get_attr "alb" ;;
  bucket <- get_attr "elb_log_bucket" ;;
  add_ref alb bucket ;;
  when (ctx_is (enable_global_accelerator ctx) "true")
    (construct "GlobalAccelerator" (Opaque "ga.Accelerator" []) ;;
     set_attr "accelerator" "GlobalAccelerator" ;;
     accelerator <- get_attr "accelerator" ;;
     (if truthy (certificate_arn ctx) || truthy (route53_domain ctx)
      then construct "GlobalAccelerator/GAListener" (Opaque "ga.Listener:443" [accelerator])
      else construct "GlobalAccelerator/GAListener" (Opaque "ga.Listener:80" [accelerator])) ;;
     construct "GlobalAccelerator/GAListener/EndpointGroup"
       (Opaque "ga.EndpointGroup" ["GlobalAccelerator/GAListener"; alb]) ;;
     construct "GlobalAcceleratorUrl" (Opaque "CfnOutput" [accelerator])).

Definition _create_and_configure_dns_and_certificates (lib : Library) (ctx : Context)
  : M unit :=
  when (truthy (route53_domain ctx))
    (calling lib "route53.HostedZone.from_lookup"
       [("domain_name", text (route53_domain ctx))] ;;
     construct "HostedZoneForRoute53" (Opaque "route53.HostedZone.from_lookup" []) ;;
     calling lib "acm.Certificate"
       [("domain_name", Some (Text ("*." ++ py_str (route53_domain ctx))))] ;;
     construct "Certificate" (Opaque "acm.Certificate" ["HostedZoneForRoute53"]) ;;
     set_attr "certificate" "Certificate" ;;
     (if ctx_is (enable_global_accelerator ctx) "true"
      then accelerator <- get_attr "accelerator" ;;
           construct "AliasRecordOpenMRS"
             (Opaque "route53.ARecord" ["HostedZoneForRoute53"; accelerator])
      else alb <- get_attr "alb" ;;
           construct "AliasRecordOpenMRS"
             (Opaque "route53.ARecord" ["HostedZoneForRoute53"; alb]))).

Definition _configure_ses (lib : Library) (ctx : Context) : M unit :=
  when (truthy (route53_domain ctx) && ctx_is (configure_ses ctx) "true")
    (let domain := py_str (route53_domain ctx) in
     calling lib "route53.HostedZone.from_lookup"
       [("domain_name", text (route53_domain ctx))] ;;
     construct "HostedZoneForSES" (Opaque "route53.HostedZone.from_lookup" []) ;;
     calling lib "ses.EmailIdentity"
       [("mail_from_domain", Some (Text ("services." ++ domain)))] ;;
     construct "SESIdentity" (Opaque "ses.EmailIdentity" ["HostedZoneForSES"]) ;;
     construct "DkimCnameRecord1" (Opaque "route53.CnameRecord" ["HostedZoneForSES"; "SESIdentity"]) ;;
     construct "DkimCnameRecord2" (Opaque "route53.CnameRecord" ["HostedZoneForSES"; "SESIdentity"]) ;;
     construct "DkimCnameRecord3" (Opaque "route53.CnameRecord" ["HostedZoneForSES"; "SESIdentity"]) ;;
     calling lib "route53.TxtRecord"
       [("values", Some (Text ("v=DMARC1;p=quarantine;rua=mailto:help@" ++ domain)))] ;;
     construct "DmarcRecord" (Opaque "route53.TxtRecord" ["HostedZoneForSES"]) ;;
     construct "SmtpUser" (Opaque "iam.User" []) ;;
     construct "SmtpAccessKey" (Opaque "iam.AccessKey" ["SmtpUser"]) ;;
     construct "smtp-secret" (SecretR no_secret_properties) ;;
     set_attr "smtp_password" "smtp-secret" ;;
     construct "secret-access-key"
       (SecretR (secret_object_value
                   [("password", [Tok "SmtpAccessKey" "secret_access_key"])])) ;;
     set_attr "secret_access_key" "secret-access-key" ;;
     construct "SMTPSetup"
       (TriggerFunctionR
          (python_lambda "lambda_functions.generate_smtp_credential" (Some (minutes 10)) [])) ;;
     set_attr "one_time_generate_smtp_credential_lambda" "SMTPSetup" ;;
     smtp_lambda <- get_attr "one_time_generate_smtp_credential_lambda" ;;
     secret_access_key <- get_attr "secret_access_key" ;;
     smtp_password <- get_attr "smtp_password" ;;
     add_environment smtp_lambda "SECRET_ACCESS_KEY" [Tok secret_access_key "secret_arn"] ;;
     add_environment smtp_lambda "SMTP_PASSWORD" [Tok smtp_password "secret_arn"] ;;
     construct "mail-transport-protocol"
       (StringParameterR "mail_transport_protocol" [Lit "smtp"]) ;;
     set_attr "mail_transport_protocol" "mail-transport-protocol" ;;
     construct "mail-user"
       (StringParameterR "mail_user" [Tok "SmtpAccessKey" "access_key_id"]) ;;
     set_attr "mail_user" "mail-user" ;;
     construct "smtp-host"
       (StringParameterR "smtp_host" [Lit "email-smtp."; Pseudo "region"; Lit ".amazonaws.com"]) ;;
     set_attr "smtp_host" "smtp-host" ;;
     construct "smtp-port" (StringParameterR "smtp_port" [Lit "587"]) ;;
     set_attr "smtp_port" "smtp-port" ;;
     construct "smtp-auth" (StringParameterR "smtp_auth" [Lit "true"]) ;;
     set_attr "smtp_auth" "smtp-auth" ;;
     construct "smtp-tls-enable" (StringParameterR "smtp_tls_enable" [Lit "true"]) ;;
     set_attr "smtp_tls_enable" "smtp-tls-enable" ;;
     calling lib "ssm.StringParameter"
       [("string_value", Some (Text ("notifications@" ++ "services." ++ domain)))] ;;
     construct "mail-from"
       (StringParameterR "mail_from" [Lit ("notifications@" ++ "services." ++ domain)]) ;;
     set_attr "mail_from" "mail-from" ;;
     vpc <- get_attr "vpc" ;;
     construct "OpenMRS-VPC/smtp_vpc_interface_endpoint"
       (Opaque "ec2.InterfaceVpcEndpoint" [vpc]) ;;
     set_attr "smtp_interface_endpoint" "OpenMRS-VPC/smtp_vpc_interface_endpoint" ;;
     calling lib "route53.MxRecord" [("record_name", text (route53_domain ctx))] ;;
     construct "MxReceivingRecord" (Opaque "route53.MxRecord" ["HostedZoneForSES"]) ;;
     construct "EmailStorageBucket" (Opaque "s3.Bucket" []) ;;
     set_attr "email_storage_bucket" "EmailStorageBucket" ;;
     bucket <- get_attr "email_storage_bucket" ;;
     construct "SesRole" (Opaque "iam.Role" []) ;;
     construct "RuleSet" (Opaque "ses.ReceiptRuleSet" []) ;;
     (if truthy (email_forwarding_address ctx)
      then
        calling lib "_lambda.Function"
          [("FORWARD_TO", text (email_forwarding_address ctx));
           ("SOURCE_NAME", Some (Text ("help@" ++ domain)))] ;;
        construct "EmailForwardingLambda"
          (FunctionR
             (python_lambda "lambda_functions.send_email" None
                [("FORWARD_TO", [Lit (py_str (email_forwarding_address ctx))]);
                 ("SOURCE_ARN", [Tok "SESIdentity" "email_identity_arn"]);
                 ("SOURCE_NAME", [Lit ("help@" ++ domain)]);
                 ("BUCKET_NAME", [Tok bucket "bucket_name"])])) ;;
        set_attr "email_forwarding_lambda" "EmailForwardingLambda" ;;
        calling lib "ses.ReceiptRuleSet.add_rule"
          [("recipients", Some (Text ("help@" ++ domain)))] ;;
        fwd <- get_attr "email_forwarding_lambda" ;;
        construct "RuleSet/ForwardingRule" (Opaque "ses.ReceiptRule" ["RuleSet"; bucket; fwd])
      else
        calling lib "ses.ReceiptRuleSet.add_rule"
          [("recipients", Some (Text ("help@" ++ domain)))] ;;
        construct "RuleSet/ForwardingRule" (Opaque "ses.ReceiptRule" ["RuleSet"; bucket])) ;;
     construct "MakeRuleSetActive"
       (TriggerFunctionR
          (python_lambda "lambda_functions.make_ruleset_active" (Some (minutes 10))
             [("RULE_SET_NAME", [Tok "RuleSet" "receipt_rule_set_name"])])) ;;
     set_attr "set_rule_set_to_active" "MakeRuleSetActive").

Definition _create_waf : M unit :=
  construct "web-acl" (Opaque "wafv2.CfnWebACL" []) ;;
  construct "WAF-Log-Group" (Opaque "logs.LogGroup" []) ;;
  alb <- get_attr "alb" ;;
  construct "WebACLAssociation" (Opaque "wafv2.CfnWebACLAssociation" [alb; "web-acl"]) ;;
  construct "waf-logging-configuration"
    (Opaque "wafv2.CfnLoggingConfiguration" ["web-acl"; "WAF-Log-Group"]) ;;
  alb <- get_attr "alb" ;;
  add_dependency "web-acl" alb.

Definition _create_environment_variables : M unit :=
  construct "swarm-mode" (StringParameterR "swarm_mode" [Lit "yes"]) ;;
  set_attr "swarm_mode" "swarm-mode" ;;
  construct "mysql-port" (StringParameterR "mysql_port" [Lit (str_int mysql_port)]) ;;
  set_attr "mysql_port_var" "mysql-port".

(** The double-quote character of the JSON templates. *)
Definition dq : string := String (ascii_of_nat 34) EmptyString.

(** The Python literal ['{"username": "<name>"}']. *)
Definition username_template (name : string) : string :=
  "{" ++ dq ++ "username" ++ dq ++ ": " ++ dq ++ name ++ dq ++ "}".

Definition _create_password : M unit :=
  construct "Password"
    (SecretR (generate_secret_string
                {| exclude_punctuation := true;
                   include_space := false;
                   secret_string_template := username_template "admin";
                   generate_string_key := "password" |})) ;;
  set_attr "password" "Password".

(** The two [rds.DatabaseCluster] calls differ in [enable_data_api=True]
    alone, a property kept out of the embedding, so the branch on
    [enable_data_api] is folded.  [rds.Credentials.from_secret(db_secret)]
    makes [db_secret] the cluster's [secret], which the library attaches to
    the cluster.  The parameters of the group that come from the context
    are handed over as [try_get_context] returns them. *)
Definition _create_db_instance (lib : Library) (ctx : Context) : M unit :=
  construct "db-secret"
    (SecretR (generate_secret_string
                {| exclude_punctuation := true;
                   include_space := false;
                   secret_string_template := username_template "dbadmin";
                   generate_string_key := "password" |})) ;;
  let parameters :=
    [("net_read_timeout", net_read_timeout ctx);
     ("net_write_timeout", net_write_timeout ctx);
     ("wait_timeout", wait_timeout ctx);
     ("connect_timeout", connect_timeout ctx);
     ("max_execution_time", max_execution_time ctx)] in
  when (ctx_is (enable_bedrock_integration ctx) "true")
    (construct "AuroraMLRole" (Opaque "iam.Role" [])) ;;
  (if ctx_is (enable_bedrock_integration ctx) "true"
   then
     let parameters :=
       (parameters
        ++ [("aurora_ml_inference_timeout", aurora_ml_inference_timeout ctx)])%list in
     calling lib "rds.ParameterGroup" parameters ;;
     construct "ParameterGroup" (Opaque "rds.ParameterGroup" ["AuroraMLRole"])
   else
     calling lib "rds.ParameterGroup" parameters ;;
     construct "ParameterGroup" (Opaque "rds.ParameterGroup" [])) ;;
  sg <- get_attr "db_sec_group" ;;
  vpc <- get_attr "vpc" ;;
  construct "DatabaseCluster"
    (Opaque "rds.DatabaseCluster" ["ParameterGroup"; "db-secret"; sg; vpc]) ;;
  given_security_group "DatabaseCluster" sg ;;
  attach_secret "db-secret" "DatabaseCluster" ;;
  set_attr "db_instance" "DatabaseCluster" ;;
  set_attr "db_instance.secret" "db-secret" ;;
  when (ctx_is (enable_bedrock_integration ctx) "true")
    (db <- get_attr "db_instance" ;;
     add_ref db "AuroraMLRole" ;;
     vpc <- get_attr "vpc" ;;
     let bedrock_runtime_interface_endpoint := "OpenMRS-VPC/BedrockRuntimeEndpoint" in
     construct bedrock_runtime_interface_endpoint
       (Opaque "ec2.InterfaceVpcEndpoint" [vpc]) ;;
     sg <- get_attr "db_sec_group" ;;
     allow_from bedrock_runtime_interface_endpoint sg ;;
     sg <- get_attr "db_sec_group" ;;
     allow_to bedrock_runtime_interface_endpoint sg ;;
     db <- get_attr "db_instance" ;;
     allow_from db bedrock_runtime_interface_endpoint ;;
     db <- get_attr "db_instance" ;;
     allow_to db bedrock_runtime_interface_endpoint ;;
     add_ref bedrock_runtime_interface_endpoint "AuroraMLRole").

(** The two volume configurations, plain objects kept in attributes of
    [self]: each names the file system it was made from. *)
Definition efs_volume_configuration_for_data_storage : EfsVolumeConfiguration :=
  {| file_system_id := [Tok "EfsFileSystemForFileStorage" "file_system_id"];
     transit_encryption := "ENABLED" |}.

Definition efs_volume_configuration_for_ssl_folder : EfsVolumeConfiguration :=
  {| file_system_id := [Tok "EfsFileSystemForSslFolder" "file_system_id"];
     transit_encryption := "ENABLED" |}.

Definition _create_efs_volume : M unit :=
  vpc <- get_attr "vpc" ;;
  construct "EfsFileSystemForFileStorage" (Opaque "efs.FileSystem" [vpc]) ;;
  set_attr "file_system_for_file_storage" "EfsFileSystemForFileStorage" ;;
  vpc <- get_attr "vpc" ;;
  construct "EfsFileSystemForSslFolder" (Opaque "efs.FileSystem" [vpc]) ;;
  set_attr "file_system_for_ssl_folder" "EfsFileSystemForSslFolder".

Definition _create_backup : M unit :=
  db <- get_attr "db_instance" ;;
  ssl_fs <- get_attr "file_system_for_ssl_folder" ;;
  data_fs <- get_attr "file_system_for_file_storage" ;;
  construct "Plan" (Opaque "backup.BackupPlan" [db; ssl_fs; data_fs]).

Definition _create_ecs_cluster (ctx : Context) : M unit :=
  (if ctx_is (enable_ecs_exec ctx) "true"
   then
     construct "KmsKey" (Opaque "kms.Key" []) ;;
     set_attr "kms_key" "KmsKey" ;;
     kms_key <- get_attr "kms_key" ;;
     construct "LogGroup" (Opaque "logs.LogGroup" [kms_key]) ;;
     set_attr "ecs_exec_group" "LogGroup" ;;
     construct "EcsExecBucket" (Opaque "s3.Bucket" [kms_key]) ;;
     set_attr "exec_bucket" "EcsExecBucket" ;;
     vpc <- get_attr "vpc" ;;
     exec_group <- get_attr "ecs_exec_group" ;;
     exec_bucket <- get_attr "exec_bucket" ;;
     construct "ecs-cluster" (Opaque "ecs.Cluster" [vpc; kms_key; exec_group; exec_bucket]) ;;
     set_attr "ecs_cluster" "ecs-cluster"
   else
     vpc <- get_attr "vpc" ;;
     construct "ecs-cluster" (Opaque "ecs.Cluster" [vpc]) ;;
     set_attr "ecs_cluster" "ecs-cluster") ;;
  cluster <- get_attr "ecs_cluster" ;;
  db <- get_attr "db_instance" ;;
  add_dependency cluster db ;;
  construct "log-group" (Opaque "logs.LogGroup" []) ;;
  set_attr "log_group" "log-group".

(** The only element of [command_array] in
    [_create_and_maintain_tls_materials], one source line per line: a
    backslash at the end of a line of a Python string literal joins it to the
    next, whose leading blanks stay in the string. *)
Definition ssl_command : string :=
  "apk add openssl --no-check-certificate --no-cache && cd /etc/ssl/certs/ && " ++
  "        openssl genrsa 2048 > /etc/ssl/certs/selfsigned.key.pem.tmp && " ++
  "        openssl req -new -x509 -nodes -sha256 -days 365 -key /etc/ssl/certs/selfsigned.key.pem.tmp " ++
  "        -outform PEM -out /etc/ssl/certs/selfsigned.cert.pem.tmp -subj '/CN=localhost' && " ++
  "        curl -k -o /etc/ssl/certs/mysqltmp.pem https://truststore.pki.rds.amazonaws.com/global/global-bundle.pem && " ++
  "        mv selfsigned.cert.pem.tmp cert.pem && " ++
  "        mv selfsigned.key.pem.tmp privkey.pem && " ++
  "        mv mysqltmp.pem mysql.pem".

Definition image_name (part : string) (ctx : Context) : string :=
  "openmrs/openmrs-reference-application-3-" ++ part ++ ":"
  ++ py_str (openmrs_reference_application_version ctx).

Definition gateway_image (ctx : Context) : value :=
  [Lit ("openmrs/openmrs-reference-application-3-gateway:"
        ++ py_str (openmrs_reference_application_version ctx))].

Definition backend_image (ctx : Context) : value :=
  [Lit ("openmrs/openmrs-reference-application-3-backend:"
        ++ py_str (openmrs_reference_application_version ctx))].

Definition frontend_image (ctx : Context) : value :=
  [Lit ("openmrs/openmrs-reference-application-3-frontend:"
        ++ py_str (openmrs_reference_application_version ctx))].

(** [ecs.ContainerImage.from_registry(f"...-{part}:{version}")]. *)
Definition from_registry (lib : Library) (part : string) (ctx : Context) : M unit :=
  calling lib "ecs.ContainerImage.from_registry" [("name", Some (Text (image_name part ctx)))].

Definition empty_task : TaskDefinition := {| volumes := []; containers := [] |}.

Definition _create_and_maintain_tls_materials (lib : Library) (ctx : Context) : M unit :=
  let create_ssl_materials_task := "CreateSSLMaterialsTaskDefinition" in
  construct create_ssl_materials_task (TaskDefinitionR empty_task) ;;
  add_volume create_ssl_materials_task "SslFolderVolume"
    efs_volume_configuration_for_ssl_folder ;;
  let command_array := [[Lit ssl_command]] in
  log_group <- get_attr "log_group" ;;
  let ssl_maintenance_container := "SSLMaintenanceContainer" in
  from_registry lib "gateway" ctx ;;
  add_container create_ssl_materials_task
    {| container_id := ssl_maintenance_container;
       container_name := "openmrs";
       log_stream_prefix := "ecs/sslmaintenance";
       log_group := log_group;
       image := gateway_image ctx;
       entry_point := ["/bin/sh"; "-c"];
       command := command_array;
       user := "0:0";
       essential := true;
       container_port := backend_container_port;
       health_check := [];
       container_environment := [];
       container_secrets := [];
       mount_points := [];
       container_dependencies := [] |} ;;
  let efs_mount_point_for_ssl_folder :=
    {| container_path := "/etc/ssl/certs/"; read_only := false;
       source_volume := "SslFolderVolume" |} in
  add_mount_points create_ssl_materials_task ssl_maintenance_container
    [efs_mount_point_for_ssl_folder] ;;
  vpc <- get_attr "vpc" ;;
  let private_subnet_id_string := [Joined "," vpc "private_subnets.subnet_id"] in
  vpc <- get_attr "vpc" ;;
  construct "EFSOnlySecurityGroup" (SecurityGroupR vpc true) ;;
  set_attr "efs_only_security_group" "EFSOnlySecurityGroup" ;;
  sg <- get_attr "efs_only_security_group" ;;
  let security_group_id := [Tok sg "security_group_id"] in
  ssl_fs <- get_attr "file_system_for_ssl_folder" ;;
  sg <- get_attr "efs_only_security_group" ;;
  allow_from ssl_fs sg ;;
  let create_ssl_materials_lambda := "MaintainSSLMaterialsLambda" in
  construct create_ssl_materials_lambda
    (FunctionR
       (python_lambda "lambda_functions.generate_ssl_materials" (Some (minutes 10)) [])) ;;
  cluster <- get_attr "ecs_cluster" ;;
  add_environment create_ssl_materials_lambda "ECS_CLUSTER" [Tok cluster "cluster_arn"] ;;
  add_environment create_ssl_materials_lambda "TASK_DEFINITION"
    [Tok create_ssl_materials_task "task_definition_arn"] ;;
  add_environment create_ssl_materials_lambda "SUBNETS" private_subnet_id_string ;;
  add_environment create_ssl_materials_lambda "SECURITY_GROUPS" security_group_id ;;
  construct "RegularScheduleforSSLMaintenance"
    (RuleR {| schedule := rate (days number_of_days_to_regenerate_ssl_materials);
              targets := [create_ssl_materials_lambda] |}) ;;
  construct "OneTimeSSLSetup"
    (TriggerFunctionR
       (python_lambda "lambda_functions.generate_ssl_materials" (Some (minutes 10)) [])) ;;
  set_attr "one_time_create_ssl_materials_lambda" "OneTimeSSLSetup" ;;
  one_time <- get_attr "one_time_create_ssl_materials_lambda" ;;
  cluster <- get_attr "ecs_cluster" ;;
  add_environment one_time "ECS_CLUSTER" [Tok cluster "cluster_arn"] ;;
  add_environment one_time "TASK_DEFINITION"
    [Tok create_ssl_materials_task "task_definition_arn"] ;;
  add_environment one_time "SUBNETS" private_subnet_id_string ;;
  add_environment one_time "SECURITY_GROUPS" security_group_id.

Definition _perpare_data_efs_for_openmrs_service (lib : Library) (ctx : Context)
  : M unit :=
  let write_openmrs_data_to_data_efs_task := "WriteOpenMRSDatatoDataEFSTask" in
  construct write_openmrs_data_to_data_efs_task (TaskDefinitionR empty_task) ;;
  add_volume write_openmrs_data_to_data_efs_task "TemporaryDataVolume"
    efs_volume_configuration_for_data_storage ;;
  let command_array := [[Lit "cp -r /openmrs/data/. /tmp/data"]] in
  log_group <- get_attr "log_group" ;;
  let initial_data_sync_to_efs_container := "OneTimePrepareEFSContainer" in
  from_registry lib "backend" ctx ;;
  add_container write_openmrs_data_to_data_efs_task
    {| container_id := initial_data_sync_to_efs_container;
       container_name := "openmrs";
       log_stream_prefix := "ecs/initialdatasynctoefs";
       log_group := log_group;
       image := backend_image ctx;
       entry_point := ["/bin/sh"; "-c"];
       command := command_array;
       user := "0:0";
       essential := true;
       container_port := backend_container_port;
       health_check := [];
       container_environment := [];
       container_secrets := [];
       mount_points := [];
       container_dependencies := [] |} ;;
  let efs_mount_point_for_tmp_data_folder :=
    {| container_path := "/tmp/data/"; read_only := false;
       source_volume := "TemporaryDataVolume" |} in
  add_mount_points write_openmrs_data_to_data_efs_task initial_data_sync_to_efs_container
    [efs_mount_point_for_tmp_data_folder] ;;
  vpc <- get_attr "vpc" ;;
  let private_subnet_id_string := [Joined "," vpc "private_subnets.subnet_id"] in
  sg <- get_attr "efs_only_security_group" ;;
  let security_group_id := [Tok sg "security_group_id"] in
  data_fs <- get_attr "file_system_for_file_storage" ;;
  sg <- get_attr "efs_only_security_group" ;;
  allow_from data_fs sg ;;
  construct "OneTimeEFSDataSetup"
    (TriggerFunctionR
       (python_lambda "lambda_functions.initial_openmrs_data_sync_to_efs"
          (Some (minutes 10)) [])) ;;
  set_attr "one_time_sync_openmrs_data_to_efs_lambda" "OneTimeEFSDataSetup" ;;
  one_time <- get_attr "one_time_sync_openmrs_data_to_efs_lambda" ;;
  cluster <- get_attr "ecs_cluster" ;;
  add_environment one_time "ECS_CLUSTER" [Tok cluster "cluster_arn"] ;;
  add_environment one_time "TASK_DEFINITION"
    [Tok write_openmrs_data_to_data_efs_task "task_definition_arn"] ;;
  add_environment one_time "SUBNETS" private_subnet_id_string ;;
  add_environment one_time "SECURITY_GROUPS" security_group_id.

(** The only element of [gateway_command_array], an f-string whose one
    placeholder is [self.gateway_container_port]. *)
Definition gateway_command : string :=
  "echo '127.0.0.1 frontend' >> /etc/hosts && " ++
  "             echo '127.0.0.1 backend' >> /etc/hosts && " ++
  "             sed '/  listen       80;/a\  ssl_certificate_key       /etc/ssl/certs/privkey.pem;' -i /etc/nginx/templates/default.conf.template && " ++
  "             sed '/  listen       80;/a\  ssl_certificate       /etc/ssl/certs/cert.pem;' -i /etc/nginx/templates/default.conf.template && " ++
  "             sed -i 's|listen       80;|listen       " ++ str_int gateway_container_port ++ " ssl;|g' /etc/nginx/templates/default.conf.template && " ++
  "             /docker-entrypoint.sh nginx '-g daemon off;'".

(** [connection_url], an f-string over the cluster endpoint's host name and
    [self.mysql_port]. *)
Definition connection_url (db : string) : value :=
  [Lit "jdbc:mysql://"; Tok db "cluster_endpoint.hostname";
   Lit (":" ++ str_int mysql_port ++ "/" ++
        "                         openmrs?autoReconnect=true&useSSL=true" ++
        "                         &sessionVariables=default_storage_engine=InnoDB&useUnicode=true" ++
        "                         &characterEncoding=UTF-8" ++
        "                         &trustServerCertificate=true&verifyServerCertificate=false" ++
        "                         &trustCertificateKeyStoreUrl=file:/etc/ssl/certs/mysql.pem")].

(** The entries added to [backend_secrets] under [configure_ses]: each reads
    an attribute that only [_configure_ses] assigns. *)
Definition ses_backend_secrets : M (list (string * EcsSecret)) :=
  mail_user <- get_attr "mail_user" ;;
  smtp_password <- get_attr "smtp_password" ;;
  smtp_host <- get_attr "smtp_host" ;;
  smtp_port <- get_attr "smtp_port" ;;
  mail_transport_protocol <- get_attr "mail_transport_protocol" ;;
  smtp_auth <- get_attr "smtp_auth" ;;
  smtp_tls_enable <- get_attr "smtp_tls_enable" ;;
  mail_from <- get_attr "mail_from" ;;
  ret [("OMRS_EXTRA_MAIL_USER", from_ssm_parameter mail_user);
       ("OMRS_EXTRA_MAIL_PASSWORD", from_secrets_manager smtp_password "password");
       ("OMRS_EXTRA_MAIL_SMTP__HOST", from_ssm_parameter smtp_host);
       ("OMRS_EXTRA_MAIL_SMTP__PORT", from_ssm_parameter smtp_port);
       ("OMRS_EXTRA_MAIL_TRANSPORT__PROTOCOL", from_ssm_parameter mail_transport_protocol);
       ("OMRS_EXTRA_MAIL_SMTP__AUTH", from_ssm_parameter smtp_auth);
       ("OMRS_EXTRA_MAIL_SMTP_STARTTLS_ENABLE", from_ssm_parameter smtp_tls_enable);
       ("OMRS_EXTRA_MAIL_FROM", from_ssm_parameter mail_from)].

Definition openmrs_container (id name : string) (logs : string) (img : value)
  (entry cmd_ : list string) (port : Z) (check : string)
  (env : list (string * value)) (secrets : list (string * EcsSecret)) : ContainerDefinition :=
  {| container_id := id;
     container_name := name;
     log_stream_prefix := "ecs/openmrs";
     log_group := logs;
     image := img;
     entry_point := entry;
     command := map (fun s => [Lit s]) cmd_;
     user := "0:0";
     essential := true;
     container_port := port;
     health_check := ["CMD-SHELL"; check];
     container_environment := env;
     container_secrets := secrets;
     mount_points := [];
     container_dependencies := [] |}.

Definition _create_openmrs_service (lib : Library) (ctx : Context) : M unit :=
  when (truthy (certificate_arn ctx))
    (calling lib "acm.Certificate.from_certificate_arn"
       [("certificate_arn", text (certificate_arn ctx))] ;;
     construct "domainCert" (Opaque "acm.Certificate.from_certificate_arn" []) ;;
     set_attr "certificate" "domainCert") ;;
  let openmrs_fargate_task_definition := "OpenMRSFargateTaskDefinition" in
  calling lib "ecs.FargateTaskDefinition"
    [("cpu", openmrs_service_fargate_cpu_per_task ctx);
     ("memory_limit_mib", openmrs_service_fargate_ram_per_task ctx)] ;;
  construct openmrs_fargate_task_definition (TaskDefinitionR empty_task) ;;
  add_volume openmrs_fargate_task_definition "DataFolderVolume"
    efs_volume_configuration_for_data_storage ;;
  add_volume openmrs_fargate_task_definition "SslFolderVolume"
    efs_volume_configuration_for_ssl_folder ;;
  let gateway_command_array := [gateway_command] in
  log_group <- get_attr "log_group" ;;
  let gateway_openmrs_container := "GatewayOpenMRSContainer" in
  from_registry lib "gateway" ctx ;;
  add_container openmrs_fargate_task_definition
    (openmrs_container gateway_openmrs_container "openmrsgateway" log_group
       (gateway_image ctx) ["/bin/sh"; "-c"] gateway_command_array
       gateway_container_port "curl -f http://localhost/ || exit 1" [] []) ;;
  let frontend_environment :=
    [("SPA_PATH", [Lit "/openmrs/spa"]);
     ("API_URL", [Lit "/openmrs"]);
     ("SPA_CONFIG_URLS", [Lit "/openmrs/spa/config-core_demo.json"]);
     ("SPA_DEFAULT_LOCALE", [Lit EmptyString])] in
  log_group <- get_attr "log_group" ;;
  let frontend_openmrs_container := "FrontendOpenMRSContainer" in
  from_registry lib "frontend" ctx ;;
  add_container openmrs_fargate_task_definition
    (openmrs_container frontend_openmrs_container "openmrsfrontend" log_group
       (frontend_image ctx) [] []
       frontend_container_port "curl -f http://localhost/ || exit 1"
       frontend_environment []) ;;
  db <- get_attr "db_instance" ;;
  let backend_environment :=
    [("OMRS_DB_HOSTNAME", [Tok db "cluster_endpoint.hostname"]);
     ("OMRS_CONFIG_CONNECTION_URL", connection_url db);
     ("OMRS_AUTO_UPDATE_DATABASE", [Lit "true"]);
     ("OMRS_CREATE_TABLES", [Lit "true"]);
     ("OMRS_MODULE_WEB_ADMIN", [Lit "true"]);
     ("OMRS_DB_PORT", [Lit (str_int mysql_port)]);
     ("OMRS_DB_DRIVER_CLASS", [Lit "com.mysql.cj.jdbc.Driver"])] in
  db_secret <- get_attr "db_instance.secret" ;;
  password <- get_attr "password" ;;
  let backend_secrets :=
    [("OMRS_DB_USERNAME", from_secrets_manager db_secret "username");
     ("OMRS_DB_PASSWORD", from_secrets_manager db_secret "password");
     ("OMRS_ADMIN_USER_PASSWORD", from_secrets_manager password "password")] in
  mail_secrets <- (if ctx_is (configure_ses ctx) "true" then ses_backend_secrets else ret []) ;;
  let backend_secrets := (backend_secrets ++ mail_secrets)%list in
  log_group <- get_attr "log_group" ;;
  let backend_openmrs_container := "BackendOpenMRSContainer" in
  from_registry lib "backend" ctx ;;
  add_container openmrs_fargate_task_definition
    (openmrs_container backend_openmrs_container "openmrsbackend" log_group
       (backend_image ctx) [] []
       backend_container_port "curl -f http://localhost:8080/openmrs || exit 1"
       backend_environment backend_secrets) ;;
  let efs_mount_point_for_data_storage :=
    {| container_path := "/openmrs/data/"; read_only := false;
       source_volume := "DataFolderVolume" |} in
  let efs_mount_point_for_ssl_folder :=
    {| container_path := "/etc/ssl/certs/"; read_only := false;
       source_volume := "SslFolderVolume" |} in
  add_mount_points openmrs_fargate_task_definition gateway_openmrs_container
    [efs_mount_point_for_ssl_folder] ;;
  add_mount_points openmrs_fargate_task_definition backend_openmrs_container
    [efs_mount_point_for_data_storage; efs_mount_point_for_ssl_folder] ;;
  add_container_dependencies openmrs_fargate_task_definition
    frontend_openmrs_container backend_openmrs_container "HEALTHY" ;;
  add_container_dependencies openmrs_fargate_task_definition
    gateway_openmrs_container frontend_openmrs_container "HEALTHY" ;;
  let openmrs_application_load_balanced_fargate_service := "OpenMRSFargateLBService" in
  cert <- (if truthy (certificate_arn ctx) || truthy (route53_domain ctx)
           then c <- get_attr "certificate" ;; ret (Some c)
           else ret None) ;;
  cluster <- get_attr "ecs_cluster" ;;
  alb <- get_attr "alb" ;;
  calling lib "ecs_patterns.ApplicationLoadBalancedFargateService"
    [("desired_count", openmrs_service_fargate_minimum_capacity ctx)] ;;
  construct openmrs_application_load_balanced_fargate_service
    (ServiceR {| service_certificate := cert;
                 min_healthy_percent := 100;
                 service_cluster := cluster;
                 load_balancer := alb;
                 open_listener := false;
                 target_protocol := "HTTPS";
                 service_task_definition := openmrs_fargate_task_definition |}) ;;
  one_time <- get_attr "one_time_create_ssl_materials_lambda" ;;
  add_dependency openmrs_application_load_balanced_fargate_service one_time ;;
  let openmrs_service := openmrs_application_load_balanced_fargate_service in
  calling lib "Duration.minutes"
    [("amount", sticky_session_cookie_length_in_minutes ctx)] ;;
  ssl_fs <- get_attr "file_system_for_ssl_folder" ;;
  allow_from openmrs_service ssl_fs ;;
  data_fs <- get_attr "file_system_for_file_storage" ;;
  allow_from openmrs_service data_fs ;;
  ssl_fs <- get_attr "file_system_for_ssl_folder" ;;
  allow_to openmrs_service ssl_fs ;;
  data_fs <- get_attr "file_system_for_file_storage" ;;
  allow_to openmrs_service data_fs ;;
  db <- get_attr "db_instance" ;;
  allow_from openmrs_service db ;;
  db <- get_attr "db_instance" ;;
  allow_to openmrs_service db ;;
  when (ctx_is (open_smtp_port ctx) "true")
    (address_rule openmrs_service 587 ;;
     address_rule openmrs_service 465) ;;
  when (ctx_is (configure_ses ctx) "true")
    (address_rule openmrs_service 587 ;;
     endpoint <- get_attr "smtp_interface_endpoint" ;;
     allow_from endpoint openmrs_service ;;
     endpoint <- get_attr "smtp_interface_endpoint" ;;
     allow_to endpoint openmrs_service ;;
     endpoint <- get_attr "smtp_interface_endpoint" ;;
     allow_from openmrs_service endpoint ;;
     endpoint <- get_attr "smtp_interface_endpoint" ;;
     allow_to openmrs_service endpoint) ;;
  calling lib "ecs.FargateService.auto_scale_task_count"
    [("min_capacity", openmrs_service_fargate_minimum_capacity ctx);
     ("max_capacity", openmrs_service_fargate_maximum_capacity ctx)] ;;
  calling lib "ScalableTaskCount.scale_on_cpu_utilization"
    [("target_utilization_percent",
      openmrs_service_fargate_cpu_autoscaling_percentage ctx)] ;;
  calling lib "ScalableTaskCount.scale_on_memory_utilization"
    [("target_utilization_percent",
      openmrs_service_fargate_memory_autoscaling_percentage ctx)].

(** The only element of [command_array] of the export task, an f-string
    whose placeholder is the export bucket's name. *)
Definition sync_command (bucket : string) : value :=
  [Lit ("yum install awscli -y && " ++
        "                             aws s3 sync /openmrs/data/ s3://");
   Tok bucket "bucket_name"].

Definition _create_serverless_analytics_environment (lib : Library) (ctx : Context)
  : M unit :=
  when (ctx_is (create_serverless_analytics_environment ctx) "true")
    (construct "AnalyticsKmsKey" (Opaque "kms.Key" []) ;;
     set_attr "analytics_kms_key" "AnalyticsKmsKey" ;;
     kms_key <- get_attr "analytics_kms_key" ;;
     construct "S3ExportBucket" (Opaque "s3.Bucket" [kms_key]) ;;
     set_attr "export_bucket_rds" "S3ExportBucket" ;;
     kms_key <- get_attr "analytics_kms_key" ;;
     construct "EFSExportBucket" (Opaque "s3.Bucket" [kms_key]) ;;
     set_attr "export_bucket_efs" "EFSExportBucket" ;;
     vpc <- get_attr "vpc" ;;
     construct "AuroraExportRole" (Opaque "iam.Role" []) ;;
     construct "SageMakerExecutionRole" (Opaque "iam.Role" []) ;;
     construct "EMRServerlessApp" (Opaque "emrserverless.CfnApplication" []) ;;
     kms_key <- get_attr "analytics_kms_key" ;;
     construct "OpenMRSSagemakerDomain"
       (Opaque "sagemaker.CfnDomain" [kms_key; "SageMakerExecutionRole"; vpc]) ;;
     let sync_efs_to_s3_task := "SyncEFStoS3Task" in
     construct sync_efs_to_s3_task (TaskDefinitionR empty_task) ;;
     add_volume sync_efs_to_s3_task "DataFolderVolume"
       efs_volume_configuration_for_data_storage ;;
     export_bucket_efs <- get_attr "export_bucket_efs" ;;
     let command_array := [sync_command export_bucket_efs] in
     log_group <- get_attr "log_group" ;;
     let sync_efs_to_s3_container := "AmazonLinuxContainer" in
     from_registry lib "backend" ctx ;;
     add_container sync_efs_to_s3_task
       {| container_id := sync_efs_to_s3_container;
          container_name := "openmrs";
          log_stream_prefix := "ecs/efstos3";
          log_group := log_group;
          image := backend_image ctx;
          entry_point := ["/bin/sh"; "-c"];
          command := command_array;
          user := "0:0";
          essential := true;
          container_port := backend_container_port;
          health_check := [];
          container_environment := [];
          container_secrets := [];
          mount_points := [];
          container_dependencies := [] |} ;;
     let efs_mount_point_for_data_storage :=
       {| container_path := "/openmrs/data/"; read_only := true;
          source_volume := "DataFolderVolume" |} in
     add_mount_points sync_efs_to_s3_task sync_efs_to_s3_container
       [efs_mount_point_for_data_storage] ;;
     let export_efs_to_s3_lambda := "EFStoS3ExportLambda" in
     construct export_efs_to_s3_lambda
       (FunctionR (python_lambda "lambda_functions.sync_efs_to_s3" (Some (minutes 10)) [])) ;;
     vpc <- get_attr "vpc" ;;
     let private_subnet_id_string := [Joined "," vpc "private_subnets.subnet_id"] in
     cluster <- get_attr "ecs_cluster" ;;
     add_environment export_efs_to_s3_lambda "ECS_CLUSTER" [Tok cluster "cluster_arn"] ;;
     add_environment export_efs_to_s3_lambda "TASK_DEFINITION"
       [Tok sync_efs_to_s3_task "task_definition_arn"] ;;
     add_environment export_efs_to_s3_lambda "SUBNETS" private_subnet_id_string ;;
     sg <- get_attr "efs_only_security_group" ;;
     add_environment export_efs_to_s3_lambda "SECURITY_GROUPS" [Tok sg "security_group_id"] ;;
     sg <- get_attr "efs_only_security_group" ;;
     data_fs <- get_attr "file_system_for_file_storage" ;;
     allow_to sg data_fs ;;
     sg <- get_attr "efs_only_security_group" ;;
     data_fs <- get_attr "file_system_for_file_storage" ;;
     allow_from sg data_fs ;;
     let export_rds_to_s3_lambda := "RDStoS3ExportLambda" in
     construct export_rds_to_s3_lambda
       (FunctionR
          (python_lambda "lambda_functions.export_from_rds_to_s3" (Some (minutes 10)) [])) ;;
     db <- get_attr "db_instance" ;;
     add_environment export_rds_to_s3_lambda "DB_CLUSTER_ARN" [Tok db "cluster_arn"] ;;
     kms_key <- get_attr "analytics_kms_key" ;;
     add_environment export_rds_to_s3_lambda "KMS_KEY_ID" [Tok kms_key "key_id"] ;;
     export_bucket_rds <- get_attr "export_bucket_rds" ;;
     add_environment export_rds_to_s3_lambda "S3_BUCKET_NAME"
       [Tok export_bucket_rds "bucket_name"] ;;
     add_environment export_rds_to_s3_lambda "EXPORT_ROLE_ARN"
       [Tok "AuroraExportRole" "role_arn"] ;;
     sg <- get_attr "efs_only_security_group" ;;
     kms_key <- get_attr "analytics_kms_key" ;;
     construct "SagemakerUserProfile"
       (Opaque "sagemaker.CfnUserProfile"
          ["OpenMRSSagemakerDomain"; sg; "SageMakerExecutionRole"; kms_key]) ;;
     construct "GlueRoleForEMRServerless" (Opaque "iam.Role" []) ;;
     db <- get_attr "db_instance" ;;
     construct "EMRServerlessPolicy"
       (Opaque "iam.Policy"
          ["EMRServerlessApp"; "GlueRoleForEMRServerless"; db; sync_efs_to_s3_task;
           "AnalyticsKmsKey"; "SageMakerExecutionRole"]) ;;
     vpc <- get_attr "vpc" ;;
     construct "OpenMRS-VPC/sagemaker_api_interface_endpoint"
       (Opaque "ec2.InterfaceVpcEndpoint" [vpc]) ;;
     set_attr "sagemaker_api_interface_endpoint"
       "OpenMRS-VPC/sagemaker_api_interface_endpoint" ;;
     vpc <- get_attr "vpc" ;;
     construct "OpenMRS-VPC/sagemaker_runtime_interface_endpoint"
       (Opaque "ec2.InterfaceVpcEndpoint" [vpc]) ;;
     set_attr "sagemaker_runtime_interface_endpoint"
       "OpenMRS-VPC/sagemaker_runtime_interface_endpoint").

(** [OpenmrsEcsStack.__init__]. *)
Definition OpenmrsEcsStack (lib : Library) (ctx : Context) : M unit :=
  _create_vpc ;;
  _create_security_groups lib ctx ;;
  _create_elb_log_bucket ;;
  _create_alb ctx ;;
  _create_and_configure_dns_and_certificates lib ctx ;;
  _configure_ses lib ctx ;;
  _create_waf ;;
  _create_environment_variables ;;
  _create_password ;;
  _create_db_instance lib ctx ;;
  _create_efs_volume ;;
  _create_backup ;;
  _create_ecs_cluster ctx ;;
  _create_and_maintain_tls_materials lib ctx ;;
  _perpare_data_efs_for_openmrs_service lib ctx ;;
  _create_openmrs_service lib ctx ;;
  _create_serverless_analytics_environment lib ctx.

(** Synthesis: the stack built from nothing, or the exception raised. *)
Definition synth (lib : Library) (ctx : Context) : error + Stack :=
  match OpenmrsEcsStack lib ctx empty_stack with
  | inl e => inl e
  | inr (_, st) => inr st
  end.

(** A library that accepts every call: the library as it is on values
    that are well formed, as those of the contexts below are. *)
Definition accepting : Library := fun _ _ => true.

(** A deployment with no optional subsystem, and one with a domain, the
    mail subsystem and the analytics environment.  Both set the sizes and
    durations that the library cannot do without. *)
Definition default_context : Context :=
  {| certificate_arn := None; route53_domain := None; configure_ses := None;
     email_forwarding_address := None; enable_global_accelerator := None;
     enable_bedrock_integration := None; enable_ecs_exec := None;
     create_serverless_analytics_environment := None;
     openmrs_reference_application_version := Some "3.0.0";
     security_group_ip_range_ipv4 := Some "0.0.0.0/0";
     security_group_ip_range_ipv6 := None;
     open_smtp_port := None;
     net_read_timeout := Some (Text "600");
     net_write_timeout := Some (Text "600");
     wait_timeout := Some (Text "28800");
     connect_timeout := Some (Text "60");
     max_execution_time := Some (Text "0");
     aurora_ml_inference_timeout := Some (Text "30000");
     openmrs_service_fargate_cpu_per_task := Some (Number 1024);
     openmrs_service_fargate_ram_per_task := Some (Number 4096);
     openmrs_service_fargate_minimum_capacity := Some (Number 2);
     openmrs_service_fargate_maximum_capacity := Some (Number 10);
     sticky_session_cookie_length_in_minutes := Some (Number 60);
     openmrs_service_fargate_cpu_autoscaling_percentage := Some (Number 75);
     openmrs_service_fargate_memory_autoscaling_percentage := Some (Number 75) |}.

Definition full_context : Context :=
  {| certificate_arn := None; route53_domain := Some "example.org";
     configure_ses := Some "true";
     email_forwarding_address := Some "records@example.org";
     enable_global_accelerator := None;
     enable_bedrock_integration := None; enable_ecs_exec := None;
     create_serverless_analytics_environment := Some "true";
     openmrs_reference_application_version := Some "3.0.0";
     security_group_ip_range_ipv4 := Some "0.0.0.0/0";
     security_group_ip_range_ipv6 := Some "::/0";
     open_smtp_port := None;
     net_read_timeout := Some (Text "600");
     net_write_timeout := Some (Text "600");
     wait_timeout := Some (Text "28800");
     connect_timeout := Some (Text "60");
     max_execution_time := Some (Text "0");
     aurora_ml_inference_timeout := Some (Text "30000");
     openmrs_service_fargate_cpu_per_task := Some (Number 1024);
     openmrs_service_fargate_ram_per_task := Some (Number 4096);
     openmrs_service_fargate_minimum_capacity := Some (Number 2);
     openmrs_service_fargate_maximum_capacity := Some (Number 10);
     sticky_session_cookie_length_in_minutes := Some (Number 60);
     openmrs_service_fargate_cpu_autoscaling_percentage := Some (Number 75);
     openmrs_service_fargate_memory_autoscaling_percentage := Some (Number 75) |}.

Definition stack_of (ctx : Context) : Stack :=
  match synth accepting ctx with
  | inr st => st
  | inl _ => empty_stack
  end.

(** ** Reading the stack *)

Definition find_function (st : Stack) (id : string) : option LambdaFunction :=
  match lookup id (constructs st) with
  | Some (FunctionR f) => Some f
  | _ => None
  end.

Definition find_trigger (st : Stack) (id : string) : option LambdaFunction :=
  match lookup id (constructs st) with
  | Some (TriggerFunctionR f) => Some f
  | _ => None
  end.

Definition find_rule (st : Stack) (id : string) : option Rule :=
  match lookup id (constructs st) with
  | Some (RuleR r) => Some r
  | _ => None
  end.

Definition find_task (st : Stack) (id : string) : option TaskDefinition :=
  match lookup id (constructs st) with
  | Some (TaskDefinitionR t) => Some t
  | _ => None
  end.

Definition find_secret (st : Stack) (id : string) : option SecretContent :=
  match lookup id (constructs st) with
  | Some (SecretR s) => Some s
  | _ => None
  end.

Definition find_container (t : TaskDefinition) (id : string) : option ContainerDefinition :=
  find (fun c => String.eqb (container_id c) id) (containers t).

(** The trigger functions of a stack, in creation order. *)
Definition trigger_functions (st : Stack) : list (string * LambdaFunction) :=
  flat_map (fun kr => match snd kr with
                      | TriggerFunctionR f => [(fst kr, f)]
                      | _ => []
                      end) (constructs st).

(** ** The provisioning graph

    CloudFormation creates a resource after everything it refers to and
    after everything it was made to depend on.  Depending on a
    [TriggerFunction] means waiting for the trigger it carries to have run. *)

Definition ecs_secret_ref (s : EcsSecret) : string :=
  match s with
  | from_secrets_manager c _ => c
  | from_ssm_parameter c => c
  end.

Definition container_refs (c : ContainerDefinition) : list string :=
  (log_group c :: value_refs (image c)
   ++ flat_map value_refs (command c)
   ++ flat_map (fun kv => value_refs (snd kv)) (container_environment c)
   ++ map (fun kv => ecs_secret_ref (snd kv)) (container_secrets c))%list.

Definition resource_refs (r : resource) : list string :=
  match r with
  | SecretR (secret_object_value fields) => flat_map (fun kv => value_refs (snd kv)) fields
  | SecretR _ => []
  | FunctionR f => flat_map (fun kv => value_refs (snd kv)) (environment f)
  | TriggerFunctionR f => flat_map (fun kv => value_refs (snd kv)) (environment f)
  | RuleR r => targets r
  | TaskDefinitionR t =>
      (flat_map (fun kv => value_refs (file_system_id (snd kv))) (volumes t)
       ++ flat_map container_refs (containers t))%list
  | ServiceR s =>
      (match service_certificate s with Some c => [c] | None => [] end
       ++ [service_cluster s; load_balancer s; service_task_definition s])%list
  | StringParameterR _ v => value_refs v
  | SecurityGroupR vpc _ => [vpc]
  | Opaque _ refs => refs
  end.

(** The edges of the graph: the explicit dependencies, the references a
    construct was made with and those it was given later.  A later
    reference is kept at the construct in whose scope its child was made:
    it orders that child, and is followed here as if it ordered the whole
    construct, which can only add to what [depends_on] relates. *)
Definition edges (st : Stack) : list (string * string) :=
  (node_dependencies st
   ++ references st
   ++ flat_map (fun kr => map (fun target => (fst kr, target)) (resource_refs (snd kr)))
        (constructs st))%list.

(** [depends_on st a b]: [a] is created only after [b] is complete. *)
Inductive depends_on (st : Stack) : string -> string -> Prop :=
| depends_edge (a b : string) :
    In (a, b) (edges st) -> depends_on st a b
| depends_step (a b c : string) :
    In (a, b) (edges st) -> depends_on st b c -> depends_on st a c.

Definition has_incoming_edge (st : Stack) (id : string) : bool :=
  existsb (fun e => String.eqb (snd e) id) (edges st).

(** ** Secrets *)

(** The quoted strings of a text, in order; no escape is read, the
    templates of the stack have none. *)
Fixpoint quoted_strings (s : string) (cur : option string) : list string :=
  match s with
  | EmptyString => []
  | String ch rest =>
      if Ascii.eqb ch (ascii_of_nat 34) then
        match cur with
        | None => quoted_strings rest (Some EmptyString)
        | Some w => w :: quoted_strings rest None
        end
      else
        match cur with
        | None => quoted_strings rest None
        | Some w => quoted_strings rest (Some (w ++ String ch EmptyString))
        end
  end.

Fixpoint pair_up (l : list string) : option (list (string * string)) :=
  match l with
  | [] => Some []
  | k :: v :: rest => option_map (cons (k, v)) (pair_up rest)
  | _ => None
  end.

(** The fields of a flat JSON object of string values. *)
Definition json_fields (template : string) : option (list (string * string)) :=
  pair_up (quoted_strings template None).

(** Where the value of a field of a secret comes from. *)
Inductive field_source :=
| Templated (v : string)
| Generated
| FromValue (v : value).

(** The JSON object Secrets Manager stores: [GenerateSecretString] adds the
    generated password to the template under [generate_string_key]; a
    secret with no property is a bare random string, not an object. *)
Definition secret_shape (c : SecretContent) : option (list (string * field_source)) :=
  match c with
  | generate_secret_string g =>
      option_map
        (fun kv => (map (fun p => (fst p, Templated (snd p))) kv
                    ++ [(generate_string_key g, Generated)])%list)
        (json_fields (secret_string_template g))
  | secret_object_value fields => Some (map (fun p => (fst p, FromValue (snd p))) fields)
  | no_secret_properties => None
  end.

(** ** The shell scripts of the containers

    Each job container is started as [/bin/sh -c <script>].  The scripts of
    the stack are chains of simple commands joined by [&&]; words are split
    at blanks, single quotes keep blanks inside a word. *)

Inductive token :=
| Word (w : string)
| AndIf
| Great
| DGreat.

Definition is_blank (ch : ascii) : bool :=
  Ascii.eqb ch " " || Ascii.eqb ch (ascii_of_nat 9) || Ascii.eqb ch (ascii_of_nat 10).

Definition is_quote (ch : ascii) : bool := Ascii.eqb ch "'".

(** A finished word: an operator where it was written bare. *)
Definition close_word (w : string) (was_quoted : bool) : token :=
  if was_quoted then Word w
  else if String.eqb w "&&" then AndIf
  else if String.eqb w ">" then Great
  else if String.eqb w ">>" then DGreat
  else Word w.

(** [cur] is the word being read with whether a quote occurred in it,
    [in_quote] whether a quote is open. *)
Fixpoint tokens (s : string) (in_quote : bool) (cur : option (string * bool)) : list token :=
  match s with
  | EmptyString =>
      match cur with
      | None => []
      | Some (w, q) => [close_word w q]
      end
  | String ch rest =>
      if in_quote then
        if is_quote ch then tokens rest false cur
        else tokens rest true
               (match cur with
                | None => Some (String ch EmptyString, true)
                | Some (w, _) => Some (w ++ String ch EmptyString, true)
                end)
      else if is_quote ch then
        tokens rest true
          (match cur with
           | None => Some (EmptyString, true)
           | Some (w, _) => Some (w, true)
           end)
      else if is_blank ch then
        match cur with
        | None => tokens rest false None
        | Some (w, q) => close_word w q :: tokens rest false None
        end
      else
        tokens rest false
          (match cur with
           | None => Some (String ch EmptyString, false)
           | Some (w, q) => Some (w ++ String ch EmptyString, q)
           end)
  end.

(** A simple command: its words and where its standard output goes
    ([true] for [>>]). *)
Record simple_command := {
  argv : list string;
  redirect : option (bool * string)
}.

Definition no_command : simple_command := {| argv := []; redirect := None |}.

Definition push_word (w : string) (c : simple_command) : simple_command :=
  {| argv := w :: argv c; redirect := redirect c |}.

Definition set_redirect (append : bool) (f : string) (c : simple_command) : simple_command :=
  {| argv := argv c; redirect := Some (append, f) |}.

(** The commands of an and-list, read from the right: [cur] is the command
    the words seen so far belong to. *)
Fixpoint commands (ts : list token) : simple_command * list simple_command :=
  match ts with
  | [] => (no_command, [])
  | AndIf :: rest =>
      let (cur, done) := commands rest in (no_command, cur :: done)
  | Great :: Word f :: rest =>
      let (cur, done) := commands rest in (set_redirect false f cur, done)
  | DGreat :: Word f :: rest =>
      let (cur, done) := commands rest in (set_redirect true f cur, done)
  | Word w :: rest =>
      let (cur, done) := commands rest in (push_word w cur, done)
  | _ :: rest => commands rest
  end.

Definition parse_script (script : string) : list simple_command :=
  let (cur, done) := commands (tokens script false None) in cur :: done.

(** ** Files of a running container

    A path of a container lies on the volume mounted over it, or else in
    the container's own file system, gone when the task stops.  The stores
    below follow the shared, durable locations, files on EFS file systems
    and objects in buckets, and what a container has of its own: the files
    at paths no volume is mounted over and the packages installed in it.
    [PackageFiles p] stands for all the files that package [p] brings
    (programs, libraries, the entry in the package database), whose paths
    the scripts do not tell. *)

Inductive location :=
| OnVolume (file_system name : string)
| InContainer (path : string)
| InBucket (bucket key : string)
| PackageFiles (package : string).

Definition location_eqb (a b : location) : bool :=
  match a, b with
  | OnVolume f n, OnVolume f' n' => String.eqb f f' && String.eqb n n'
  | InContainer p, InContainer p' => String.eqb p p'
  | InBucket k n, InBucket k' n' => String.eqb k k' && String.eqb n n'
  | PackageFiles p, PackageFiles p' => String.eqb p p'
  | _, _ => false
  end.

(** What a file holds.  A key remembers the invocation that drew it. *)
Inductive content :=
| Unfinished
| RsaPrivateKey (bits : Z) (invocation : nat)
| Certificate (digest : string) (valid_days : Z) (subject : string) (key : content)
| Fetched (url : string) (peer_verified : bool)
| Data (tag : nat)
| Installed.

Definition store := location -> option content.

Definition empty_store : store := fun _ => None.

Definition put (l : location) (c : content) (s : store) : store :=
  fun l' => if location_eqb l l' then Some c else s l'.

Definition del (l : location) (s : store) : store :=
  fun l' => if location_eqb l l' then None else s l'.

Fixpoint strip_prefix (pre s : string) : option string :=
  match pre, s with
  | EmptyString, _ => Some s
  | String a pre', String b s' => if Ascii.eqb a b then strip_prefix pre' s' else None
  | String _ _, EmptyString => None
  end.

Definition starts_with (pre s : string) : bool :=
  match strip_prefix pre s with Some _ => true | None => false end.

Fixpoint ends_with_slash (s : string) : bool :=
  match s with
  | EmptyString => false
  | String ch EmptyString => Ascii.eqb ch "/"
  | String _ rest => ends_with_slash rest
  end.

(** A path as the process names it, made absolute. *)
Definition absolute (cwd p : string) : string :=
  if starts_with "/" p then p
  else if ends_with_slash cwd then cwd ++ p
  else cwd ++ "/" ++ p.

(** The file system behind a volume name of a task definition. *)
Definition volume_file_system (t : TaskDefinition) (volume : string) : option string :=
  match lookup volume (volumes t) with
  | Some cfg =>
      match file_system_id cfg with
      | [Tok fs _] => Some fs
      | _ => None
      end
  | None => None
  end.

(** A mount of a running container: a file system over a path. *)
Record mount := {
  mount_path : string;
  mount_file_system : string;
  mount_read_only : bool
}.

(** The mounts of container [c] of task [t]: its mount points, each with
    the file system of the volume it names. *)
Definition mount_table (t : TaskDefinition) (c : ContainerDefinition) : list mount :=
  flat_map
    (fun mp =>
       match volume_file_system t (source_volume mp) with
       | Some fs => [{| mount_path := container_path mp;
                        mount_file_system := fs;
                        mount_read_only := read_only mp |}]
       | None => []
       end)
    (mount_points c).

(** Where an absolute path of a container lives and whether the container
    may write there: the first mount over the path decides. *)
Fixpoint locate (ms : list mount) (path : string) : location * bool :=
  match ms with
  | [] => (InContainer path, true)
  | m :: rest =>
      match strip_prefix (mount_path m) path with
      | Some name => (OnVolume (mount_file_system m) name, negb (mount_read_only m))
      | None => locate rest path
      end
  end.

(** A job as the task runner sees it: the command of a container and the
    mounts it runs with. *)
Record job := {
  job_command : list value;
  job_mounts : list mount
}.

Definition find_job (st : Stack) (task container : string) : option job :=
  match lookup task (constructs st) with
  | Some (TaskDefinitionR t) =>
      match find (fun c => String.eqb (container_id c) container) (containers t) with
      | Some c => Some {| job_command := command c; job_mounts := mount_table t c |}
      | None => None
      end
  | _ => None
  end.

(** ** What the commands do *)

(** How a tool makes the file it writes. *)
Inductive recipe :=
| GenRsa (bits : Z)
| SelfSign (digest : string) (valid_days : Z) (subject : string) (key_file : location)
| Download (url : string) (insecure : bool).

(** The effect of a command on the files, with the locations its paths
    resolve to and whether the container may write them.  [Produce] opens
    its target and fills it; [Rename] is [mv]; [Install] is a package
    manager with the words after its name; [Sync] is [aws s3 sync] from a
    directory to a bucket. *)
Inductive action :=
| Install (words : list string)
| Produce (r : recipe) (target : location) (writable : bool)
| Rename (source target : location) (writable : bool)
| Sync (ms : list mount) (directory bucket : string).

(** The word after an option. *)
Fixpoint option_value (name : string) (opts : list string) : option string :=
  match opts with
  | [] => None
  | o :: rest =>
      if String.eqb o name then
        match rest with
        | v :: _ => Some v
        | [] => None
        end
      else option_value name rest
  end.

Definition has_flag (name : string) (opts : list string) : bool :=
  existsb (String.eqb name) opts.

(** The arguments of [curl] that are not options: [-k] stands alone, [-o]
    takes the next word. *)
Fixpoint curl_urls (opts : list string) : list string :=
  match opts with
  | [] => []
  | o :: rest =>
      if String.eqb o "-o" then
        match rest with
        | _ :: rest' => curl_urls rest'
        | [] => []
        end
      else if starts_with "-" o then curl_urls rest
      else o :: curl_urls rest
  end.

(** The directory a [cd] leaves the shell in. *)
Definition directory (p : string) : string :=
  if ends_with_slash p then p else p ++ "/".

(** The commands of the job scripts, one definition per tool.  Each reads
    the words after the tool's name in the working directory [cwd] of a
    container with mounts [ms] and gives the effect of the command, [None]
    for a use of the tool the scripts do not make. *)

Definition produce_at (ms : list mount) (cwd : string)
  (r : recipe) (path : string) : action :=
  let l := locate ms (absolute cwd path) in Produce r (fst l) (snd l).

Definition rename_at (ms : list mount) (cwd : string)
  (a b : string) : action :=
  let la := locate ms (absolute cwd a) in
  let lb := locate ms (absolute cwd b) in
  Rename (fst la) (fst lb) (snd la && snd lb).

Definition compile_mv (ms : list mount) (cwd : string)
  (args : list string) : option action :=
  match args with
  | [a; b] => Some (rename_at ms cwd a b)
  | _ => None
  end.

(** [openssl genrsa BITS > FILE] and
    [openssl req -new -x509 -sha256 -days N -key KEY -out FILE -subj NAME]. *)
Definition compile_openssl (ms : list mount) (cwd : string)
  (args : list string) (out : option (bool * string)) : option action :=
  match args with
  | [] => None
  | sub :: opts =>
      if String.eqb sub "genrsa" then
        match opts, out with
        | [bits], Some (false, f) =>
            option_map (fun n => produce_at ms cwd (GenRsa n) f) (int_of_str bits)
        | _, _ => None
        end
      else if String.eqb sub "req" then
        match out with
        | Some _ => None
        | None =>
            if has_flag "-new" opts && has_flag "-x509" opts && has_flag "-sha256" opts then
              match option_value "-key" opts, option_value "-out" opts,
                    option_value "-days" opts, option_value "-subj" opts with
              | Some k, Some o, Some d, Some subject =>
                  option_map
                    (fun n =>
                       produce_at ms cwd
                         (SelfSign "sha256" n subject (fst (locate ms (absolute cwd k)))) o)
                    (int_of_str d)
              | _, _, _, _ => None
              end
            else None
        end
      else None
  end.

(** [curl [-k] -o FILE URL]. *)
Definition compile_curl (ms : list mount) (cwd : string)
  (opts : list string) : option action :=
  match option_value "-o" opts, curl_urls opts with
  | Some o, [url] => Some (produce_at ms cwd (Download url (has_flag "-k" opts)) o)
  | _, _ => None
  end.

(** [aws s3 sync DIRECTORY s3://BUCKET]. *)
Definition compile_aws (ms : list mount) (cwd : string)
  (args : list string) : option action :=
  match args with
  | [service; operation; d; target] =>
      if String.eqb service "s3" && String.eqb operation "sync" then
        option_map (fun bucket => Sync ms (directory (absolute cwd d)) bucket)
          (strip_prefix "s3://" target)
      else None
  | _ => None
  end.

(** One command: the working directory it leaves and its effect.  [cd]
    into a mount point always succeeds and touches no file. *)
Definition compile (ms : list mount) (cwd : string)
  (cmd : simple_command) : option (string * option action) :=
  let stay := option_map (fun a => (cwd, Some a)) in
  match argv cmd with
  | [] => None
  | tool :: args =>
      if String.eqb tool "cd" then
        match args, redirect cmd with
        | [d], None => Some (directory (absolute cwd d), None)
        | _, _ => None
        end
      else if String.eqb tool "apk" || String.eqb tool "yum" then
        match redirect cmd with
        | None => Some (cwd, Some (Install args))
        | Some _ => None
        end
      else if String.eqb tool "mv" then
        match redirect cmd with
        | None => stay (compile_mv ms cwd args)
        | Some _ => None
        end
      else if String.eqb tool "openssl" then
        stay (compile_openssl ms cwd args (redirect cmd))
      else if String.eqb tool "curl" then
        match redirect cmd with
        | None => stay (compile_curl ms cwd args)
        | Some _ => None
        end
      else if String.eqb tool "aws" then
        match redirect cmd with
        | None => stay (compile_aws ms cwd args)
        | Some _ => None
        end
      else None
  end.

(** The effects of a script, in order. *)
Fixpoint compile_script (ms : list mount) (cwd : string)
  (cmds : list simple_command) : option (list action) :=
  match cmds with
  | [] => Some []
  | cmd :: rest =>
      match compile ms cwd cmd with
      | None => None
      | Some (cwd', a) =>
          match compile_script ms cwd' rest with
          | None => None
          | Some acts =>
              Some (match a with Some a' => a' :: acts | None => acts end)
          end
      end
  end.

(** What a tool writes when it succeeds on store [s]; [openssl req] needs
    the key file to hold a key.  A download is authenticated when it runs
    over https and the peer's certificate is verified, which [-k] turns
    off. *)
Definition make (invocation : nat) (r : recipe) (s : store) : option content :=
  match r with
  | GenRsa bits => Some (RsaPrivateKey bits invocation)
  | SelfSign digest valid subject key_file =>
      match s key_file with
      | Some (RsaPrivateKey b i) => Some (Certificate digest valid subject (RsaPrivateKey b i))
      | _ => None
      end
  | Download url insecure => Some (Fetched url (starts_with "https://" url && negb insecure))
  end.

(** How the tool of a command ends: it does its work; it gives up before
    it has written anything (the program is not there, the mirror or the
    server cannot be reached, the rename is refused); or it stops with its
    output part written. *)
Inductive ending := works | gives_up | breaks_off.

(** Who opens the file a tool fills: the shell, for a redirection,
    before the tool starts; else the tool, once it has something to write.
    Of the tools of the scripts [openssl genrsa] alone writes to its
    standard output. *)
Definition opened_by_shell (r : recipe) : bool :=
  match r with
  | GenRsa _ => true
  | _ => false
  end.

(** The packages a package manager is asked for: the words after the
    subcommand that are not options. *)
Definition packages (words : list string) : list string :=
  filter (fun w => negb (starts_with "-" w)) (tl words).

(** The files of the packages [ps], each holding [c]. *)
Definition installing (c : content) (ps : list string) (s : store) : store :=
  fold_left (fun s' p => put (PackageFiles p) c s') ps s.

(** [rename] works inside one file system; across two, [mv] copies the
    file and removes the original. *)
Definition same_file_system (a b : location) : bool :=
  match a, b with
  | OnVolume f _, OnVolume f' _ => String.eqb f f'
  | InContainer _, InContainer _ => true
  | _, _ => false
  end.

(** One action on the files.  The result lists the states the files go
    through, the last being the one they are left in, and whether the
    command succeeded.  [tool] tells how the external tool ends.  A file
    being written is [Unfinished] until the tool is done; a rename inside a
    file system has no state in between and happens or does not. *)
Definition perform (invocation : nat) (tool : ending) (a : action) (s : store)
  : list store * bool :=
  match a with
  | Install words =>
      match tool with
      | works => ([installing Installed (packages words) s], true)
      | gives_up => ([], false)
      | breaks_off => ([installing Unfinished (packages words) s], false)
      end
  | Produce r target writable =>
      if negb writable then ([], false)
      else
        match make invocation r s with
        | None => ([], false)
        | Some made =>
            let opened := put target Unfinished s in
            match tool with
            | works => ([opened; put target made opened], true)
            | breaks_off => ([opened], false)
            | gives_up => if opened_by_shell r then ([opened], false) else ([], false)
            end
        end
  | Rename source target writable =>
      if negb writable then ([], false)
      else
        match s source with
        | None => ([], false)
        | Some data =>
            if same_file_system source target then
              match tool with
              | works => ([put target data (del source s)], true)
              | _ => ([], false)
              end
            else
              let opened := put target Unfinished s in
              match tool with
              | works =>
                  ([opened; put target data opened; del source (put target data opened)],
                   true)
              | breaks_off => ([opened], false)
              | gives_up => ([], false)
              end
        end
  | Sync ms dir bucket =>
      match tool with
      | works =>
          ([fun l =>
              match l with
              | InBucket b key =>
                  if String.eqb b bucket then
                    match s (fst (locate ms (dir ++ key))) with
                    | Some data => Some data
                    | None => s l
                    end
                  else s l
              | _ => s l
              end], true)
      | _ => ([], false)
      end
  end.

(** An and-list: the actions run in order, the first failure ends the list.
    [tools n] tells how the tool of the [n]-th action ends. *)
Fixpoint run (invocation : nat) (tools : nat -> ending) (n : nat) (acts : list action)
  (s : store) : list store * bool :=
  match acts with
  | [] => ([], true)
  | a :: rest =>
      let (seen, ok) := perform invocation (tools n) a s in
      if ok then
        let (seen', ok') := run invocation tools (S n) rest (last seen s) in
        ((seen ++ seen')%list, ok')
      else (seen, false)
  end.

(** The actions of a job whose command is one literal script, read as
    [/bin/sh -c] reads it in a fresh task. *)
Definition job_actions (j : job) : option (list action) :=
  match job_command j with
  | [[Lit script]] => compile_script (job_mounts j) "/" (parse_script script)
  | _ => None
  end.

(** ** Invocations that overlap

    Every invocation of a job starts a task of the same task definition, so
    two invocations run the same actions on the same file system.  An
    overlap is a schedule telling whose next action runs; an invocation one
    of whose commands fails stops there, as its and-list does. *)

Record process := {
  invocation_of : nat;
  todo : list action
}.

Definition step (p : process) (s : store) : process * store :=
  match todo p with
  | [] => (p, s)
  | a :: rest =>
      let (seen, ok) := perform (invocation_of p) works a s in
      ({| invocation_of := invocation_of p; todo := if ok then rest else [] |},
       last seen s)
  end.

(** [false] steps the first process, [true] the second. *)
Fixpoint interleave (schedule : list bool) (p q : process) (s : store)
  : process * process * store :=
  match schedule with
  | [] => (p, q, s)
  | false :: rest => let (p', s') := step p s in interleave rest p' q s'
  | true :: rest => let (q', s') := step q s in interleave rest p q' s'
  end.

(** The certificate at [cert] was issued for the key at [key]. *)
Definition matching_pair (s : store) (cert key : location) : Prop :=
  exists digest valid subject k,
    s cert = Some (Certificate digest valid subject k) /\ s key = Some k.

(** The files an action opens for writing, and the renames it makes. *)
Definition opened (a : action) : list location :=
  match a with
  | Produce _ target _ => [target]
  | _ => []
  end.

Definition renamed (a : action) : list (location * location) :=
  match a with
  | Rename source target _ => [(source, target)]
  | _ => []
  end.

Definition mentions (l : location) (ls : list location) : bool :=
  existsb (location_eqb l) ls.

(** Every rename of [acts] moves a file that an earlier action of [acts]
    wrote; [written] holds the files written so far. *)
Fixpoint renames_follow_writes (written : list location) (acts : list action) : bool :=
  match acts with
  | [] => true
  | Produce _ target _ :: rest => renames_follow_writes (target :: written) rest
  | Rename source _ _ :: rest => mentions source written && renames_follow_writes written rest
  | _ :: rest => renames_follow_writes written rest
  end.

(** ** What the gateway and the backend are told to read *)

(** The text after the first occurrence of [marker]. *)
Fixpoint after (marker s : string) : option string :=
  match strip_prefix marker s with
  | Some rest => Some rest
  | None =>
      match s with
      | EmptyString => None
      | String _ s' => after marker s'
      end
  end.

Fixpoint split_on (sep : ascii) (s : string) (cur : string) : list string :=
  match s with
  | EmptyString => [cur]
  | String ch rest =>
      if Ascii.eqb ch sep then cur :: split_on sep rest EmptyString
      else split_on sep rest (cur ++ String ch EmptyString)
  end.

Definition plain_words (s : string) : list string :=
  flat_map (fun t => match t with Word w => [w] | _ => [] end) (tokens s false None).

(** An nginx directive [name value;]. *)
Definition nginx_directive (line : string) : option (string * string) :=
  match plain_words line with
  | [name; v] =>
      match split_on ";" v EmptyString with
      | [path; EmptyString] => Some (name, path)
      | _ => None
      end
  | _ => None
  end.

(** The directives the script adds to the nginx template: the text of the
    [a] commands of [sed EXPRESSION -i FILE]. *)
Definition appended_directives (cmds : list simple_command) : list (string * string) :=
  flat_map
    (fun cmd =>
       match argv cmd with
       | [tool; expression; flag; _] =>
           if String.eqb tool "sed" && String.eqb flag "-i" then
             match after "/a\" expression with
             | Some line =>
                 match nginx_directive line with
                 | Some d => [d]
                 | None => []
                 end
             | None => []
             end
           else []
       | _ => []
       end) cmds.

(** The [name=value] pairs after the question mark of a URL. *)
Definition query_parameters (url : string) : list (string * string) :=
  match after "?" url with
  | None => []
  | Some q =>
      flat_map
        (fun kv =>
           match split_on "=" kv EmptyString with
           | k :: v :: more => [(k, String.concat "=" (v :: more))]
           | _ => []
           end)
        (split_on "&" q EmptyString)
  end.

(** ** Awaiting a job *)

(** Modelled from the spec: the outcome of a job invocation, one of
    pending, succeeded and failed. *)
Inductive outcome := pending | succeeded | failed.

(** Modelled from the spec: the handlers of [lambda/lambda_functions.py] and
    the Lambda service that runs them are not among the sources.  The spec
    has each bootstrap procedure dispatched and "awaited to completion or
    timeout", with "a bootstrap job that exceeds its timeout ... treated as
    failed; there is no partial-result salvage".  [running] is the time in
    seconds the procedure needs, [exit_ok] how it ends when left to end. *)
Definition awaited (timeout : Duration) (running : Z) (exit_ok : bool) : outcome :=
  if (to_seconds timeout <? running)%Z then failed
  else if exit_ok then succeeded
  else failed.


(** ** The constructs a synthesis ends with

    Names for the values some constructs have once [__init__] has
    returned; [synthesized_stack] below proves that the builders leave
    exactly these. *)

Definition ssl_job_environment : list (string * value) :=
  [("ECS_CLUSTER", [Tok "ecs-cluster" "cluster_arn"]);
   ("TASK_DEFINITION", [Tok "CreateSSLMaterialsTaskDefinition" "task_definition_arn"]);
   ("SUBNETS", [Joined "," "OpenMRS-VPC" "private_subnets.subnet_id"]);
   ("SECURITY_GROUPS", [Tok "EFSOnlySecurityGroup" "security_group_id"])].

Definition seed_job_environment : list (string * value) :=
  [("ECS_CLUSTER", [Tok "ecs-cluster" "cluster_arn"]);
   ("TASK_DEFINITION", [Tok "WriteOpenMRSDatatoDataEFSTask" "task_definition_arn"]);
   ("SUBNETS", [Joined "," "OpenMRS-VPC" "private_subnets.subnet_id"]);
   ("SECURITY_GROUPS", [Tok "EFSOnlySecurityGroup" "security_group_id"])].

Definition ssl_trigger : string * LambdaFunction :=
  ("OneTimeSSLSetup",
   python_lambda "lambda_functions.generate_ssl_materials" (Some (minutes 10))
     ssl_job_environment).

Definition seed_trigger : string * LambdaFunction :=
  ("OneTimeEFSDataSetup",
   python_lambda "lambda_functions.initial_openmrs_data_sync_to_efs" (Some (minutes 10))
     seed_job_environment).

Definition smtp_trigger : string * LambdaFunction :=
  ("SMTPSetup",
   python_lambda "lambda_functions.generate_smtp_credential" (Some (minutes 10))
     [("SECRET_ACCESS_KEY", [Tok "secret-access-key" "secret_arn"]);
      ("SMTP_PASSWORD", [Tok "smtp-secret" "secret_arn"])]).

Definition rule_set_trigger : string * LambdaFunction :=
  ("MakeRuleSetActive",
   python_lambda "lambda_functions.make_ruleset_active" (Some (minutes 10))
     [("RULE_SET_NAME", [Tok "RuleSet" "receipt_rule_set_name"])]).

Definition ssl_file_system : string := "EfsFileSystemForSslFolder".
Definition data_file_system : string := "EfsFileSystemForFileStorage".

Definition ssl_mount : mount :=
  {| mount_path := "/etc/ssl/certs/"; mount_file_system := ssl_file_system;
     mount_read_only := false |}.

Definition data_mount : mount :=
  {| mount_path := "/openmrs/data/"; mount_file_system := data_file_system;
     mount_read_only := false |}.

Definition export_mount : mount :=
  {| mount_path := "/openmrs/data/"; mount_file_system := data_file_system;
     mount_read_only := true |}.

Definition ssl_job : job :=
  {| job_command := [[Lit ssl_command]]; job_mounts := [ssl_mount] |}.

Definition export_job : job :=
  {| job_command := [sync_command "EFSExportBucket"]; job_mounts := [export_mount] |}.

Definition gateway_job : job :=
  {| job_command := [[Lit gateway_command]]; job_mounts := [ssl_mount] |}.

Definition backend_job : job :=
  {| job_command := []; job_mounts := [data_mount; ssl_mount] |}.

(** The files of the TLS job on the certificate file system: the three
    the service reads and the three the job writes aside. *)
Definition cert_pem : location := OnVolume ssl_file_system "cert.pem".
Definition privkey_pem : location := OnVolume ssl_file_system "privkey.pem".
Definition mysql_pem : location := OnVolume ssl_file_system "mysql.pem".

Definition key_tmp : location := OnVolume ssl_file_system "selfsigned.key.pem.tmp".
Definition cert_tmp : location := OnVolume ssl_file_system "selfsigned.cert.pem.tmp".
Definition bundle_tmp : location := OnVolume ssl_file_system "mysqltmp.pem".
Definition temporary_names : list location := [key_tmp; cert_tmp; bundle_tmp].

Definition bundle_url : string :=
  "https://truststore.pki.rds.amazonaws.com/global/global-bundle.pem".

(** What a run of the TLS job by invocation [i] makes. *)
Definition new_key (i : nat) : content := RsaPrivateKey 2048 i.
Definition new_certificate (i : nat) : content :=
  Certificate "sha256" 365 "/CN=localhost" (new_key i).
Definition new_bundle : content := Fetched bundle_url false.

(** Whether a file holds a download whose peer was authenticated. *)
Definition authenticated (c : option content) : bool :=
  match c with
  | Some (Fetched _ verified) => verified
  | _ => false
  end.

(** A tool environment in which every tool works. *)
Definition all_tools_work : nat -> ending := fun _ => works.

(** The command a container is started with, once the attributes spliced
    in it are resolved. *)
Definition render_fragment (resolve : string -> string -> string) (f : fragment) : string :=
  match f with
  | Lit s => s
  | Tok c a => resolve c a
  | Joined _ c a => resolve c a
  | Pseudo n => resolve EmptyString n
  end.

Definition render (resolve : string -> string -> string) (v : value) : string :=
  String.concat EmptyString (map (render_fragment resolve) v).

Definition on_volume (l : location) : bool :=
  match l with
  | OnVolume _ _ => true
  | _ => false
  end.

(** An action that cannot write a volume: where it names a file of a
    volume, it was compiled as not writable. *)
Definition guarded (a : action) : Prop :=
  match a with
  | Produce _ target writable => on_volume target = true -> writable = false
  | Rename source target writable =>
      on_volume source || on_volume target = true -> writable = false
  | _ => True
  end.

(** The files of every volume are in [s'] what they are in [s]. *)
Definition unchanged_volumes (s s' : store) : Prop :=
  forall fs name, s' (OnVolume fs name) = s (OnVolume fs name).

(** The schedule of the overlap: the first invocation (false) draws its
    key and issues its certificate; the second (true) then draws its own
    key into the same temporary file; the first goes on to download and to
    rename all three files; the second, resumed, finds its key file gone and
    stops. *)
Definition overlap : list bool :=
  [false; false; false; true; true; false; false; false; false; true].

(** The bucket name of a sample deployment. *)
Definition sample_names : string -> string -> string :=
  fun _ _ => "sagemaker-efs-export-0123".

(** Whether [_configure_ses] builds the mail subsystem, and whether the
    analytics environment is built. *)
Definition ses_configured (ctx : Context) : bool :=
  truthy (route53_domain ctx) && ctx_is (configure_ses ctx) "true".

Definition analytics_configured (ctx : Context) : bool :=
  ctx_is (create_serverless_analytics_environment ctx) "true".

Definition password_generator (name : string) : SecretContent :=
  generate_secret_string
    {| exclude_punctuation := true; include_space := false;
       secret_string_template := username_template name;
       generate_string_key := "password" |}.

Definition find_opaque (st : Stack) (id : string) : option (string * list string) :=
  match lookup id (constructs st) with
  | Some (Opaque kind refs) => Some (kind, refs)
  | _ => None
  end.

(** The task definition a service runs. *)
Definition service_task (st : Stack) (id : string) : option string :=
  match lookup id (constructs st) with
  | Some (ServiceR s) => Some (service_task_definition s)
  | _ => None
  end.

(** An environment variable of a container of a task. *)
Definition container_variable (st : Stack) (task container name : string) : option value :=
  match find_task st task with
  | Some t =>
      match find_container t container with
      | Some c => lookup name (container_environment c)
      | None => None
      end
  | None => None
  end.

(** What every successful synthesis has built. *)
Definition synthesized (ctx : Context) (st : Stack) : Prop :=
  node_dependencies st
  = [("web-acl", "Load-Balancer"); ("ecs-cluster", "DatabaseCluster");
     ("OpenMRSFargateLBService", "OneTimeSSLSetup")]
  /\ has_incoming_edge st "OneTimeEFSDataSetup" = false
  /\ service_task st "OpenMRSFargateLBService" = Some "OpenMRSFargateTaskDefinition"
  /\ find_function st "MaintainSSLMaterialsLambda" = Some (snd ssl_trigger)
  /\ find_trigger st "OneTimeSSLSetup" = Some (snd ssl_trigger)
  /\ find_trigger st "OneTimeEFSDataSetup" = Some (snd seed_trigger)
  /\ find_rule st "RegularScheduleforSSLMaintenance"
     = Some {| schedule := rate (days 2); targets := ["MaintainSSLMaterialsLambda"] |}
  /\ trigger_functions st
     = ((if ses_configured ctx then [smtp_trigger; rule_set_trigger] else [])
        ++ [ssl_trigger; seed_trigger])%list
  /\ find_job st "CreateSSLMaterialsTaskDefinition" "SSLMaintenanceContainer" = Some ssl_job
  /\ find_job st "SyncEFStoS3Task" "AmazonLinuxContainer"
     = (if analytics_configured ctx then Some export_job else None)
  /\ find_job st "OpenMRSFargateTaskDefinition" "GatewayOpenMRSContainer" = Some gateway_job
  /\ find_job st "OpenMRSFargateTaskDefinition" "BackendOpenMRSContainer" = Some backend_job
  /\ container_variable st "OpenMRSFargateTaskDefinition" "BackendOpenMRSContainer"
       "OMRS_CONFIG_CONNECTION_URL"
     = Some (connection_url "DatabaseCluster")
  /\ find_secret st "Password" = Some (password_generator "admin")
  /\ find_secret st "db-secret" = Some (password_generator "dbadmin")
  /\ find_secret st "secret-access-key"
     = (if ses_configured ctx
        then Some (secret_object_value
                     [("password", [Tok "SmtpAccessKey" "secret_access_key"])])
        else None)
  /\ find_opaque st "SmtpAccessKey"
     = (if ses_configured ctx then Some ("iam.AccessKey", ["SmtpUser"]) else None).

(** *** Deciding the equalities of [synthesized] *)

Definition decb {P : Prop} (d : {P} + {~ P}) : bool := if d then true else false.

Definition option_eq_dec {A : Type} (dec : forall a b : A, {a = b} + {a <> b})
  (x y : option A) : {x = y} + {x <> y}.
Proof. decide equality. Defined.

Definition pair_eq_dec {A B : Type} (da : forall a b : A, {a = b} + {a <> b})
  (db : forall a b : B, {a = b} + {a <> b}) (x y : A * B) : {x = y} + {x <> y}.
Proof. decide equality. Defined.

Definition fragment_eq_dec (a b : fragment) : {a = b} + {a <> b}.
Proof. decide equality; apply string_dec. Defined.

Definition value_eq_dec : forall a b : value, {a = b} + {a <> b} :=
  list_eq_dec fragment_eq_dec.

Definition Duration_eq_dec (a b : Duration) : {a = b} + {a <> b}.
Proof. decide equality; apply Z.eq_dec. Defined.

Definition LambdaFunction_eq_dec (a b : LambdaFunction) : {a = b} + {a <> b}.
Proof.
  decide equality;
    first [ apply string_dec
          | apply (option_eq_dec Duration_eq_dec)
          | apply (list_eq_dec (pair_eq_dec string_dec value_eq_dec)) ].
Defined.

Definition Rule_eq_dec (a b : Rule) : {a = b} + {a <> b}.
Proof.
  decide equality; [apply (list_eq_dec string_dec) | ].
  decide equality; apply Duration_eq_dec.
Defined.

Definition mount_eq_dec (a b : mount) : {a = b} + {a <> b}.
Proof. decide equality; first [apply string_dec | apply bool_dec]. Defined.

Definition job_eq_dec (a b : job) : {a = b} + {a <> b}.
Proof.
  decide equality;
    [apply (list_eq_dec mount_eq_dec) | apply (list_eq_dec value_eq_dec)].
Defined.

Definition SecretContent_eq_dec (a b : SecretContent) : {a = b} + {a <> b}.
Proof.
  decide equality.
  - decide equality; first [apply string_dec | apply bool_dec].
  - apply (list_eq_dec (pair_eq_dec string_dec value_eq_dec)).
Defined.

(** [synthesized], decided. *)
Definition synthesizedb (ctx : Context) (st : Stack) : bool :=
  decb (list_eq_dec (pair_eq_dec string_dec string_dec) (node_dependencies st)
          [("web-acl", "Load-Balancer"); ("ecs-cluster", "DatabaseCluster");
           ("OpenMRSFargateLBService", "OneTimeSSLSetup")])
  && decb (bool_dec (has_incoming_edge st "OneTimeEFSDataSetup") false)
  && decb (option_eq_dec string_dec (service_task st "OpenMRSFargateLBService")
             (Some "OpenMRSFargateTaskDefinition"))
  && decb (option_eq_dec LambdaFunction_eq_dec
             (find_function st "MaintainSSLMaterialsLambda") (Some (snd ssl_trigger)))
  && decb (option_eq_dec LambdaFunction_eq_dec
             (find_trigger st "OneTimeSSLSetup") (Some (snd ssl_trigger)))
  && decb (option_eq_dec LambdaFunction_eq_dec
             (find_trigger st "OneTimeEFSDataSetup") (Some (snd seed_trigger)))
  && decb (option_eq_dec Rule_eq_dec (find_rule st "RegularScheduleforSSLMaintenance")
             (Some {| schedule := rate (days 2);
                      targets := ["MaintainSSLMaterialsLambda"] |}))
  && decb (list_eq_dec (pair_eq_dec string_dec LambdaFunction_eq_dec)
             (trigger_functions st)
             ((if ses_configured ctx then [smtp_trigger; rule_set_trigger] else [])
              ++ [ssl_trigger; seed_trigger])%list)
  && decb (option_eq_dec job_eq_dec
             (find_job st "CreateSSLMaterialsTaskDefinition" "SSLMaintenanceContainer")
             (Some ssl_job))
  && decb (option_eq_dec job_eq_dec (find_job st "SyncEFStoS3Task" "AmazonLinuxContainer")
             (if analytics_configured ctx then Some export_job else None))
  && decb (option_eq_dec job_eq_dec
             (find_job st "OpenMRSFargateTaskDefinition" "GatewayOpenMRSContainer")
             (Some gateway_job))
  && decb (option_eq_dec job_eq_dec
             (find_job st "OpenMRSFargateTaskDefinition" "BackendOpenMRSContainer")
             (Some backend_job))
  && decb (option_eq_dec value_eq_dec
             (container_variable st "OpenMRSFargateTaskDefinition" "BackendOpenMRSContainer"
                "OMRS_CONFIG_CONNECTION_URL")
             (Some (connection_url "DatabaseCluster")))
  && decb (option_eq_dec SecretContent_eq_dec (find_secret st "Password")
             (Some (password_generator "admin")))
  && decb (option_eq_dec SecretContent_eq_dec (find_secret st "db-secret")
             (Some (password_generator "dbadmin")))
  && decb (option_eq_dec SecretContent_eq_dec (find_secret st "secret-access-key")
             (if ses_configured ctx
              then Some (secret_object_value
                           [("password", [Tok "SmtpAccessKey" "secret_access_key"])])
              else None))
  && decb (option_eq_dec (pair_eq_dec string_dec (list_eq_dec string_dec))
             (find_opaque st "SmtpAccessKey")
             (if ses_configured ctx then Some ("iam.AccessKey", ["SmtpUser"]) else None)).

(** ** More of the stack

    Readers and checks for the parts of the stack that are common to all
    its task definitions, functions and parameters. *)

Definition find_service (st : Stack) (id : string) : option FargateService :=
  match lookup id (constructs st) with
  | Some (ServiceR s) => Some s
  | _ => None
  end.

Definition construct_ids (st : Stack) : list string := map fst (constructs st).

Definition task_definitions (st : Stack) : list (string * TaskDefinition) :=
  flat_map (fun kr => match snd kr with
                      | TaskDefinitionR t => [(fst kr, t)]
                      | _ => []
                      end) (constructs st).

(** The Lambda functions of a stack, plain and trigger alike. *)
Definition lambda_functions (st : Stack) : list (string * LambdaFunction) :=
  flat_map (fun kr => match snd kr with
                      | FunctionR f => [(fst kr, f)]
                      | TriggerFunctionR f => [(fst kr, f)]
                      | _ => []
                      end) (constructs st).

(** The SSM parameters of a stack: name and value, in creation order. *)
Definition string_parameters (st : Stack) : list (string * value) :=
  flat_map (fun kr => match snd kr with
                      | StringParameterR name v => [(name, v)]
                      | _ => []
                      end) (constructs st).

(** Every edge of the provisioning graph ends at a construct of the
    stack. *)
Definition edges_resolve (st : Stack) : bool :=
  forallb (fun e => existsb (String.eqb (snd e)) (construct_ids st)) (edges st).

(** The task definition a job-running function is told to run, where its
    [TASK_DEFINITION] variable is the ARN of a task definition. *)
Definition task_of_function (f : LambdaFunction) : option string :=
  match lookup "TASK_DEFINITION" (environment f) with
  | Some [Tok t a] => if String.eqb a "task_definition_arn" then Some t else None
  | _ => None
  end.

(** A task definition the handlers can run as it is: one container,
    started as [/bin/sh -c] on a single script. *)
Definition single_script (t : TaskDefinition) : bool :=
  match containers t with
  | [c] =>
      match entry_point c, command c with
      | [sh; flag], [_] => String.eqb sh "/bin/sh" && String.eqb flag "-c"
      | _, _ => false
      end
  | _ => false
  end.

Definition job_functions_resolve (st : Stack) : bool :=
  forallb
    (fun kf =>
       match lookup "TASK_DEFINITION" (environment (snd kf)) with
       | None => true
       | Some _ =>
           match task_of_function (snd kf) with
           | Some t =>
               match find_task st t with
               | Some td => single_script td
               | None => false
               end
           | None => false
           end
       end)
    (lambda_functions st).

Definition is_empty {A : Type} (l : list A) : bool :=
  match l with
  | [] => true
  | _ => false
  end.

(** Every container another one waits for is a different container of
    the same task, waited for as [HEALTHY] and given a health check. *)
Definition dependencies_checked (t : TaskDefinition) : bool :=
  forallb
    (fun c =>
       forallb
         (fun d =>
            match find_container t (fst d) with
            | Some c' =>
                String.eqb (snd d) "HEALTHY"
                && negb (is_empty (health_check c'))
                && negb (String.eqb (container_id c') (container_id c))
            | None => false
            end)
         (container_dependencies c))
    (containers t).

(** Every mount point names a volume of its task. *)
Definition mount_points_resolve (t : TaskDefinition) : bool :=
  forallb
    (fun c =>
       forallb
         (fun mp =>
            match volume_file_system t (source_volume mp) with
            | Some _ => true
            | None => false
            end)
         (mount_points c))
    (containers t).

Fixpoint distinct (l : list Z) : bool :=
  match l with
  | [] => true
  | x :: rest => negb (existsb (Z.eqb x) rest) && distinct rest
  end.

(** The containers of a task share one network interface: their ports
    differ. *)
Definition ports_distinct (t : TaskDefinition) : bool :=
  distinct (map container_port (containers t)).

(** The secrets handed to a container of a task. *)
Definition container_secret_list (st : Stack) (task container : string)
  : option (list (string * EcsSecret)) :=
  match find_task st task with
  | Some t => option_map container_secrets (find_container t container)
  | None => None
  end.

(** Whether the deployment is given a certificate or a domain. *)
Definition https_configured (ctx : Context) : bool :=
  truthy (certificate_arn ctx) || truthy (route53_domain ctx).

(** *** The data-seed job

    The seed container runs [cp -r /openmrs/data/. /tmp/data]: the files
    the image has under the first directory are copied under the second,
    where the data file system is mounted. *)

(** [SRC/.] names the content of directory [SRC/]. *)
Fixpoint content_of (p : string) : option string :=
  match p with
  | EmptyString => None
  | String ch rest =>
      if String.eqb p "/." then Some "/"
      else option_map (String ch) (content_of rest)
  end.

(** The path under which a container with mounts [ms] sees a location. *)
Fixpoint path_of (ms : list mount) (l : location) : option string :=
  match l with
  | InContainer p => Some p
  | InBucket _ _ => None
  | PackageFiles _ => None
  | OnVolume fs name =>
      match ms with
      | [] => None
      | m :: rest =>
          if String.eqb (mount_file_system m) fs then Some (mount_path m ++ name)
          else path_of rest l
      end
  end.

(** A recursive copy that succeeds: a location under [dst] takes the
    content of the file of the same name under [src], where there is one;
    every other location, and every file with no counterpart, stays. *)
Definition copy_tree (ms : list mount) (src dst : string) (s : store) : store :=
  fun l =>
    match path_of ms l with
    | Some p =>
        match strip_prefix dst p with
        | Some name =>
            if location_eqb (fst (locate ms p)) l && snd (locate ms p) then
              match s (fst (locate ms (src ++ name))) with
              | Some data => Some data
              | None => s l
              end
            else s l
        | None => s l
        end
    | None => s l
    end.

(** The copy a job makes whose script is one [cp -r SRC/. DST]. *)
Definition job_copy (j : job) : option (store -> store) :=
  match job_command j with
  | [[Lit script]] =>
      match parse_script script with
      | [cmd] =>
          match argv cmd, redirect cmd with
          | [tool; flag; src; dst], None =>
              if String.eqb tool "cp" && String.eqb flag "-r" then
                option_map
                  (fun dir => copy_tree (job_mounts j) dir (directory (absolute "/" dst)))
                  (content_of src)
              else None
          | _, _ => None
          end
      | _ => None
      end
  | _ => None
  end.

Definition staging_mount : mount :=
  {| mount_path := "/tmp/data/"; mount_file_system := data_file_system;
     mount_read_only := false |}.

Definition seed_job : job :=
  {| job_command := [[Lit "cp -r /openmrs/data/. /tmp/data"]];
     job_mounts := [staging_mount] |}.

(** Every secret handed to a container names a secret or a parameter of
    the stack. *)
Definition secrets_resolve (st : Stack) : bool :=
  forallb
    (fun kt =>
       forallb
         (fun c =>
            forallb
              (fun ks =>
                 match snd ks with
                 | from_secrets_manager id _ =>
                     match find_secret st id with Some _ => true | None => false end
                 | from_ssm_parameter id =>
                     match lookup id (constructs st) with
                     | Some (StringParameterR _ _) => true
                     | _ => false
                     end
                 end)
              (container_secrets c))
         (containers (snd kt)))
    (task_definitions st).

Definition tasks_well_formed (st : Stack) : bool :=
  forallb (fun kt => dependencies_checked (snd kt)
                     && mount_points_resolve (snd kt)
                     && ports_distinct (snd kt))
    (task_definitions st).

(** No construct refers to or depends on a trigger function other than
    the TLS one. *)
Definition other_triggers_unawaited (st : Stack) : bool :=
  forallb (fun kf => String.eqb (fst kf) "OneTimeSSLSetup"
                     || negb (has_incoming_edge st (fst kf)))
    (trigger_functions st).

Definition database_secrets : list (string * EcsSecret) :=
  [("OMRS_DB_USERNAME", from_secrets_manager "db-secret" "username");
   ("OMRS_DB_PASSWORD", from_secrets_manager "db-secret" "password");
   ("OMRS_ADMIN_USER_PASSWORD", from_secrets_manager "Password" "password")].

Definition mail_secrets : list (string * EcsSecret) :=
  [("OMRS_EXTRA_MAIL_USER", from_ssm_parameter "mail-user");
   ("OMRS_EXTRA_MAIL_PASSWORD", from_secrets_manager "smtp-secret" "password");
   ("OMRS_EXTRA_MAIL_SMTP__HOST", from_ssm_parameter "smtp-host");
   ("OMRS_EXTRA_MAIL_SMTP__PORT", from_ssm_parameter "smtp-port");
   ("OMRS_EXTRA_MAIL_TRANSPORT__PROTOCOL", from_ssm_parameter "mail-transport-protocol");
   ("OMRS_EXTRA_MAIL_SMTP__AUTH", from_ssm_parameter "smtp-auth");
   ("OMRS_EXTRA_MAIL_SMTP_STARTTLS_ENABLE", from_ssm_parameter "smtp-tls-enable");
   ("OMRS_EXTRA_MAIL_FROM", from_ssm_parameter "mail-from")].

Definition mail_parameter_names : list string :=
  ["mail_transport_protocol"; "mail_user"; "smtp_host"; "smtp_port"; "smtp_auth";
   "smtp_tls_enable"; "mail_from"].

(** The certificate the service is given: the one imported from
    [certificate_arn] where there is one, else the one issued for the
    domain, else none. *)
Definition expected_service (ctx : Context) : FargateService :=
  {| service_certificate :=
       if truthy (certificate_arn ctx) then Some "domainCert"
       else if truthy (route53_domain ctx) then Some "Certificate"
       else None;
     min_healthy_percent := 100;
     service_cluster := "ecs-cluster";
     load_balancer := "Load-Balancer";
     open_listener := false;
     target_protocol := "HTTPS";
     service_task_definition := "OpenMRSFargateTaskDefinition" |}.

(** [has_edge st a b]: [a] names [b] as a dependency or refers to it. *)
Definition has_edge (st : Stack) (a b : string) : bool :=
  existsb (fun e => String.eqb (fst e) a && String.eqb (snd e) b) (edges st).

(** The edges that order the service, the triggers that run jobs, the
    cluster, the database and the file systems: the two explicit
    dependencies of [_create_ecs_cluster] and [_create_openmrs_service],
    and the references of the service, of its task definition and of the
    triggers' environments. *)
Definition ordering_edges : list (string * string) :=
  [("OpenMRSFargateLBService", "ecs-cluster");
   ("ecs-cluster", "DatabaseCluster");
   ("OpenMRSFargateLBService", "OpenMRSFargateTaskDefinition");
   ("OpenMRSFargateTaskDefinition", "EfsFileSystemForFileStorage");
   ("OpenMRSFargateTaskDefinition", "EfsFileSystemForSslFolder");
   ("OpenMRSFargateLBService", "OneTimeSSLSetup");
   ("OneTimeSSLSetup", "CreateSSLMaterialsTaskDefinition");
   ("OneTimeSSLSetup", "ecs-cluster");
   ("OneTimeEFSDataSetup", "ecs-cluster")].

Definition ordering_edges_present (st : Stack) : bool :=
  forallb (fun e => has_edge st (fst e) (snd e)) ordering_edges.

(** What else every successful synthesis has built. *)
Definition synthesized_more (ctx : Context) (st : Stack) : Prop :=
  edges_resolve st = true
  /\ job_functions_resolve st = true
  /\ tasks_well_formed st = true
  /\ secrets_resolve st = true
  /\ other_triggers_unawaited st = true
  /\ find_job st "WriteOpenMRSDatatoDataEFSTask" "OneTimePrepareEFSContainer" = Some seed_job
  /\ find_service st "OpenMRSFargateLBService" = Some (expected_service ctx)
  /\ find_opaque st "GlobalAccelerator/GAListener"
     = (if ctx_is (enable_global_accelerator ctx) "true"
        then Some (if https_configured ctx then "ga.Listener:443" else "ga.Listener:80",
                   ["GlobalAccelerator"])
        else None)
  /\ map fst (string_parameters st)
     = ((if ses_configured ctx then mail_parameter_names else [])
        ++ ["swarm_mode"; "mysql_port"])%list
  /\ lookup "swarm_mode" (string_parameters st) = Some [Lit "yes"]
  /\ lookup "mysql_port" (string_parameters st) = Some [Lit "3306"]
  /\ has_incoming_edge st "swarm-mode" = false
  /\ has_incoming_edge st "mysql-port" = false
  /\ container_secret_list st "OpenMRSFargateTaskDefinition" "BackendOpenMRSContainer"
     = Some (database_secrets ++ (if ses_configured ctx then mail_secrets else []))%list
  /\ find_secret st "smtp-secret"
     = (if ses_configured ctx then Some no_secret_properties else None)
  /\ ordering_edges_present st = true.

Definition datum_eq_dec (a b : datum) : {a = b} + {a <> b}.
Proof. decide equality; [apply string_dec | apply Z.eq_dec]. Defined.

Definition error_eq_dec (a b : error) : {a = b} + {a <> b}.
Proof.
  decide equality;
    first [ apply string_dec
          | apply (list_eq_dec (pair_eq_dec string_dec (option_eq_dec datum_eq_dec))) ].
Defined.

Definition EcsSecret_eq_dec (a b : EcsSecret) : {a = b} + {a <> b}.
Proof. decide equality; apply string_dec. Defined.

Definition FargateService_eq_dec (a b : FargateService) : {a = b} + {a <> b}.
Proof.
  decide equality;
    first [ apply string_dec | apply bool_dec | apply Nat.eq_dec
          | apply (option_eq_dec string_dec) ].
Defined.

Definition synthesized_moreb (ctx : Context) (st : Stack) : bool :=
  edges_resolve st
  && job_functions_resolve st
  && tasks_well_formed st
  && secrets_resolve st
  && other_triggers_unawaited st
  && decb (option_eq_dec job_eq_dec
             (find_job st "WriteOpenMRSDatatoDataEFSTask" "OneTimePrepareEFSContainer")
             (Some seed_job))
  && decb (option_eq_dec FargateService_eq_dec
             (find_service st "OpenMRSFargateLBService") (Some (expected_service ctx)))
  && decb (option_eq_dec (pair_eq_dec string_dec (list_eq_dec string_dec))
             (find_opaque st "GlobalAccelerator/GAListener")
             (if ctx_is (enable_global_accelerator ctx) "true"
              then Some (if https_configured ctx then "ga.Listener:443"
                         else "ga.Listener:80", ["GlobalAccelerator"])
              else None))
  && decb (list_eq_dec string_dec (map fst (string_parameters st))
             ((if ses_configured ctx then mail_parameter_names else [])
              ++ ["swarm_mode"; "mysql_port"])%list)
  && decb (option_eq_dec value_eq_dec (lookup "swarm_mode" (string_parameters st))
             (Some [Lit "yes"]))
  && decb (option_eq_dec value_eq_dec (lookup "mysql_port" (string_parameters st))
             (Some [Lit "3306"]))
  && negb (has_incoming_edge st "swarm-mode")
  && negb (has_incoming_edge st "mysql-port")
  && decb (option_eq_dec (list_eq_dec (pair_eq_dec string_dec EcsSecret_eq_dec))
             (container_secret_list st "OpenMRSFargateTaskDefinition"
                "BackendOpenMRSContainer")
             (Some (database_secrets
                    ++ (if ses_configured ctx then mail_secrets else []))%list))
  && decb (option_eq_dec SecretContent_eq_dec (find_secret st "smtp-secret")
             (if ses_configured ctx then Some no_secret_properties else None))
  && ordering_edges_present st.

(** When synthesis raises: the mail settings are asked for under
    [configure_ses] alone, and built under [configure_ses] and a domain. *)
Definition mail_settings_missing (ctx : Context) : bool :=
  ctx_is (configure_ses ctx) "true" && negb (truthy (route53_domain ctx)).

(** The outcome of a synthesis in which the library accepts every call,
    decided. *)
Definition synthesis_outcomeb (ctx : Context) (r : error + Stack) : bool :=
  match r with
  | inl e => decb (error_eq_dec e (AttributeError "mail_user")) && mail_settings_missing ctx
  | inr st =>
      negb (mail_settings_missing ctx) && synthesizedb ctx st && synthesized_moreb ctx st
  end.


(** A context with a certificate of the user's, a domain and the global
    accelerator. *)
Definition accelerated_context : Context :=
  {| certificate_arn := Some "arn:aws:acm:eu-west-1:111122223333:certificate/abc";
     route53_domain := Some "example.org"; configure_ses := None;
     email_forwarding_address := None; enable_global_accelerator := Some "true";
     enable_bedrock_integration := None; enable_ecs_exec := None;
     create_serverless_analytics_environment := None;
     openmrs_reference_application_version := Some "3.0.0";
     security_group_ip_range_ipv4 := Some "0.0.0.0/0";
     security_group_ip_range_ipv6 := None;
     open_smtp_port := None;
     net_read_timeout := Some (Text "600");
     net_write_timeout := Some (Text "600");
     wait_timeout := Some (Text "28800");
     connect_timeout := Some (Text "60");
     max_execution_time := Some (Text "0");
     aurora_ml_inference_timeout := Some (Text "30000");
     openmrs_service_fargate_cpu_per_task := Some (Number 1024);
     openmrs_service_fargate_ram_per_task := Some (Number 4096);
     openmrs_service_fargate_minimum_capacity := Some (Number 2);
     openmrs_service_fargate_maximum_capacity := Some (Number 10);
     sticky_session_cookie_length_in_minutes := Some (Number 60);
     openmrs_service_fargate_cpu_autoscaling_percentage := Some (Number 75);
     openmrs_service_fargate_memory_autoscaling_percentage := Some (Number 75) |}.


(** The stack as [_create_vpc] and [_create_security_groups] leave it:
    the rules for address ranges add nothing to it. *)
Definition groups_stack : Stack :=
  Eval vm_compute in
    match (_create_vpc ;; _create_security_groups accepting default_context) empty_stack with
    | inr (_, st) => st
    | inl _ => empty_stack
    end.

(** An error raised by a call that the library turned down. *)
Definition rejected (lib : Library) (e : error) : Prop :=
  exists callee arguments, e = Rejected callee arguments /\ lib callee arguments = false.

(** [m], run with the library [lib], against [m']: where [m] returns, [m']
    returns the same; where [m] raises, either the library turned a call
    down or [m'] raises the same error. *)
Definition refines (lib : Library) {A : Type} (m m' : M A) : Prop :=
  forall st,
    match m st with
    | inr r => m' st = inr r
    | inl e => rejected lib e \/ m' st = inl e
    end.
(** * Properties *)

Lemma decb_true (P : Prop) (d : {P} + {~ P}) : decb d = true -> P.
Proof. destruct d; [trivial | discriminate]. Qed.

Lemma synthesizedb_sound (ctx : Context) (st : Stack) :
  synthesizedb ctx st = true -> synthesized ctx st.
Proof.
  unfold synthesizedb, synthesized. intros H.
  repeat (apply andb_prop in H; destruct H as [H ?]).
  repeat split; eapply decb_true; eassumption.
Qed.

Lemma synthesized_moreb_sound (ctx : Context) (st : Stack) :
  synthesized_moreb ctx st = true -> synthesized_more ctx st.
Proof.
  unfold synthesized_moreb, synthesized_more. intros H.
  repeat (apply andb_prop in H; destruct H as [H ?]).
  repeat match goal with
         | E : negb _ = true |- _ => apply Bool.negb_true_iff in E
         end.
  repeat split; first [assumption | eapply decb_true; eassumption].
Qed.

(** ** Synthesis where the library accepts every call *)

(** The first two builders: whatever the address ranges, the rules for
    them leave the stack as it is. *)
Lemma first_builders (ctx : Context) (K : M unit) :
  (_create_vpc ;; _create_security_groups accepting ctx ;; K) empty_stack
  = K groups_stack.
Proof.
  unfold _create_security_groups, open_to_range.
  destruct (truthy (certificate_arn ctx) || truthy (route53_domain ctx)),
    (truthy (security_group_ip_range_ipv4 ctx)),
    (truthy (security_group_ip_range_ipv6 ctx)); reflexivity.
Qed.

Ltac unfold_builders :=
  unfold _create_elb_log_bucket, _create_alb, _create_and_configure_dns_and_certificates,
    _configure_ses, _create_waf, _create_environment_variables, _create_password,
    _create_db_instance, _create_efs_volume, _create_backup, _create_ecs_cluster,
    _create_and_maintain_tls_materials, _perpare_data_efs_for_openmrs_service,
    _create_openmrs_service, _create_serverless_analytics_environment.

(** Past the security groups the builders branch on eight tests of the
    context, and on [open_smtp_port] for rules that name no construct: the
    goal is read as a function of the eight and proved at each of their
    values. *)
Ltac by_flags ctx :=
  pattern (ctx_is (create_serverless_analytics_environment ctx) "true"),
          (ctx_is (enable_ecs_exec ctx) "true"),
          (ctx_is (enable_bedrock_integration ctx) "true"),
          (truthy (email_forwarding_address ctx)),
          (ctx_is (configure_ses ctx) "true"),
          (truthy (route53_domain ctx)),
          (truthy (certificate_arn ctx)),
          (ctx_is (enable_global_accelerator ctx) "true");
  match goal with
  | |- ?F _ _ _ _ _ _ _ _ =>
      let G := fresh "G" in
      set (G := F);
      generalize (ctx_is (create_serverless_analytics_environment ctx) "true"),
                 (ctx_is (enable_ecs_exec ctx) "true"),
                 (ctx_is (enable_bedrock_integration ctx) "true"),
                 (truthy (email_forwarding_address ctx)),
                 (ctx_is (configure_ses ctx) "true"),
                 (truthy (route53_domain ctx)),
                 (truthy (certificate_arn ctx)),
                 (ctx_is (enable_global_accelerator ctx) "true");
      intros [] [] [] [] [] [] [] []; subst G
  end.

Lemma synthesis_outcome (ctx : Context) :
  synthesis_outcomeb ctx (synth accepting ctx) = true.
Proof.
  unfold synth, OpenmrsEcsStack.
  rewrite first_builders.
  unfold synthesis_outcomeb, synthesizedb, synthesized_moreb, mail_settings_missing,
    expected_service, ses_configured, https_configured, analytics_configured.
  unfold_builders.
  cbv zeta.
  match goal with
  | |- context [when (ctx_is (open_smtp_port ctx) "true") ?X] =>
      replace (when (ctx_is (open_smtp_port ctx) "true") X) with (@ret unit tt)
        by (destruct (ctx_is (open_smtp_port ctx) "true"); reflexivity)
  end.
  by_flags ctx.
  all: vm_compute; reflexivity.
Qed.

(** ** Synthesis with any library

    A library that rejects a call ends the synthesis there; one that
    accepts it leaves the stack as it is.  So a synthesis that returns
    returns the stack that the all-accepting library gives, and one that
    raises raises either a rejected call or what the all-accepting library
    raises. *)

Lemma refines_refl (lib : Library) {A : Type} (m : M A) : refines lib m m.
Proof. intros st. destruct (m st); [right; reflexivity | reflexivity]. Qed.

Lemma refines_bind (lib : Library) {A B : Type} (m m' : M A) (k k' : A -> M B) :
  refines lib m m' -> (forall a, refines lib (k a) (k' a)) ->
  refines lib (bind m k) (bind m' k').
Proof.
  intros Hm Hk st. unfold bind. specialize (Hm st).
  destruct (m st) as [e | [a st1]].
  - destruct Hm as [R | E]; [left; exact R | right; rewrite E; reflexivity].
  - rewrite Hm. exact (Hk a st1).
Qed.

Lemma refines_calling (lib : Library) (callee : string)
  (arguments : list (string * option datum)) :
  refines lib (calling lib callee arguments) (calling accepting callee arguments).
Proof.
  intros st. unfold calling. destruct (lib callee arguments) eqn:E.
  - reflexivity.
  - left. exists callee, arguments. split; [reflexivity | exact E].
Qed.

Ltac refine_step :=
  match goal with
  | |- refines ?l ?m ?m' => constr_eq m m'; exact (refines_refl l m)
  | |- refines ?l (bind ?m ?k) (bind ?m' ?k') =>
      apply (refines_bind l m m' k k'); [ | intros ?]
  | |- refines _ (calling ?lib ?c ?a) _ => exact (refines_calling lib c a)
  | |- refines _ (when _ _) (when _ _) => unfold when
  | |- refines _ (if ?b then _ else _) (if ?b then _ else _) => destruct b
  | |- refines _ (from_registry _ _ _) _ => unfold from_registry
  | |- refines _ (open_to_range _ _ _ _ _) _ => unfold open_to_range
  end.

Ltac refine_builder := cbv zeta; repeat refine_step.

Lemma _create_security_groups_refines (lib : Library) (ctx : Context) :
  refines lib (_create_security_groups lib ctx) (_create_security_groups accepting ctx).
Proof. unfold _create_security_groups. refine_builder. Qed.

Lemma _create_and_configure_dns_and_certificates_refines (lib : Library) (ctx : Context) :
  refines lib (_create_and_configure_dns_and_certificates lib ctx)
          (_create_and_configure_dns_and_certificates accepting ctx).
Proof. unfold _create_and_configure_dns_and_certificates. refine_builder. Qed.

Lemma _configure_ses_refines (lib : Library) (ctx : Context) :
  refines lib (_configure_ses lib ctx) (_configure_ses accepting ctx).
Proof. unfold _configure_ses. refine_builder. Qed.

Lemma _create_db_instance_refines (lib : Library) (ctx : Context) :
  refines lib (_create_db_instance lib ctx) (_create_db_instance accepting ctx).
Proof. unfold _create_db_instance. refine_builder. Qed.

Lemma _create_and_maintain_tls_materials_refines (lib : Library) (ctx : Context) :
  refines lib (_create_and_maintain_tls_materials lib ctx)
          (_create_and_maintain_tls_materials accepting ctx).
Proof. unfold _create_and_maintain_tls_materials. refine_builder. Qed.

Lemma _perpare_data_efs_for_openmrs_service_refines (lib : Library) (ctx : Context) :
  refines lib (_perpare_data_efs_for_openmrs_service lib ctx)
          (_perpare_data_efs_for_openmrs_service accepting ctx).
Proof. unfold _perpare_data_efs_for_openmrs_service. refine_builder. Qed.

Lemma _create_openmrs_service_refines (lib : Library) (ctx : Context) :
  refines lib (_create_openmrs_service lib ctx) (_create_openmrs_service accepting ctx).
Proof. unfold _create_openmrs_service. refine_builder. Qed.

Lemma _create_serverless_analytics_environment_refines (lib : Library) (ctx : Context) :
  refines lib (_create_serverless_analytics_environment lib ctx)
          (_create_serverless_analytics_environment accepting ctx).
Proof. unfold _create_serverless_analytics_environment. refine_builder. Qed.

Lemma OpenmrsEcsStack_refines (lib : Library) (ctx : Context) :
  refines lib (OpenmrsEcsStack lib ctx) (OpenmrsEcsStack accepting ctx).
Proof.
  unfold OpenmrsEcsStack.
  repeat first
    [ match goal with |- refines ?l ?m ?m' => constr_eq m m'; exact (refines_refl l m) end
    | match goal with
      | |- refines ?l (bind ?m ?k) (bind ?m' ?k') =>
          apply (refines_bind l m m' k k'); [ | intros _]
      end
    | apply _create_security_groups_refines
    | apply _create_and_configure_dns_and_certificates_refines
    | apply _configure_ses_refines
    | apply _create_db_instance_refines
    | apply _create_and_maintain_tls_materials_refines
    | apply _perpare_data_efs_for_openmrs_service_refines
    | apply _create_openmrs_service_refines
    | apply _create_serverless_analytics_environment_refines ].
Qed.

Lemma synth_accepted (lib : Library) (ctx : Context) (st : Stack) :
  synth lib ctx = inr st -> synth accepting ctx = inr st.
Proof.
  unfold synth. intros H. pose proof (OpenmrsEcsStack_refines lib ctx empty_stack) as R.
  destruct (OpenmrsEcsStack lib ctx empty_stack) as [e | [[] st1]];
    [discriminate H | ].
  rewrite R. exact H.
Qed.


Lemma synthesis_summary (lib : Library) (ctx : Context) (st : Stack) :
  synth lib ctx = inr st ->
  mail_settings_missing ctx = false /\ synthesized ctx st /\ synthesized_more ctx st.
Proof.
  intros H. apply synth_accepted in H.
  pose proof (synthesis_outcome ctx) as O. rewrite H in O.
  cbn [synthesis_outcomeb] in O.
  apply andb_prop in O. destruct O as [O Hmore].
  apply andb_prop in O. destruct O as [Hmail Hsyn].
  split; [apply Bool.negb_true_iff; exact Hmail | ].
  split; [apply synthesizedb_sound; exact Hsyn
         | apply synthesized_moreb_sound; exact Hmore].
Qed.

Lemma synthesized_stack (lib : Library) (ctx : Context) (st : Stack) :
  synth lib ctx = inr st -> synthesized ctx st.
Proof. intros H. exact (proj1 (proj2 (synthesis_summary lib ctx st H))). Qed.

Lemma synthesized_more_stack (lib : Library) (ctx : Context) (st : Stack) :
  synth lib ctx = inr st -> synthesized_more ctx st.
Proof. intros H. exact (proj2 (proj2 (synthesis_summary lib ctx st H))). Qed.

Ltac evaluate := vm_compute; reflexivity.
(** ** The provisioning graph *)

Lemma no_incoming_edge_no_dependent (st : Stack) (x : string) :
  has_incoming_edge st x = false -> forall a, ~ depends_on st a x.
Proof.
  intros H a D.
  assert (E : exists b, In (b, x) (edges st)).
  { clear H. induction D as [a b I | a b c I D IH]; [exists a; exact I | exact IH]. }
  destruct E as [b I].
  unfold has_incoming_edge in H.
  apply Bool.not_true_iff_false in H. apply H.
  apply existsb_exists. exists (b, x). split; [exact I | apply String.eqb_refl].
Qed.

Lemma explicit_dependency (st : Stack) (a b : string) :
  In (a, b) (node_dependencies st) -> depends_on st a b.
Proof.
  intros I. apply depends_edge. unfold edges. apply in_or_app. left. exact I.
Qed.

(** C1, as the code has it.  The claim asks that the service be created
    only after the data-seed trigger has run.  In every stack the source
    synthesizes, the seed trigger [OneTimeEFSDataSetup] exists and the
    service [OpenMRSFargateLBService] exists, but the only dependency the
    service was given is the TLS trigger [OneTimeSSLSetup], no construct at
    all refers to or depends on the seed trigger, and so the service does
    not wait for it. *)
Theorem service_does_not_await_seed_trigger (lib : Library) (ctx : Context) (st : Stack) :
  synth lib ctx = inr st ->
  (exists f, find_trigger st "OneTimeEFSDataSetup" = Some f
             /\ handler f = "lambda_functions.initial_openmrs_data_sync_to_efs")
  /\ service_task st "OpenMRSFargateLBService" = Some "OpenMRSFargateTaskDefinition"
  /\ (forall d, In ("OpenMRSFargateLBService", d) (node_dependencies st) ->
                d = "OneTimeSSLSetup")
  /\ ~ depends_on st "OpenMRSFargateLBService" "OneTimeEFSDataSetup".
Proof.
  intros H. apply synthesized_stack in H.
  destruct H as (Hdeps & Hin & Hsvc & _ & _ & Hseed & _).
  repeat split.
  - exists (snd seed_trigger). split; [exact Hseed | reflexivity].
  - exact Hsvc.
  - intros d I. rewrite Hdeps in I. simpl in I.
    destruct I as [I | [I | [I | []]]]; inversion I; reflexivity.
  - apply no_incoming_edge_no_dependent. exact Hin.
Qed.

Lemma service_does_not_await_seed_trigger_witness :
  synth accepting default_context = inr (stack_of default_context)
  /\ ~ depends_on (stack_of default_context) "OpenMRSFargateLBService" "OneTimeEFSDataSetup".
Proof.
  assert (S : synth accepting default_context = inr (stack_of default_context)) by evaluate.
  split; [exact S | ].
  exact (proj2 (proj2 (proj2
    (service_does_not_await_seed_trigger accepting default_context (stack_of default_context) S)))).
Defined.

(** C5.  TLS regeneration has two triggers in every synthesized stack: the
    trigger function [OneTimeSSLSetup], which the service depends on and so
    runs before the service is first started, and the rule
    [RegularScheduleforSSLMaintenance], whose schedule is a rate of
    [number_of_days_to_regenerate_ssl_materials] = 2 days.  The period is
    a constant of the stack class: no context value and no parameter read
    at run time enters it. *)
Theorem tls_regeneration_once_and_every_two_days (lib : Library) (ctx : Context) (st : Stack) :
  synth lib ctx = inr st ->
  (exists f, find_trigger st "OneTimeSSLSetup" = Some f
             /\ handler f = "lambda_functions.generate_ssl_materials")
  /\ depends_on st "OpenMRSFargateLBService" "OneTimeSSLSetup"
  /\ (exists r g,
        find_rule st "RegularScheduleforSSLMaintenance" = Some r
        /\ schedule r = rate (days number_of_days_to_regenerate_ssl_materials)
        /\ schedule r = rate (days 2)
        /\ targets r = ["MaintainSSLMaterialsLambda"]
        /\ find_function st "MaintainSSLMaterialsLambda" = Some g
        /\ handler g = "lambda_functions.generate_ssl_materials").
Proof.
  intros H. apply synthesized_stack in H.
  destruct H as (Hdeps & _ & _ & Hfn & Htrig & _ & Hrule & _).
  repeat split.
  - exists (snd ssl_trigger). split; [exact Htrig | reflexivity].
  - apply explicit_dependency. rewrite Hdeps. simpl. auto.
  - eexists. exists (snd ssl_trigger).
    split; [exact Hrule | ]. repeat split. exact Hfn.
Qed.

Lemma tls_regeneration_once_and_every_two_days_witness :
  synth accepting full_context = inr (stack_of full_context)
  /\ depends_on (stack_of full_context) "OpenMRSFargateLBService" "OneTimeSSLSetup".
Proof.
  assert (S : synth accepting full_context = inr (stack_of full_context)) by evaluate.
  split; [exact S | ].
  exact (proj1 (proj2
    (tls_regeneration_once_and_every_two_days accepting full_context (stack_of full_context) S))).
Defined.

(** C10.  The one-time trigger function and the function the schedule
    targets are configured alike: the same handler
    [lambda_functions.generate_ssl_materials] and the same four environment
    variables, naming the same cluster, task definition, subnets and
    security group; the two functions are equal property for property. *)
Theorem tls_triggers_run_the_same_job (lib : Library) (ctx : Context) (st : Stack) :
  synth lib ctx = inr st ->
  exists one_time scheduled r,
    find_trigger st "OneTimeSSLSetup" = Some one_time
    /\ find_rule st "RegularScheduleforSSLMaintenance" = Some r
    /\ targets r = ["MaintainSSLMaterialsLambda"]
    /\ find_function st "MaintainSSLMaterialsLambda" = Some scheduled
    /\ handler one_time = "lambda_functions.generate_ssl_materials"
    /\ handler scheduled = "lambda_functions.generate_ssl_materials"
    /\ environment one_time
       = [("ECS_CLUSTER", [Tok "ecs-cluster" "cluster_arn"]);
          ("TASK_DEFINITION",
           [Tok "CreateSSLMaterialsTaskDefinition" "task_definition_arn"]);
          ("SUBNETS", [Joined "," "OpenMRS-VPC" "private_subnets.subnet_id"]);
          ("SECURITY_GROUPS", [Tok "EFSOnlySecurityGroup" "security_group_id"])]
    /\ environment scheduled = environment one_time
    /\ scheduled = one_time.
Proof.
  intros H. apply synthesized_stack in H.
  destruct H as (_ & _ & _ & Hfn & Htrig & _ & Hrule & _).
  exists (snd ssl_trigger), (snd ssl_trigger). eexists.
  split; [exact Htrig | ]. split; [exact Hrule | ].
  split; [reflexivity | ]. split; [exact Hfn | ].
  repeat split.
Qed.

Lemma tls_triggers_run_the_same_job_witness :
  synth accepting default_context = inr (stack_of default_context)
  /\ exists one_time scheduled,
       find_trigger (stack_of default_context) "OneTimeSSLSetup" = Some one_time
       /\ find_function (stack_of default_context) "MaintainSSLMaterialsLambda"
          = Some scheduled
       /\ scheduled = one_time.
Proof.
  assert (S : synth accepting default_context = inr (stack_of default_context)) by evaluate.
  split; [exact S | ].
  destruct (tls_triggers_run_the_same_job accepting default_context (stack_of default_context) S)
    as (a & b & r & H1 & _ & _ & H2 & _ & _ & _ & _ & H3).
  exists a, b. auto.
Defined.

(** ** Secrets *)

(** C7.  The secrets the stack creates have the shapes stated:
    [db-secret] is generated from the template with the user name
    [dbadmin] and a generated [password]; [Password] likewise with the user
    name [admin]; [secret-access-key], created when the mail subsystem is
    configured, is the object whose one field [password] is the secret
    access key of [SmtpAccessKey], an access key created by this stack. *)
Theorem secret_entries_have_their_shapes (lib : Library) (ctx : Context) (st : Stack) :
  synth lib ctx = inr st ->
  (exists s, find_secret st "db-secret" = Some s
             /\ secret_shape s
                = Some [("username", Templated "dbadmin"); ("password", Generated)])
  /\ (exists s, find_secret st "Password" = Some s
                /\ secret_shape s
                   = Some [("username", Templated "admin"); ("password", Generated)])
  /\ (ses_configured ctx = true ->
      exists s, find_secret st "secret-access-key" = Some s
                /\ secret_shape s
                   = Some [("password", FromValue [Tok "SmtpAccessKey" "secret_access_key"])]
                /\ find_opaque st "SmtpAccessKey" = Some ("iam.AccessKey", ["SmtpUser"]))
  /\ (ses_configured ctx = false -> find_secret st "secret-access-key" = None).
Proof.
  intros H. apply synthesized_stack in H.
  destruct H as (_ & _ & _ & _ & _ & _ & _ & _ & _ & _ & _ & _ & _ & Hpw & Hdb & Hkey & Hak).
  repeat split.
  - eexists. split; [exact Hdb | reflexivity].
  - eexists. split; [exact Hpw | reflexivity].
  - intros E. rewrite E in Hkey, Hak.
    eexists. split; [exact Hkey | ]. split; [reflexivity | exact Hak].
  - intros E. rewrite E in Hkey. exact Hkey.
Qed.

Lemma secret_entries_have_their_shapes_witness :
  synth accepting full_context = inr (stack_of full_context)
  /\ exists s, find_secret (stack_of full_context) "secret-access-key" = Some s
               /\ secret_shape s
                  = Some [("password", FromValue [Tok "SmtpAccessKey" "secret_access_key"])].
Proof.
  assert (S : synth accepting full_context = inr (stack_of full_context)) by evaluate.
  split; [exact S | ].
  destruct (proj1 (proj2 (proj2
    (secret_entries_have_their_shapes accepting full_context (stack_of full_context) S)))
    eq_refl) as (s & H1 & H2 & _).
  exists s. auto.
Defined.

(** ** Bootstrap procedures *)

(** C8.  The bootstrap procedures are separate trigger functions, each
    with a handler of its own: the TLS setup and the data seed in every
    stack, the SMTP credential and the rule-set activation where the mail
    subsystem is configured; the stack has no other trigger function.
    Each is given a timeout of ten minutes, and a procedure awaited with
    that timeout which runs longer than 600 seconds ends [failed], whatever
    it would have returned, while one that ends in time ends as it
    returns. *)
Theorem bootstrap_procedures_await_ten_minutes (lib : Library) (ctx : Context) (st : Stack) :
  synth lib ctx = inr st ->
  map (fun kf => (fst kf, handler (snd kf))) (trigger_functions st)
  = ((if ses_configured ctx
      then [("SMTPSetup", "lambda_functions.generate_smtp_credential");
            ("MakeRuleSetActive", "lambda_functions.make_ruleset_active")]
      else [])
     ++ [("OneTimeSSLSetup", "lambda_functions.generate_ssl_materials");
         ("OneTimeEFSDataSetup", "lambda_functions.initial_openmrs_data_sync_to_efs")])%list
  /\ NoDup (map fst (trigger_functions st))
  /\ forall id f, In (id, f) (trigger_functions st) ->
       exists t, fn_timeout f = Some t
                 /\ t = minutes 10
                 /\ to_seconds t = 600%Z
                 /\ (forall running exit_ok,
                       (to_seconds t < running)%Z -> awaited t running exit_ok = failed)
                 /\ (forall running,
                       (running <= to_seconds t)%Z ->
                       awaited t running true = succeeded
                       /\ awaited t running false = failed).
Proof.
  intros H. apply synthesized_stack in H.
  destruct H as (_ & _ & _ & _ & _ & _ & _ & Htf & _).
  rewrite Htf. clear Htf.
  assert (A : forall running exit_ok,
            (to_seconds (minutes 10) < running)%Z ->
            awaited (minutes 10) running exit_ok = failed).
  { intros running exit_ok L. unfold awaited.
    apply Z.ltb_lt in L. rewrite L. reflexivity. }
  assert (B : forall running,
            (running <= to_seconds (minutes 10))%Z ->
            awaited (minutes 10) running true = succeeded
            /\ awaited (minutes 10) running false = failed).
  { intros running L. unfold awaited.
    apply Z.ltb_ge in L. rewrite L. split; reflexivity. }
  destruct (ses_configured ctx); simpl.
  - split; [reflexivity | ]. split.
    + repeat constructor; simpl; intuition discriminate.
    + intros id f [E | [E | [E | [E | []]]]]; inversion E; subst;
        exists (minutes 10); repeat split; auto; apply B; assumption.
  - split; [reflexivity | ]. split.
    + repeat constructor; simpl; intuition discriminate.
    + intros id f [E | [E | []]]; inversion E; subst;
        exists (minutes 10); repeat split; auto; apply B; assumption.
Qed.

Lemma bootstrap_procedures_await_ten_minutes_witness :
  synth accepting full_context = inr (stack_of full_context)
  /\ map (fun kf => (fst kf, handler (snd kf))) (trigger_functions (stack_of full_context))
     = [("SMTPSetup", "lambda_functions.generate_smtp_credential");
        ("MakeRuleSetActive", "lambda_functions.make_ruleset_active");
        ("OneTimeSSLSetup", "lambda_functions.generate_ssl_materials");
        ("OneTimeEFSDataSetup", "lambda_functions.initial_openmrs_data_sync_to_efs")].
Proof.
  assert (S : synth accepting full_context = inr (stack_of full_context)) by evaluate.
  split; [exact S | ].
  exact (proj1
    (bootstrap_procedures_await_ten_minutes accepting full_context (stack_of full_context) S)).
Defined.

(** ** The TLS job *)

Lemma ssl_job_actions :
  job_actions ssl_job
  = Some [Install ["add"; "openssl"; "--no-check-certificate"; "--no-cache"];
          Produce (GenRsa 2048) key_tmp true;
          Produce (SelfSign "sha256" 365 "/CN=localhost" key_tmp) cert_tmp true;
          Produce (Download bundle_url true) bundle_tmp true;
          Rename cert_tmp cert_pem true;
          Rename key_tmp privkey_pem true;
          Rename bundle_tmp mysql_pem true].
Proof. vm_compute. reflexivity. Qed.

Lemma synthesized_ssl_job (lib : Library) (ctx : Context) (st : Stack) (j : job) :
  synth lib ctx = inr st ->
  find_job st "CreateSSLMaterialsTaskDefinition" "SSLMaintenanceContainer" = Some j ->
  j = ssl_job.
Proof.
  intros H F. apply synthesized_stack in H.
  destruct H as (_ & _ & _ & _ & _ & _ & _ & _ & Hjob & _).
  congruence.
Qed.

Lemma put_eq (l l' : location) (c : content) (s : store) :
  location_eqb l l' = true -> put l c s l' = Some c.
Proof. intros E. unfold put. rewrite E. reflexivity. Qed.

Lemma put_neq (l l' : location) (c : content) (s : store) :
  location_eqb l l' = false -> put l c s l' = s l'.
Proof. intros E. unfold put. rewrite E. reflexivity. Qed.

Lemma del_eq (l l' : location) (s : store) :
  location_eqb l l' = true -> del l s l' = None.
Proof. intros E. unfold del. rewrite E. reflexivity. Qed.

Lemma del_neq (l l' : location) (s : store) :
  location_eqb l l' = false -> del l s l' = s l'.
Proof. intros E. unfold del. rewrite E. reflexivity. Qed.

(** Installing packages leaves the files of the volumes as they are. *)
Lemma installing_elsewhere (c : content) (ps : list string) (s : store) (l : location) :
  on_volume l = true -> installing c ps s l = s l.
Proof.
  intros V. unfold installing. revert s.
  induction ps as [| p ps IH]; intros s; simpl; [reflexivity | ].
  rewrite IH. unfold put. destruct l; simpl in *; congruence.
Qed.

(** Reading a file of a store built by [put] and [del]. *)
Ltac read_store :=
  repeat first [ rewrite put_eq by reflexivity
               | rewrite put_neq by reflexivity
               | rewrite del_eq by reflexivity
               | rewrite del_neq by reflexivity
               | rewrite installing_elsewhere by reflexivity ].

Ltac read_store_in R :=
  repeat first [ rewrite put_eq in R by reflexivity
               | rewrite put_neq in R by reflexivity
               | rewrite del_eq in R by reflexivity
               | rewrite del_neq in R by reflexivity
               | rewrite installing_elsewhere in R by reflexivity ].

(** One or more actions of a run, the stores kept as [put]s and [del]s. *)
Ltac run_in R :=
  repeat (cbn [run perform make negb andb last app opened_by_shell] in R;
          repeat match type of R with
                 | context [same_file_system ?a ?b] =>
                     change (same_file_system a b) with true in R
                 end;
          read_store_in R).






(** C4, as the claim states it, fails on the transport: the job fetches
    the trust bundle with [curl -k], which turns the verification of the
    server's certificate off, so the bundle a successful run leaves in
    [mysql.pem] was not fetched from an authenticated peer. *)
Lemma tls_bundle_fetch_is_not_authenticated :
  exists j acts,
    find_job (stack_of default_context) "CreateSSLMaterialsTaskDefinition"
      "SSLMaintenanceContainer" = Some j
    /\ job_actions j = Some acts
    /\ In (Produce (Download bundle_url true) bundle_tmp true) acts
    /\ snd (run 0 all_tools_work 0 acts empty_store) = true
    /\ authenticated
         (last (fst (run 0 all_tools_work 0 acts empty_store)) empty_store mysql_pem)
       = false.
Proof.
  exists ssl_job. eexists.
  split; [evaluate | ].
  split; [exact ssl_job_actions | ].
  split; [simpl; auto 10 | ].
  split; evaluate.
Qed.

(** C4, amended.  The job generates a 2048-bit RSA key, self-signs with
    it a SHA-256 certificate valid 365 days for the subject
    [/CN=localhost], and fetches the trust bundle of the database service
    over https with the verification of the server's certificate turned
    off ([curl -k]); each of the three is written under a temporary name
    and then renamed to its final name, so that a run in which every tool
    works leaves the key in [privkey.pem], its certificate in [cert.pem],
    the bundle in [mysql.pem] and no temporary file. *)
Theorem tls_job_procedure (lib : Library) (ctx : Context) (st : Stack) (j : job) :
  synth lib ctx = inr st ->
  find_job st "CreateSSLMaterialsTaskDefinition" "SSLMaintenanceContainer" = Some j ->
  exists words acts,
    job_actions j = Some acts
    /\ acts = [Install words;
               Produce (GenRsa 2048) key_tmp true;
               Produce (SelfSign "sha256" 365 "/CN=localhost" key_tmp) cert_tmp true;
               Produce (Download bundle_url true) bundle_tmp true;
               Rename cert_tmp cert_pem true;
               Rename key_tmp privkey_pem true;
               Rename bundle_tmp mysql_pem true]
    /\ starts_with "https://" bundle_url = true
    /\ forall (i : nat) (s : store),
         let seen := fst (run i all_tools_work 0 acts s) in
         snd (run i all_tools_work 0 acts s) = true
         /\ last seen s privkey_pem = Some (RsaPrivateKey 2048 i)
         /\ last seen s cert_pem
            = Some (Certificate "sha256" 365 "/CN=localhost" (RsaPrivateKey 2048 i))
         /\ last seen s mysql_pem = Some (Fetched bundle_url false)
         /\ authenticated (last seen s mysql_pem) = false
         /\ Forall (fun t => last seen s t = None) temporary_names.
Proof.
  intros H F. rewrite (synthesized_ssl_job lib ctx st j H F).
  eexists. eexists. split; [exact ssl_job_actions | ].
  split; [reflexivity | ]. split; [reflexivity | ].
  intros i s.
  destruct (run i all_tools_work 0 _ s) as [seen ok] eqn:R. cbn [fst snd].
  unfold all_tools_work in R. run_in R.
  injection R as <- <-.
  cbn [last]. split; [reflexivity | ].
  repeat split; read_store; try reflexivity.
  unfold temporary_names. repeat constructor; read_store; reflexivity.
Qed.

Lemma tls_job_procedure_witness :
  synth accepting default_context = inr (stack_of default_context)
  /\ find_job (stack_of default_context) "CreateSSLMaterialsTaskDefinition"
       "SSLMaintenanceContainer" = Some ssl_job
  /\ exists acts,
       job_actions ssl_job = Some acts
       /\ last (fst (run 7 all_tools_work 0 acts empty_store)) empty_store privkey_pem
          = Some (RsaPrivateKey 2048 7)
       /\ last (fst (run 7 all_tools_work 0 acts empty_store)) empty_store mysql_pem
          = Some (Fetched bundle_url false).
Proof.
  assert (S : synth accepting default_context = inr (stack_of default_context)) by evaluate.
  assert (J : find_job (stack_of default_context) "CreateSSLMaterialsTaskDefinition"
                "SSLMaintenanceContainer" = Some ssl_job) by evaluate.
  split; [exact S | ]. split; [exact J | ].
  destruct (tls_job_procedure accepting default_context (stack_of default_context) ssl_job S J)
    as (w & acts & A & _ & _ & H).
  exists acts. split; [exact A | ].
  destruct (H 7 empty_store) as (_ & H1 & _ & H2 & _).
  split; assumption.
Defined.

(** ** Overlapping invocations of the TLS job *)

(** C3, as the claim states it, fails.  The temporary names are constants
    of the script, the same for every invocation, so two invocations that
    overlap write the same temporary files.  In the overlap below both
    invocations end, and the volume is left with the certificate of
    invocation 1 beside the private key of invocation 2: a pair that does
    not match. *)
Lemma overlapping_tls_jobs_leave_a_mismatch :
  exists j acts,
    find_job (stack_of default_context) "CreateSSLMaterialsTaskDefinition"
      "SSLMaintenanceContainer" = Some j
    /\ job_actions j = Some acts
    /\ flat_map opened acts = temporary_names
    /\ (let r := interleave overlap {| invocation_of := 1; todo := acts |}
                   {| invocation_of := 2; todo := acts |} empty_store in
        todo (fst (fst r)) = []
        /\ todo (snd (fst r)) = []
        /\ snd r cert_pem = Some (new_certificate 1)
        /\ snd r privkey_pem = Some (new_key 2)
        /\ ~ matching_pair (snd r) cert_pem privkey_pem).
Proof.
  exists ssl_job. eexists.
  split; [evaluate | ].
  split; [exact ssl_job_actions | ].
  split; [reflexivity | ].
  intros r.
  assert (C : snd r cert_pem = Some (new_certificate 1)) by (subst r; evaluate).
  assert (K : snd r privkey_pem = Some (new_key 2)) by (subst r; evaluate).
  split; [subst r; evaluate | ]. split; [subst r; evaluate | ].
  split; [exact C | ]. split; [exact K | ].
  intros (d & v & sub & k & Hc & Hk).
  rewrite C in Hc. rewrite K in Hk.
  injection Hc as _ _ _ <-. discriminate Hk.
Qed.

(** C3, amended.  Every invocation of the TLS job writes its artifacts
    under the same three temporary names, fixed by the script, before it
    renames them; the names are shared by all invocations.  Of two
    invocations that do not overlap the later wins: when both succeed, the
    three files are the later one's, and its certificate matches its
    key. *)
Theorem tls_jobs_share_their_temporary_names (lib : Library) (ctx : Context)
  (st : Stack) (j : job) :
  synth lib ctx = inr st ->
  find_job st "CreateSSLMaterialsTaskDefinition" "SSLMaintenanceContainer" = Some j ->
  exists acts,
    job_actions j = Some acts
    /\ flat_map opened acts = temporary_names
    /\ map fst (flat_map renamed acts) = [cert_tmp; key_tmp; bundle_tmp]
    /\ renames_follow_writes [] acts = true
    /\ forall (first later : nat) (s : store),
         let s1 := last (fst (run first all_tools_work 0 acts s)) s in
         let s2 := last (fst (run later all_tools_work 0 acts s1)) s1 in
         snd (run first all_tools_work 0 acts s) = true
         /\ snd (run later all_tools_work 0 acts s1) = true
         /\ s2 privkey_pem = Some (new_key later)
         /\ s2 cert_pem = Some (new_certificate later)
         /\ s2 mysql_pem = Some new_bundle
         /\ matching_pair s2 cert_pem privkey_pem.
Proof.
  intros H F. rewrite (synthesized_ssl_job lib ctx st j H F).
  eexists. split; [exact ssl_job_actions | ].
  split; [reflexivity | ]. split; [reflexivity | ]. split; [reflexivity | ].
  intros first later s. cbv zeta.
  destruct (run first all_tools_work 0 _ s) as [seen1 ok1] eqn:R1. cbn [fst snd].
  unfold all_tools_work in R1. run_in R1. injection R1 as <- <-. cbn [last].
  match goal with
  | |- _ /\ snd (run later all_tools_work 0 _ ?x) = true /\ _ => set (s1 := x)
  end.
  destruct (run later all_tools_work 0 _ s1) as [seen2 ok2] eqn:R2. cbn [fst snd].
  unfold all_tools_work in R2. run_in R2. injection R2 as <- <-. cbn [last].
  split; [reflexivity | ]. split; [reflexivity | ].
  repeat split; read_store; try reflexivity.
  exists "sha256", 365%Z, "/CN=localhost", (new_key later).
  split; read_store; reflexivity.
Qed.

Lemma tls_jobs_share_their_temporary_names_witness :
  synth accepting default_context = inr (stack_of default_context)
  /\ find_job (stack_of default_context) "CreateSSLMaterialsTaskDefinition"
       "SSLMaintenanceContainer" = Some ssl_job
  /\ exists acts,
       job_actions ssl_job = Some acts
       /\ flat_map opened acts = temporary_names.
Proof.
  assert (S : synth accepting default_context = inr (stack_of default_context)) by evaluate.
  assert (J : find_job (stack_of default_context) "CreateSSLMaterialsTaskDefinition"
                "SSLMaintenanceContainer" = Some ssl_job) by evaluate.
  split; [exact S | ]. split; [exact J | ].
  destruct (tls_jobs_share_their_temporary_names accepting default_context
              (stack_of default_context) ssl_job S J) as (acts & A & T & _).
  exists acts. split; assumption.
Defined.

(** ** The names the service reads *)

Lemma location_eqb_eq (a b : location) : location_eqb a b = true -> a = b.
Proof.
  destruct a, b; simpl; try discriminate; intros E.
  - apply andb_prop in E. destruct E as [E1 E2].
    apply String.eqb_eq in E1. apply String.eqb_eq in E2. congruence.
  - apply String.eqb_eq in E. congruence.
  - apply andb_prop in E. destruct E as [E1 E2].
    apply String.eqb_eq in E1. apply String.eqb_eq in E2. congruence.
  - apply String.eqb_eq in E. congruence.
Qed.

(** C6.  The TLS job renames its artifacts to [cert.pem], [privkey.pem]
    and [mysql.pem] on the certificate file system, and after a successful
    run on empty volumes these three are the files of the volumes, no more
    and no fewer.  The service reads them under those names: the gateway's
    script adds the nginx directives
    [ssl_certificate /etc/ssl/certs/cert.pem] and
    [ssl_certificate_key /etc/ssl/certs/privkey.pem], the backend's
    connection URL has the parameter
    [trustCertificateKeyStoreUrl=file:/etc/ssl/certs/mysql.pem], and in the
    gateway and backend containers these paths are the three files of the
    certificate file system: whatever the volume held, after a run in which
    every tool works the gateway finds at its two paths the new certificate
    and the new key, and the backend at its path the new bundle. *)
Theorem tls_artifact_names_are_the_names_read (lib : Library) (ctx : Context) (st : Stack) :
  synth lib ctx = inr st ->
  exists ssl acts gw script be url q,
    find_job st "CreateSSLMaterialsTaskDefinition" "SSLMaintenanceContainer" = Some ssl
    /\ job_actions ssl = Some acts
    /\ map snd (flat_map renamed acts)
       = [OnVolume ssl_file_system "cert.pem"; OnVolume ssl_file_system "privkey.pem";
          OnVolume ssl_file_system "mysql.pem"]
    /\ (forall (i : nat) (l : location),
          on_volume l = true ->
          (last (fst (run i all_tools_work 0 acts empty_store)) empty_store l <> None
           <-> In l [OnVolume ssl_file_system "cert.pem";
                     OnVolume ssl_file_system "privkey.pem";
                     OnVolume ssl_file_system "mysql.pem"]))
    /\ find_job st "OpenMRSFargateTaskDefinition" "GatewayOpenMRSContainer" = Some gw
    /\ job_command gw = [[Lit script]]
    /\ appended_directives (parse_script script)
       = [("ssl_certificate_key", "/etc/ssl/certs/privkey.pem");
          ("ssl_certificate", "/etc/ssl/certs/cert.pem")]
    /\ fst (locate (job_mounts gw) "/etc/ssl/certs/cert.pem")
       = OnVolume ssl_file_system "cert.pem"
    /\ fst (locate (job_mounts gw) "/etc/ssl/certs/privkey.pem")
       = OnVolume ssl_file_system "privkey.pem"
    /\ find_job st "OpenMRSFargateTaskDefinition" "BackendOpenMRSContainer" = Some be
    /\ container_variable st "OpenMRSFargateTaskDefinition" "BackendOpenMRSContainer"
         "OMRS_CONFIG_CONNECTION_URL" = Some url
    /\ last url (Lit EmptyString) = Lit q
    /\ lookup "trustCertificateKeyStoreUrl" (query_parameters q)
       = Some "file:/etc/ssl/certs/mysql.pem"
    /\ fst (locate (job_mounts be) "/etc/ssl/certs/mysql.pem")
       = OnVolume ssl_file_system "mysql.pem"
    /\ (forall (i : nat) (s : store),
          let placed := last (fst (run i all_tools_work 0 acts s)) s in
          snd (run i all_tools_work 0 acts s) = true
          /\ placed (fst (locate (job_mounts gw) "/etc/ssl/certs/cert.pem"))
             = Some (new_certificate i)
          /\ placed (fst (locate (job_mounts gw) "/etc/ssl/certs/privkey.pem"))
             = Some (new_key i)
          /\ placed (fst (locate (job_mounts be) "/etc/ssl/certs/mysql.pem"))
             = Some new_bundle).
Proof.
  intros H. apply synthesized_stack in H.
  destruct H as (_ & _ & _ & _ & _ & _ & _ & _ & Hssl & _ & Hgw & Hbe & Hurl & _).
  exists ssl_job. eexists. exists gateway_job, gateway_command, backend_job.
  eexists. eexists.
  split; [exact Hssl | ]. split; [exact ssl_job_actions | ].
  split; [reflexivity | ].
  split.
  { intros i l V.
    destruct (run i all_tools_work 0 _ empty_store) as [seen ok] eqn:R. cbn [fst].
    unfold all_tools_work in R. run_in R. injection R as <- <-. cbn [last].
    split.
    - unfold put, del.
      repeat match goal with
             | |- context [location_eqb ?a l] =>
                 let E := fresh "E" in
                 destruct (location_eqb a l) eqn:E;
                 [apply location_eqb_eq in E; subst l | ]
             end;
        intros N; simpl; auto; try discriminate.
      all: rewrite (installing_elsewhere _ _ _ _ V) in N; contradiction.
    - intros [<- | [<- | [<- | []]]]; read_store; discriminate. }
  split; [exact Hgw | ]. split; [reflexivity | ].
  split; [evaluate | ]. split; [evaluate | ]. split; [evaluate | ].
  split; [exact Hbe | ]. split; [exact Hurl | ].
  split; [reflexivity | ]. split; [evaluate | ]. split; [evaluate | ].
  intros i s.
  change (fst (locate (job_mounts gateway_job) "/etc/ssl/certs/cert.pem")) with cert_pem.
  change (fst (locate (job_mounts gateway_job) "/etc/ssl/certs/privkey.pem"))
    with privkey_pem.
  change (fst (locate (job_mounts backend_job) "/etc/ssl/certs/mysql.pem")) with mysql_pem.
  cbv zeta.
  destruct (run i all_tools_work 0 _ s) as [seen ok] eqn:R. cbn [fst snd].
  unfold all_tools_work in R. run_in R. injection R as <- <-. cbn [last].
  repeat split; read_store; reflexivity.
Qed.

(** A first run, on an empty volume: the gateway finds its certificate. *)
Lemma tls_artifact_names_are_the_names_read_witness :
  synth accepting default_context = inr (stack_of default_context)
  /\ exists acts gw,
       job_actions ssl_job = Some acts
       /\ find_job (stack_of default_context) "OpenMRSFargateTaskDefinition"
            "GatewayOpenMRSContainer" = Some gw
       /\ fst (locate (job_mounts gw) "/etc/ssl/certs/cert.pem")
          = OnVolume ssl_file_system "cert.pem"
       /\ last (fst (run 1 all_tools_work 0 acts empty_store)) empty_store
            (OnVolume ssl_file_system "cert.pem") = Some (new_certificate 1).
Proof.
  assert (S : synth accepting default_context = inr (stack_of default_context))
    by evaluate.
  split; [exact S | ].
  destruct (tls_artifact_names_are_the_names_read accepting default_context
              (stack_of default_context) S)
    as (ssl & acts & gw & script & be & url & q & J & A & _ & _ & G & _ & _ & L & _ & _
        & _ & _ & _ & _ & P).
  assert (E : ssl = ssl_job).
  { assert (J' : find_job (stack_of default_context) "CreateSSLMaterialsTaskDefinition"
                   "SSLMaintenanceContainer" = Some ssl_job) by evaluate.
    congruence. }
  subst ssl.
  exists acts, gw. split; [exact A | ]. split; [exact G | ]. split; [exact L | ].
  destruct (P 1 empty_store) as (_ & C & _). rewrite L in C. exact C.
Defined.
(** ** Containers whose mounts are read-only *)

Section ReadOnlyMounts.

Variable ms : list mount.
Hypothesis read_only_mounts : forallb mount_read_only ms = true.

Lemma locate_read_only (path : string) :
  on_volume (fst (locate ms path)) = true -> snd (locate ms path) = false.
Proof.
  revert read_only_mounts.
  induction ms as [| m ms' IH]; simpl; intros R V.
  - discriminate V.
  - apply andb_prop in R. destruct R as [Rm Rms].
    destruct (strip_prefix (mount_path m) path); simpl in *.
    + rewrite Rm. reflexivity.
    + apply IH; assumption.
Qed.

Lemma produce_at_guarded (cwd : string) (r : recipe) (path : string) :
  guarded (produce_at ms cwd r path).
Proof. unfold produce_at. simpl. apply locate_read_only. Qed.

Lemma rename_at_guarded (cwd a b : string) : guarded (rename_at ms cwd a b).
Proof.
  unfold rename_at. simpl. intros V.
  apply Bool.orb_true_iff in V. destruct V as [V | V].
  - rewrite (locate_read_only _ V). reflexivity.
  - rewrite (locate_read_only _ V). apply Bool.andb_false_r.
Qed.

Lemma compile_guarded (cwd cwd' : string) (cmd : simple_command) (a : action) :
  compile ms cwd cmd = Some (cwd', Some a) -> guarded a.
Proof.
  intros C. unfold compile in C.
  destruct (argv cmd) as [| tool args]; [discriminate C | ].
  destruct (String.eqb tool "cd").
  { destruct args as [| d [| ? ?]]; destruct (redirect cmd); discriminate C. }
  destruct (String.eqb tool "apk" || String.eqb tool "yum").
  { destruct (redirect cmd); [discriminate C | ]. injection C as _ <-. exact I. }
  destruct (String.eqb tool "mv").
  { destruct (redirect cmd); [discriminate C | ].
    destruct args as [| x [| y [| ? ?]]]; try discriminate C.
    simpl in C. injection C as _ <-. apply rename_at_guarded. }
  destruct (String.eqb tool "openssl").
  { unfold compile_openssl in C.
    destruct args as [| sub opts]; [discriminate C | ].
    destruct (String.eqb sub "genrsa").
    { destruct opts as [| bits [| ? ?]]; try discriminate C;
        destruct (redirect cmd) as [[[|] f] |]; try discriminate C.
      destruct (int_of_str bits); [ | discriminate C].
      simpl in C. injection C as _ <-. apply produce_at_guarded. }
    destruct (String.eqb sub "req"); [ | discriminate C].
    destruct (redirect cmd); [discriminate C | ].
    destruct (has_flag "-new" opts && has_flag "-x509" opts && has_flag "-sha256" opts);
      [ | discriminate C].
    destruct (option_value "-key" opts); [ | discriminate C].
    destruct (option_value "-out" opts); [ | discriminate C].
    destruct (option_value "-days" opts) as [d |]; [ | discriminate C].
    destruct (option_value "-subj" opts); [ | discriminate C].
    destruct (int_of_str d); [ | discriminate C].
    simpl in C. injection C as _ <-. apply produce_at_guarded. }
  destruct (String.eqb tool "curl").
  { destruct (redirect cmd); [discriminate C | ].
    unfold compile_curl in C.
    destruct (option_value "-o" args); [ | discriminate C].
    destruct (curl_urls args) as [| url [| ? ?]]; try discriminate C.
    simpl in C. injection C as _ <-. apply produce_at_guarded. }
  destruct (String.eqb tool "aws"); [ | discriminate C].
  destruct (redirect cmd); [discriminate C | ].
  unfold compile_aws in C.
  destruct args as [| x1 [| x2 [| x3 [| x4 [| ? ?]]]]]; try discriminate C.
  destruct (String.eqb x1 "s3" && String.eqb x2 "sync"); [ | discriminate C].
  destruct (strip_prefix "s3://" x4); [ | discriminate C].
  simpl in C. injection C as _ <-. exact I.
Qed.

Lemma compile_script_guarded (cmds : list simple_command) :
  forall cwd acts, compile_script ms cwd cmds = Some acts -> Forall guarded acts.
Proof.
  induction cmds as [| cmd rest IH]; simpl; intros cwd acts C.
  - injection C as <-. constructor.
  - destruct (compile ms cwd cmd) as [[cwd' a] |] eqn:E; [ | discriminate C].
    destruct (compile_script ms cwd' rest) as [acts' |] eqn:E'; [ | discriminate C].
    specialize (IH cwd' acts' E').
    destruct a as [a |]; injection C as <-.
    + constructor; [ | exact IH]. exact (compile_guarded cwd cwd' cmd a E).
    + exact IH.
Qed.

End ReadOnlyMounts.

Lemma unchanged_volumes_refl (s : store) : unchanged_volumes s s.
Proof. intros fs name. reflexivity. Qed.

Lemma unchanged_volumes_trans (s1 s2 s3 : store) :
  unchanged_volumes s1 s2 -> unchanged_volumes s2 s3 -> unchanged_volumes s1 s3.
Proof. intros A B fs name. rewrite B. apply A. Qed.

Lemma put_off_volume (l : location) (c : content) (s : store) :
  on_volume l = false -> unchanged_volumes s (put l c s).
Proof. intros V fs name. unfold put. destruct l; simpl in *; congruence. Qed.

Lemma del_off_volume (l : location) (s : store) :
  on_volume l = false -> unchanged_volumes s (del l s).
Proof. intros V fs name. unfold del. destruct l; simpl in *; congruence. Qed.

Lemma installing_off_volume (c : content) (ps : list string) (s : store) :
  unchanged_volumes s (installing c ps s).
Proof. intros fs name. apply installing_elsewhere. reflexivity. Qed.

Lemma perform_guarded (i : nat) (tool : ending) (a : action) (s : store) :
  guarded a -> Forall (unchanged_volumes s) (fst (perform i tool a s)).
Proof.
  intros G. destruct a as [ws | r target w | source target w | ms dir bucket]; simpl.
  - destruct tool; simpl; repeat constructor; apply installing_off_volume.
  - destruct w; simpl; [ | constructor].
    assert (V : on_volume target = false).
    { simpl in G. destruct (on_volume target); [ | reflexivity].
      discriminate (G eq_refl). }
    destruct (make i r s); [ | constructor].
    destruct tool; [ | destruct (opened_by_shell r) | ]; simpl; repeat constructor;
      repeat first [ apply put_off_volume; exact V
                   | eapply unchanged_volumes_trans; [ | apply put_off_volume; exact V] ].
  - destruct w; simpl; [ | constructor].
    simpl in G.
    assert (V : on_volume source = false /\ on_volume target = false).
    { destruct (on_volume source), (on_volume target); simpl in G;
        first [discriminate (G eq_refl) | auto]. }
    destruct V as [Vs Vt].
    destruct (s source); simpl; [ | constructor].
    destruct (same_file_system source target), tool; simpl; repeat constructor;
      repeat first
        [ apply put_off_volume; exact Vt
        | eapply unchanged_volumes_trans;
          [apply del_off_volume; exact Vs | apply put_off_volume; exact Vt]
        | eapply unchanged_volumes_trans; [ | apply del_off_volume; exact Vs]
        | eapply unchanged_volumes_trans; [ | apply put_off_volume; exact Vt] ].
  - destruct tool; simpl; repeat constructor.
Qed.

Lemma last_unchanged (s : store) (seen : list store) :
  Forall (unchanged_volumes s) seen -> unchanged_volumes s (last seen s).
Proof.
  induction 1 as [| x l Hx Hl IH]; simpl.
  - apply unchanged_volumes_refl.
  - destruct l; [exact Hx | exact IH].
Qed.

Lemma run_guarded (i : nat) (tools : nat -> ending) (acts : list action) :
  Forall guarded acts ->
  forall n s, Forall (unchanged_volumes s) (fst (run i tools n acts s)).
Proof.
  induction 1 as [| a rest Ga Grest IH]; intros n s; simpl.
  - constructor.
  - pose proof (perform_guarded i (tools n) a s Ga) as P.
    destruct (perform i (tools n) a s) as [seen ok]. simpl in P.
    destruct ok; [ | exact P].
    specialize (IH (S n) (last seen s)).
    destruct (run i tools (S n) rest (last seen s)) as [seen' ok']. simpl in *.
    apply Forall_app. split; [exact P | ].
    apply Forall_forall. intros s' I.
    eapply unchanged_volumes_trans; [apply last_unchanged; exact P | ].
    revert s' I. apply Forall_forall. exact IH.
Qed.

(** C9.  The export container mounts the data file system at
    [/openmrs/data/] read-only and has no other mount; its command syncs
    that directory to the export bucket.  Whatever script runs in a
    container so mounted, whichever tools fail and whatever the files hold,
    no file of any volume differs, at any moment of the run, from what it
    held before: what the export writes is outside the shared volume (the
    bucket it syncs to). *)
Theorem export_job_leaves_the_volume_unchanged (lib : Library) (ctx : Context)
  (st : Stack) (j : job) :
  synth lib ctx = inr st ->
  find_job st "SyncEFStoS3Task" "AmazonLinuxContainer" = Some j ->
  job_mounts j = [{| mount_path := "/openmrs/data/";
                     mount_file_system := data_file_system;
                     mount_read_only := true |}]
  /\ job_command j = [sync_command "EFSExportBucket"]
  /\ forall (script : string) (acts : list action),
       compile_script (job_mounts j) "/" (parse_script script) = Some acts ->
       forall (i : nat) (tools : nat -> ending) (s : store),
         Forall (fun s' : store =>
                   forall fs name, s' (OnVolume fs name) = s (OnVolume fs name))
           (fst (run i tools 0 acts s)).
Proof.
  intros H F. apply synthesized_stack in H.
  destruct H as (_ & _ & _ & _ & _ & _ & _ & _ & _ & Hsync & _).
  rewrite F in Hsync.
  destruct (analytics_configured ctx); [ | discriminate Hsync].
  injection Hsync as ->.
  split; [reflexivity | ]. split; [reflexivity | ].
  intros script acts C i tools s.
  apply (run_guarded i tools acts).
  apply (compile_script_guarded (job_mounts export_job) eq_refl (parse_script script) "/").
  exact C.
Qed.

(** The export of a volume holding one file: the file is copied to the
    bucket and the volume keeps it as it was. *)
Lemma export_job_leaves_the_volume_unchanged_witness :
  let script := render sample_names (sync_command "EFSExportBucket") in
  let s := put (OnVolume data_file_system "patients.db") (Data 1) empty_store in
  synth accepting full_context = inr (stack_of full_context)
  /\ find_job (stack_of full_context) "SyncEFStoS3Task" "AmazonLinuxContainer"
     = Some export_job
  /\ exists acts,
       compile_script (job_mounts export_job) "/" (parse_script script) = Some acts
       /\ snd (run 0 all_tools_work 0 acts s) = true
       /\ last (fst (run 0 all_tools_work 0 acts s)) s
            (InBucket "sagemaker-efs-export-0123" "patients.db") = Some (Data 1)
       /\ Forall (fun s' : store =>
                    forall fs name, s' (OnVolume fs name) = s (OnVolume fs name))
            (fst (run 0 all_tools_work 0 acts s)).
Proof.
  intros script s.
  assert (S : synth accepting full_context = inr (stack_of full_context)) by evaluate.
  assert (J : find_job (stack_of full_context) "SyncEFStoS3Task" "AmazonLinuxContainer"
              = Some export_job) by evaluate.
  split; [exact S | ]. split; [exact J | ].
  eexists. split; [evaluate | ].
  split; [evaluate | ]. split; [evaluate | ].
  apply (proj2 (proj2 (export_job_leaves_the_volume_unchanged accepting full_context
                         (stack_of full_context) export_job S J)) script).
  evaluate.
Defined.

(** ** More of what synthesis builds *)



(** ** The provisioning graph, again *)

Lemma edge_resolves (st : Stack) (a b : string) :
  edges_resolve st = true -> In (a, b) (edges st) -> In b (construct_ids st).
Proof.
  intros R I. unfold edges_resolve in R.
  rewrite forallb_forall in R. specialize (R (a, b) I). simpl in R.
  apply existsb_exists in R. destruct R as (x & Ix & E).
  apply String.eqb_eq in E. subst x. exact Ix.
Qed.


(** X3.  The service is given the certificate imported from
    [certificate_arn] where the context has one, even when a domain is
    given too; else the certificate issued for [route53_domain]; else none.
    Whichever it is, it is a construct of the stack, the target protocol is
    HTTPS and the listener is not opened to the world. *)
Theorem service_certificate_precedence (lib : Library) (ctx : Context) (st : Stack) :
  synth lib ctx = inr st ->
  exists s,
    find_service st "OpenMRSFargateLBService" = Some s
    /\ service_certificate s
       = (if truthy (certificate_arn ctx) then Some "domainCert"
          else if truthy (route53_domain ctx) then Some "Certificate"
          else None)
    /\ (forall c, service_certificate s = Some c -> In c (construct_ids st))
    /\ target_protocol s = "HTTPS"
    /\ open_listener s = false.
Proof.
  intros H. apply synthesized_more_stack in H.
  destruct H as (Hres & _ & _ & _ & _ & _ & Hsvc & _).
  exists (expected_service ctx).
  split; [exact Hsvc | ]. split; [reflexivity | ].
  split; [ | split; reflexivity].
  intros c E. apply (edge_resolves st "OpenMRSFargateLBService" c Hres).
  unfold edges. apply in_or_app. right. apply in_or_app. right.
  apply in_flat_map. exists ("OpenMRSFargateLBService", ServiceR (expected_service ctx)).
  split.
  - unfold find_service in Hsvc.
    assert (L : forall (l : list (string * resource)) k r,
              lookup k l = Some r -> In (k, r) l).
    { induction l as [| [k' r'] l IH]; simpl; intros k r E'; [discriminate E' | ].
      destruct (String.eqb k k') eqn:K.
      - apply String.eqb_eq in K. injection E' as <-. subst. left. reflexivity.
      - right. apply IH. exact E'. }
    destruct (lookup "OpenMRSFargateLBService" (constructs st)) as [r |] eqn:E';
      [ | discriminate Hsvc].
    destruct r; try discriminate Hsvc. injection Hsvc as ->.
    apply L. exact E'.
  - cbn [fst snd resource_refs]. apply in_map. apply in_or_app. left.
    rewrite E. simpl. auto.
Qed.

Lemma service_certificate_precedence_witness :
  synth accepting accelerated_context = inr (stack_of accelerated_context)
  /\ exists s,
       find_service (stack_of accelerated_context) "OpenMRSFargateLBService" = Some s
       /\ service_certificate s = Some "domainCert".
Proof.
  assert (S : synth accepting accelerated_context = inr (stack_of accelerated_context)) by evaluate.
  split; [exact S | ].
  destruct (service_certificate_precedence accepting accelerated_context
              (stack_of accelerated_context) S) as (s & F & C & _).
  exists s. split; [exact F | exact C].
Defined.

(** ** Jobs and task definitions *)

Lemma lookup_in {A : Type} (l : list (string * A)) (k : string) (a : A) :
  lookup k l = Some a -> In (k, a) l.
Proof.
  induction l as [| [k' a'] l IH]; simpl; intros E; [discriminate E | ].
  destruct (String.eqb k k') eqn:K.
  - apply String.eqb_eq in K. injection E as <-. subst. left. reflexivity.
  - right. apply IH. exact E.
Qed.

Lemma find_function_in (st : Stack) (id : string) (f : LambdaFunction) :
  find_function st id = Some f -> In (id, f) (lambda_functions st).
Proof.
  unfold find_function, lambda_functions. intros E.
  destruct (lookup id (constructs st)) as [r |] eqn:L; [ | discriminate E].
  destruct r; try discriminate E. injection E as ->.
  apply lookup_in in L. apply in_flat_map.
  exists (id, FunctionR f). split; [exact L | simpl; auto].
Qed.

Lemma find_task_in (st : Stack) (id : string) (t : TaskDefinition) :
  find_task st id = Some t -> In (id, t) (task_definitions st).
Proof.
  unfold find_task, task_definitions. intros E.
  destruct (lookup id (constructs st)) as [r |] eqn:L; [ | discriminate E].
  destruct r; try discriminate E. injection E as ->.
  apply lookup_in in L. apply in_flat_map.
  exists (id, TaskDefinitionR t). split; [exact L | simpl; auto].
Qed.

(** X5.  Every function of the stack that is told which task to run, the
    two TLS functions, the seed trigger and the export function, names
    through [TASK_DEFINITION] the ARN of a task definition of the same
    stack, and that task definition has exactly one container, started as
    [/bin/sh -c] on one script: the job is complete as it is defined, with
    nothing left to the caller to override. *)
Theorem job_functions_name_single_script_tasks (lib : Library) (ctx : Context) (st : Stack) :
  synth lib ctx = inr st ->
  forall id f v,
    In (id, f) (lambda_functions st) ->
    lookup "TASK_DEFINITION" (environment f) = Some v ->
    exists t td c script,
      v = [Tok t "task_definition_arn"]
      /\ find_task st t = Some td
      /\ containers td = [c]
      /\ entry_point c = ["/bin/sh"; "-c"]
      /\ command c = [script].
Proof.
  intros H id f v I E. apply synthesized_more_stack in H.
  destruct H as (_ & Hjobs & _).
  unfold job_functions_resolve in Hjobs. rewrite forallb_forall in Hjobs.
  specialize (Hjobs (id, f) I). cbn [snd] in Hjobs.
  unfold task_of_function in Hjobs. rewrite E in Hjobs.
  destruct v as [| [s | t a | ? ? ? | ?] [| ? ?]]; try discriminate Hjobs.
  destruct (String.eqb a "task_definition_arn") eqn:A; [ | discriminate Hjobs].
  apply String.eqb_eq in A. subst a.
  destruct (find_task st t) as [td |] eqn:T; [ | discriminate Hjobs].
  unfold single_script in Hjobs.
  destruct (containers td) as [| c [| ? ?]] eqn:C; try discriminate Hjobs.
  destruct (entry_point c) as [| sh [| flag [| ? ?]]] eqn:P; try discriminate Hjobs.
  destruct (command c) as [| script [| ? ?]] eqn:M; try discriminate Hjobs.
  apply andb_prop in Hjobs. destruct Hjobs as [S1 S2].
  apply String.eqb_eq in S1. apply String.eqb_eq in S2. subst sh flag.
  exists t, td, c, script. repeat split; assumption.
Qed.

Lemma job_functions_name_single_script_tasks_witness :
  synth accepting full_context = inr (stack_of full_context)
  /\ exists f td,
       find_function (stack_of full_context) "EFStoS3ExportLambda" = Some f
       /\ lookup "TASK_DEFINITION" (environment f)
          = Some [Tok "SyncEFStoS3Task" "task_definition_arn"]
       /\ find_task (stack_of full_context) "SyncEFStoS3Task" = Some td
       /\ exists c, containers td = [c] /\ entry_point c = ["/bin/sh"; "-c"].
Proof.
  assert (S : synth accepting full_context = inr (stack_of full_context)) by evaluate.
  split; [exact S | ].
  destruct (find_function (stack_of full_context) "EFStoS3ExportLambda") as [f |] eqn:F;
    [ | vm_compute in F; discriminate F].
  assert (E : lookup "TASK_DEFINITION" (environment f)
              = Some [Tok "SyncEFStoS3Task" "task_definition_arn"]).
  { vm_compute in F. injection F as <-. evaluate. }
  destruct (job_functions_name_single_script_tasks accepting full_context (stack_of full_context) S
              "EFStoS3ExportLambda" f _ (find_function_in _ _ _ F) E)
    as (t & td & c & script & V & T & C & P & _).
  injection V as <-.
  exists f, td. split; [reflexivity | ]. split; [exact E | ]. split; [exact T | ].
  exists c. split; assumption.
Defined.

Lemma distinct_NoDup (l : list Z) : distinct l = true -> NoDup l.
Proof.
  induction l as [| x l IH]; simpl; intros D; [constructor | ].
  apply andb_prop in D. destruct D as [N D].
  constructor; [ | exact (IH D)].
  intros I. apply Bool.negb_true_iff in N.
  apply Bool.not_true_iff_false in N. apply N.
  apply existsb_exists. exists x. split; [exact I | apply Z.eqb_refl].
Qed.

(** X6.  Every task definition of a synthesized stack is well formed.
    A container that waits for another waits for a different container of
    the same task to be healthy, and that container has a health check;
    every mount point names a volume the task declares, whose file system
    is known; and the containers of a task, which share one network
    interface, listen on different ports. *)
Theorem task_definitions_are_well_formed (lib : Library) (ctx : Context) (st : Stack) :
  synth lib ctx = inr st ->
  forall id t,
    In (id, t) (task_definitions st) ->
    (forall c d,
       In c (containers t) -> In d (container_dependencies c) ->
       exists c', find_container t (fst d) = Some c'
                  /\ snd d = "HEALTHY"
                  /\ health_check c' <> []
                  /\ container_id c' <> container_id c)
    /\ (forall c mp,
          In c (containers t) -> In mp (mount_points c) ->
          exists fs, volume_file_system t (source_volume mp) = Some fs)
    /\ NoDup (map container_port (containers t)).
Proof.
  intros H id t I. apply synthesized_more_stack in H.
  destruct H as (_ & _ & Htasks & _).
  unfold tasks_well_formed in Htasks. rewrite forallb_forall in Htasks.
  specialize (Htasks (id, t) I). cbn [snd] in Htasks.
  apply andb_prop in Htasks. destruct Htasks as [Htasks Hports].
  apply andb_prop in Htasks. destruct Htasks as [Hdeps Hmounts].
  split; [ | split].
  - intros c d Ic Id. unfold dependencies_checked in Hdeps.
    rewrite forallb_forall in Hdeps. specialize (Hdeps c Ic).
    rewrite forallb_forall in Hdeps. specialize (Hdeps d Id).
    destruct (find_container t (fst d)) as [c' |]; [ | discriminate Hdeps].
    apply andb_prop in Hdeps. destruct Hdeps as [Hdeps Hne].
    apply andb_prop in Hdeps. destruct Hdeps as [Hh Hc].
    exists c'. split; [reflexivity | ].
    split; [apply String.eqb_eq; exact Hh | ].
    split.
    + intros E. rewrite E in Hc. discriminate Hc.
    + intros E. rewrite E, String.eqb_refl in Hne. discriminate Hne.
  - intros c mp Ic Im. unfold mount_points_resolve in Hmounts.
    rewrite forallb_forall in Hmounts. specialize (Hmounts c Ic).
    rewrite forallb_forall in Hmounts. specialize (Hmounts mp Im).
    destruct (volume_file_system t (source_volume mp)) as [fs |];
      [exists fs; reflexivity | discriminate Hmounts].
  - apply distinct_NoDup. exact Hports.
Qed.

Lemma task_definitions_are_well_formed_witness :
  synth accepting default_context = inr (stack_of default_context)
  /\ exists t,
       find_task (stack_of default_context) "OpenMRSFargateTaskDefinition" = Some t
       /\ NoDup (map container_port (containers t)).
Proof.
  assert (S : synth accepting default_context = inr (stack_of default_context)) by evaluate.
  split; [exact S | ].
  destruct (find_task (stack_of default_context) "OpenMRSFargateTaskDefinition")
    as [t |] eqn:F; [ | vm_compute in F; discriminate F].
  exists t. split; [reflexivity | ].
  exact (proj2 (proj2 (task_definitions_are_well_formed accepting default_context
                         (stack_of default_context) S _ t (find_task_in _ _ _ F)))).
Defined.

(** ** The mail subsystem *)

(** X7.  Where the mail subsystem is configured, the backend reads its
    SMTP password from the field [password] of [smtp-secret].  The stack
    creates that secret with no content of its own; the trigger function
    [SMTPSetup] is what is handed the secret to fill.  Yet no construct
    waits for [SMTPSetup], nor for [MakeRuleSetActive]: the service may
    be created before either has run. *)
Theorem mail_triggers_are_awaited_by_nothing (lib : Library) (ctx : Context) (st : Stack) :
  synth lib ctx = inr st ->
  ses_configured ctx = true ->
  (exists secrets,
     container_secret_list st "OpenMRSFargateTaskDefinition" "BackendOpenMRSContainer"
     = Some secrets
     /\ lookup "OMRS_EXTRA_MAIL_PASSWORD" secrets
        = Some (from_secrets_manager "smtp-secret" "password"))
  /\ (exists c, find_secret st "smtp-secret" = Some c /\ secret_shape c = None)
  /\ (exists f, In ("SMTPSetup", f) (trigger_functions st)
                /\ lookup "SMTP_PASSWORD" (environment f)
                   = Some [Tok "smtp-secret" "secret_arn"])
  /\ (exists f, In ("MakeRuleSetActive", f) (trigger_functions st))
  /\ (forall a, ~ depends_on st a "SMTPSetup")
  /\ (forall a, ~ depends_on st a "MakeRuleSetActive").
Proof.
  intros H E. pose proof (synthesized_stack lib ctx st H) as H1.
  apply synthesized_more_stack in H.
  destruct H as (_ & _ & _ & _ & Hun & _ & _ & _ & _ & _ & _ & _ & _ & Hsec & Hsmtp & _).
  destruct H1 as (_ & _ & _ & _ & _ & _ & _ & Htf & _).
  rewrite E in Hsec, Hsmtp, Htf. cbn [app] in Htf.
  unfold other_triggers_unawaited in Hun. rewrite forallb_forall in Hun.
  rewrite Htf in Hun. rewrite Htf.
  assert (U1 : has_incoming_edge st "SMTPSetup" = false).
  { specialize (Hun smtp_trigger (or_introl eq_refl)). simpl in Hun.
    apply Bool.negb_true_iff in Hun. exact Hun. }
  assert (U2 : has_incoming_edge st "MakeRuleSetActive" = false).
  { specialize (Hun rule_set_trigger (or_intror (or_introl eq_refl))). simpl in Hun.
    apply Bool.negb_true_iff in Hun. exact Hun. }
  split; [eexists; split; [exact Hsec | reflexivity] | ].
  split; [eexists; split; [exact Hsmtp | reflexivity] | ].
  split; [exists (snd smtp_trigger); split; [left; reflexivity | reflexivity] | ].
  split; [exists (snd rule_set_trigger); right; left; reflexivity | ].
  split; apply no_incoming_edge_no_dependent; assumption.
Qed.

Lemma mail_triggers_are_awaited_by_nothing_witness :
  synth accepting full_context = inr (stack_of full_context)
  /\ ses_configured full_context = true
  /\ ~ depends_on (stack_of full_context) "OpenMRSFargateLBService" "SMTPSetup".
Proof.
  assert (S : synth accepting full_context = inr (stack_of full_context)) by evaluate.
  assert (E : ses_configured full_context = true) by evaluate.
  split; [exact S | ]. split; [exact E | ].
  destruct (mail_triggers_are_awaited_by_nothing accepting full_context (stack_of full_context) S E)
    as (_ & _ & _ & _ & U & _).
  exact (U "OpenMRSFargateLBService").
Defined.

Lemma forallb_true {A : Type} (p : A -> bool) (l : list A) (x : A) :
  forallb p l = true -> In x l -> p x = true.
Proof. intros F I. rewrite forallb_forall in F. exact (F x I). Qed.

(** X8.  The backend container is handed the database user name and
    password from [db-secret] and the administrator password from
    [Password] in every stack, and the eight mail settings besides exactly
    when the mail subsystem is configured.  Every secret handed to any
    container of any task names a secret or a parameter that the stack
    contains. *)
Theorem container_secrets_resolve (lib : Library) (ctx : Context) (st : Stack) :
  synth lib ctx = inr st ->
  container_secret_list st "OpenMRSFargateTaskDefinition" "BackendOpenMRSContainer"
  = Some (database_secrets ++ (if ses_configured ctx then mail_secrets else []))%list
  /\ forall id t c name s,
       In (id, t) (task_definitions st) ->
       In c (containers t) ->
       In (name, s) (container_secrets c) ->
       match s with
       | from_secrets_manager secret _ => exists content, find_secret st secret = Some content
       | from_ssm_parameter parameter =>
           exists pname v, lookup parameter (constructs st) = Some (StringParameterR pname v)
       end.
Proof.
  intros H. apply synthesized_more_stack in H.
  destruct H as (_ & _ & _ & Hres & _ & _ & _ & _ & _ & _ & _ & _ & _ & Hsec & _).
  split; [exact Hsec | ].
  intros id t c name s It Ic Is.
  unfold secrets_resolve in Hres.
  pose proof (forallb_true _ _ _ Hres It) as R1. cbn [snd] in R1.
  pose proof (forallb_true _ _ _ R1 Ic) as R2.
  pose proof (forallb_true _ _ _ R2 Is) as R3. cbn [snd] in R3.
  destruct s as [secret field | parameter].
  - destruct (find_secret st secret) as [content |]; [ | discriminate R3].
    exists content. reflexivity.
  - destruct (lookup parameter (constructs st)) as [r |]; [ | discriminate R3].
    destruct r; try discriminate R3. eexists. eexists. reflexivity.
Qed.

Lemma container_secrets_resolve_witness :
  synth accepting full_context = inr (stack_of full_context)
  /\ option_map (@length _)
       (container_secret_list (stack_of full_context) "OpenMRSFargateTaskDefinition"
          "BackendOpenMRSContainer") = Some 11.
Proof.
  assert (S : synth accepting full_context = inr (stack_of full_context)) by evaluate.
  split; [exact S | ].
  rewrite (proj1 (container_secrets_resolve accepting full_context (stack_of full_context) S)).
  reflexivity.
Defined.

(** X9.  Every stack has the parameters [swarm_mode], with the value
    [yes], and [mysql_port], with the decimal form of [self.mysql_port];
    the seven mail parameters exist exactly when the mail subsystem is
    configured.  No container, function or other construct refers to
    [swarm_mode] or [mysql_port]: the stack creates them and hands them to
    nothing. *)
Theorem parameters_created (lib : Library) (ctx : Context) (st : Stack) :
  synth lib ctx = inr st ->
  map fst (string_parameters st)
  = ((if ses_configured ctx
      then ["mail_transport_protocol"; "mail_user"; "smtp_host"; "smtp_port";
            "smtp_auth"; "smtp_tls_enable"; "mail_from"]
      else [])
     ++ ["swarm_mode"; "mysql_port"])%list
  /\ lookup "swarm_mode" (string_parameters st) = Some [Lit "yes"]
  /\ lookup "mysql_port" (string_parameters st) = Some [Lit (str_int mysql_port)]
  /\ (forall a, ~ depends_on st a "swarm-mode")
  /\ (forall a, ~ depends_on st a "mysql-port").
Proof.
  intros H. apply synthesized_more_stack in H.
  destruct H as (_ & _ & _ & _ & _ & _ & _ & _ & Hn & Hs & Hm & Us & Um & _).
  split; [exact Hn | ]. split; [exact Hs | ]. split; [exact Hm | ].
  split; apply no_incoming_edge_no_dependent; assumption.
Qed.

Lemma parameters_created_witness :
  synth accepting default_context = inr (stack_of default_context)
  /\ map fst (string_parameters (stack_of default_context)) = ["swarm_mode"; "mysql_port"].
Proof.
  assert (S : synth accepting default_context = inr (stack_of default_context)) by evaluate.
  split; [exact S | ].
  exact (proj1 (parameters_created accepting default_context (stack_of default_context) S)).
Defined.

(** ** The data-seed job *)

Lemma strip_prefix_app (p x : string) : strip_prefix p (p ++ x) = Some x.
Proof.
  induction p as [| ch p IH]; simpl; [destruct x; reflexivity | ].
  rewrite Ascii.eqb_refl. exact IH.
Qed.

Lemma location_eqb_refl (l : location) : location_eqb l l = true.
Proof. destruct l; simpl; rewrite ?String.eqb_refl; reflexivity. Qed.

Lemma location_eqb_neq (a b : location) : a <> b -> location_eqb a b = false.
Proof.
  intros N. destruct (location_eqb a b) eqn:E; [ | reflexivity].
  apply location_eqb_eq in E. contradiction.
Qed.

Lemma synthesized_seed_job (lib : Library) (ctx : Context) (st : Stack) (j : job) :
  synth lib ctx = inr st ->
  find_job st "WriteOpenMRSDatatoDataEFSTask" "OneTimePrepareEFSContainer" = Some j ->
  j = seed_job.
Proof.
  intros H F. apply synthesized_more_stack in H.
  destruct H as (_ & _ & _ & _ & _ & Hseed & _).
  congruence.
Qed.

Lemma seed_job_copy :
  job_copy seed_job = Some (copy_tree [staging_mount] "/openmrs/data/" "/tmp/data/").
Proof. reflexivity. Qed.

(** The seed copy, file by file of the data file system. *)
Lemma seed_copy_on_volume (s : store) (name : string) :
  copy_tree [staging_mount] "/openmrs/data/" "/tmp/data/" s
    (OnVolume data_file_system name)
  = match s (InContainer ("/openmrs/data/" ++ name)) with
    | Some data => Some data
    | None => s (OnVolume data_file_system name)
    end.
Proof.
  unfold copy_tree. cbn [path_of staging_mount mount_file_system mount_path].
  rewrite String.eqb_refl.
  change "/tmp/data/" with (mount_path staging_mount) at 1.
  cbn [mount_path staging_mount].
  rewrite strip_prefix_app.
  cbn [locate mount_path staging_mount mount_file_system mount_read_only].
  rewrite strip_prefix_app. cbn [fst snd negb].
  rewrite location_eqb_refl. cbn [andb].
  reflexivity.
Qed.

Lemma seed_copy_elsewhere (s : store) (l : location) :
  (forall name, l <> OnVolume data_file_system name) ->
  copy_tree [staging_mount] "/openmrs/data/" "/tmp/data/" s l = s l.
Proof.
  intros N. unfold copy_tree.
  destruct l as [fs name | p | b k | pk]; cbn [path_of staging_mount mount_file_system mount_path].
  - destruct (String.eqb data_file_system fs) eqn:E; [ | reflexivity].
    apply String.eqb_eq in E. subst fs. destruct (N name eq_refl).
  - destruct (strip_prefix "/tmp/data/" p) as [name |] eqn:P; [ | reflexivity].
    cbn [locate mount_path staging_mount mount_file_system mount_read_only].
    rewrite P. reflexivity.
  - reflexivity.
  - reflexivity.
Qed.

(** X10.  The seed job copies what the image ships under
    [/openmrs/data/] onto the data file system, and the backend container
    of the service mounts that file system over [/openmrs/data/]: a file
    the image has at [/openmrs/data/NAME] is, once the seed job has run,
    the file the backend reads at the same path, and the backend may write
    it. *)
Theorem seed_job_populates_what_the_backend_reads (lib : Library) (ctx : Context)
  (st : Stack) (j : job) :
  synth lib ctx = inr st ->
  find_job st "WriteOpenMRSDatatoDataEFSTask" "OneTimePrepareEFSContainer" = Some j ->
  exists copy backend,
    job_copy j = Some copy
    /\ find_job st "OpenMRSFargateTaskDefinition" "BackendOpenMRSContainer" = Some backend
    /\ forall (s : store) (name : string),
         locate (job_mounts backend) ("/openmrs/data/" ++ name)
         = (OnVolume data_file_system name, true)
         /\ forall data,
              s (InContainer ("/openmrs/data/" ++ name)) = Some data ->
              copy s (fst (locate (job_mounts backend) ("/openmrs/data/" ++ name)))
              = Some data.
Proof.
  intros H F. rewrite (synthesized_seed_job lib ctx st j H F).
  apply synthesized_stack in H.
  destruct H as (_ & _ & _ & _ & _ & _ & _ & _ & _ & _ & _ & Hbe & _).
  eexists. exists backend_job.
  split; [exact seed_job_copy | ]. split; [exact Hbe | ].
  intros s name.
  assert (L : locate (job_mounts backend_job) ("/openmrs/data/" ++ name)
              = (OnVolume data_file_system name, true)).
  { cbn [job_mounts backend_job locate mount_path data_mount mount_file_system
           mount_read_only].
    rewrite strip_prefix_app. reflexivity. }
  split; [exact L | ].
  intros data E. rewrite L. cbn [fst].
  rewrite seed_copy_on_volume, E. reflexivity.
Qed.

Lemma seed_job_populates_what_the_backend_reads_witness :
  synth accepting default_context = inr (stack_of default_context)
  /\ find_job (stack_of default_context) "WriteOpenMRSDatatoDataEFSTask"
       "OneTimePrepareEFSContainer" = Some seed_job
  /\ exists copy,
       job_copy seed_job = Some copy
       /\ copy (put (InContainer "/openmrs/data/configuration/README") (Data 5)
                  empty_store)
            (OnVolume data_file_system "configuration/README") = Some (Data 5).
Proof.
  assert (S : synth accepting default_context = inr (stack_of default_context)) by evaluate.
  assert (J : find_job (stack_of default_context) "WriteOpenMRSDatatoDataEFSTask"
                "OneTimePrepareEFSContainer" = Some seed_job) by evaluate.
  split; [exact S | ]. split; [exact J | ].
  destruct (seed_job_populates_what_the_backend_reads accepting default_context
              (stack_of default_context) seed_job S J) as (copy & be & C & _ & P).
  exists copy. split; [exact C | ].
  destruct (P (put (InContainer "/openmrs/data/configuration/README") (Data 5) empty_store)
              "configuration/README") as [L Q].
  rewrite L in Q. apply Q. evaluate.
Defined.

(** X11.  The seed job changes the data file system and nothing else:
    the files of the certificate file system, of the image and of every
    bucket stay as they are.  On the data file system a file with no
    counterpart in the image is kept, nothing is deleted.  Running the job
    a second time changes nothing: the copy is idempotent. *)
Theorem seed_job_only_adds_to_the_data_volume (lib : Library) (ctx : Context)
  (st : Stack) (j : job) :
  synth lib ctx = inr st ->
  find_job st "WriteOpenMRSDatatoDataEFSTask" "OneTimePrepareEFSContainer" = Some j ->
  exists copy,
    job_copy j = Some copy
    /\ job_mounts j = [{| mount_path := "/tmp/data/";
                          mount_file_system := data_file_system;
                          mount_read_only := false |}]
    /\ (forall (s : store) (l : location),
          (forall name, l <> OnVolume data_file_system name) -> copy s l = s l)
    /\ (forall (s : store) (name : string),
          s (InContainer ("/openmrs/data/" ++ name)) = None ->
          copy s (OnVolume data_file_system name) = s (OnVolume data_file_system name))
    /\ (forall (s : store) (l : location), s l <> None -> copy s l <> None)
    /\ (forall (s : store) (l : location), copy (copy s) l = copy s l).
Proof.
  intros H F. rewrite (synthesized_seed_job lib ctx st j H F).
  eexists. split; [exact seed_job_copy | ]. split; [reflexivity | ].
  assert (V : forall l : location,
            (exists name, l = OnVolume data_file_system name)
            \/ (forall name, l <> OnVolume data_file_system name)).
  { intros [fs name | p | b k | pk]; [ | right; discriminate ..].
    destruct (String.eqb fs data_file_system) eqn:E.
    - apply String.eqb_eq in E. subst fs. left. exists name. reflexivity.
    - right. intros n Q. injection Q as -> _. rewrite String.eqb_refl in E.
      discriminate E. }
  split; [exact seed_copy_elsewhere | ].
  split; [intros s name E; rewrite seed_copy_on_volume, E; reflexivity | ].
  split.
  - intros s l N. destruct (V l) as [[name ->] | Else].
    + rewrite seed_copy_on_volume.
      destruct (s (InContainer ("/openmrs/data/" ++ name))); [discriminate | exact N].
    + rewrite (seed_copy_elsewhere s l Else). exact N.
  - intros s l. destruct (V l) as [[name ->] | Else].
    + rewrite !seed_copy_on_volume.
      rewrite (seed_copy_elsewhere s (InContainer ("/openmrs/data/" ++ name)))
        by discriminate.
      destruct (s (InContainer ("/openmrs/data/" ++ name))); reflexivity.
    + rewrite !(seed_copy_elsewhere _ l Else). reflexivity.
Qed.

Lemma seed_job_only_adds_to_the_data_volume_witness :
  synth accepting default_context = inr (stack_of default_context)
  /\ find_job (stack_of default_context) "WriteOpenMRSDatatoDataEFSTask"
       "OneTimePrepareEFSContainer" = Some seed_job
  /\ exists copy,
       job_copy seed_job = Some copy
       /\ copy (put cert_pem (Data 9) empty_store) cert_pem = Some (Data 9).
Proof.
  assert (S : synth accepting default_context = inr (stack_of default_context)) by evaluate.
  assert (J : find_job (stack_of default_context) "WriteOpenMRSDatatoDataEFSTask"
                "OneTimePrepareEFSContainer" = Some seed_job) by evaluate.
  split; [exact S | ]. split; [exact J | ].
  destruct (seed_job_only_adds_to_the_data_volume accepting default_context
              (stack_of default_context) seed_job S J) as (copy & C & _ & E & _).
  exists copy. split; [exact C | ].
  rewrite E; [evaluate | ].
  intros name. unfold cert_pem. intros Q. injection Q as Q _.
  vm_compute in Q. discriminate Q.
Defined.

(** ** What the service waits for *)

Lemma has_edge_In (st : Stack) (a b : string) :
  has_edge st a b = true -> In (a, b) (edges st).
Proof.
  unfold has_edge. intros H. apply existsb_exists in H.
  destruct H as ([x y] & I & E). simpl in E.
  apply andb_prop in E. destruct E as [Ea Eb].
  apply String.eqb_eq in Ea, Eb. subst x y. exact I.
Qed.

Lemma ordering_edge (st : Stack) (a b : string) :
  ordering_edges_present st = true -> In (a, b) ordering_edges -> In (a, b) (edges st).
Proof.
  unfold ordering_edges_present. intros H I.
  rewrite forallb_forall in H. apply has_edge_In. exact (H (a, b) I).
Qed.

(** X14.  The two explicit dependencies compose with the references of
    the constructs: the service is created only after the database (it
    runs on the cluster, which [_create_ecs_cluster] makes wait for the
    database), after both file systems its task definition mounts, and
    after the TLS trigger together with the task definition the trigger
    runs.  The two job triggers wait for the database as well, through the
    cluster their environment names. *)
Theorem service_awaits_database_and_tls_job (lib : Library) (ctx : Context) (st : Stack) :
  synth lib ctx = inr st ->
  Forall (depends_on st "OpenMRSFargateLBService")
    ["ecs-cluster"; "DatabaseCluster"; "EfsFileSystemForFileStorage";
     "EfsFileSystemForSslFolder"; "OneTimeSSLSetup"; "CreateSSLMaterialsTaskDefinition"]
  /\ depends_on st "OneTimeSSLSetup" "DatabaseCluster"
  /\ depends_on st "OneTimeEFSDataSetup" "DatabaseCluster".
Proof.
  intros H. apply synthesized_more_stack in H.
  destruct H as (_ & _ & _ & _ & _ & _ & _ & _ & _ & _ & _ & _ & _ & _ & _ & He).
  assert (E : forall a b, In (a, b) ordering_edges -> In (a, b) (edges st))
    by (intros a b; apply ordering_edge; exact He).
  assert (Cdb : depends_on st "ecs-cluster" "DatabaseCluster")
    by (apply depends_edge, E; simpl; auto 10).
  assert (Via : forall a b c, In (a, b) ordering_edges -> depends_on st b c ->
                 depends_on st a c)
    by (intros a b c I D; exact (depends_step st a b c (E a b I) D)).
  assert (Direct : forall a b, In (a, b) ordering_edges -> depends_on st a b)
    by (intros a b I; exact (depends_edge st a b (E a b I))).
  split; [ | split].
  - repeat (apply Forall_cons; [ | ]); [ .. | apply Forall_nil].
    + apply Direct. simpl. auto 10.
    + apply (Via _ "ecs-cluster"); [simpl; auto 10 | exact Cdb].
    + apply (Via _ "OpenMRSFargateTaskDefinition"); [simpl; auto 10 | ].
      apply Direct. simpl. auto 10.
    + apply (Via _ "OpenMRSFargateTaskDefinition"); [simpl; auto 10 | ].
      apply Direct. simpl. auto 10.
    + apply Direct. simpl. auto 10.
    + apply (Via _ "OneTimeSSLSetup"); [simpl; auto 10 | ].
      apply Direct. simpl. auto 10.
  - apply (Via _ "ecs-cluster"); [simpl; auto 10 | exact Cdb].
  - apply (Via _ "ecs-cluster"); [simpl; auto 10 | exact Cdb].
Qed.

Lemma service_awaits_database_and_tls_job_witness :
  synth accepting default_context = inr (stack_of default_context)
  /\ depends_on (stack_of default_context) "OpenMRSFargateLBService" "DatabaseCluster".
Proof.
  assert (S : synth accepting default_context = inr (stack_of default_context)) by evaluate.
  split; [exact S | ].
  destruct (service_awaits_database_and_tls_job accepting default_context
              (stack_of default_context) S) as (F & _ & _).
  inversion F as [| ? ? _ F1]. inversion F1 as [| ? ? D _]. exact D.
Defined.
